(** * The k-fold training driver of train_sweep_kfold.py

    A shallow embedding of the orchestration logic of [train] and
    [getDataloader]: label encoding, fold planning, loader construction,
    the per-batch augmentation policy, the validation aggregates, the
    best-value trackers with early stopping and checkpointing, and the
    final averaging over folds.

    Conventions.
    - Python floats are used by the driver only through comparisons, sums
      and a division by a count.  They are embedded as rationals [Q]
      (exact arithmetic, no NaN), extended with [Inf] where the driver
      starts a tracker from [np.inf].  A division by a zero count, which
      numpy answers with nan or inf, has no counterpart here: statements
      about the value of a metric are made for positive counts.
    - Python ints that count things are [nat]; class labels are [Z].
    - What the network computes is opaque to the driver and is supplied by
      the class [Collaborators]: the predicted class of a sample, the loss
      of a batch and the macro F1 of a batch, each at a given fold and
      epoch.
    - The file system is a finite map from paths to the weights stored
      there.
    - The code is embedded in two layers.  [validate], [epoch_end],
      [run_epoch], [epoch_loop], [train_fold], [fold_loop] and [train] are
      the bookkeeping of the epochs, folds and runs that get through.  The
      definitions named [..._or_raise] add, in the order of the source, the
      places where the driver raises (the [torch.stack] of a training
      batch, the division of the log line, the assertion of the grid,
      [torch.save] into a missing directory, the [print] of an int with a
      float precision); where one of them returns [Ok], the first layer
      gives the same result. *)

From Stdlib Require Import ZArith QArith Lia List String.
From Stdlib Require Import Sorting.Mergesort Sorting.Permutation.
From stdpp Require Import gmap strings list pretty.
Import ListNotations.

(* ================================================================== *)
(** * Numbers *)
(* ================================================================== *)

Module PyNum.

(** A Python float that may be [np.inf]. *)
Inductive pyfloat : Type :=
  | Fin (q : Q)
  | Inf.

(** [a < b] on finite floats. *)
Definition Qltb (a b : Q) : bool := negb (Qle_bool b a).

(** [a < b] on floats; nothing is above [np.inf]. *)
Definition float_ltb (a b : pyfloat) : bool :=
  match a, b with
  | Fin x, Fin y => Qltb x y
  | Fin _, Inf => true
  | Inf, _ => false
  end.

Definition float_le (a b : pyfloat) : Prop :=
  match a, b with
  | Fin x, Fin y => (x <= y)%Q
  | _, Inf => True
  | Inf, Fin _ => False
  end.

(** The builtin [min(a, b)]: the second argument replaces the first
    only when it is strictly smaller. *)
Definition py_min (a b : pyfloat) : pyfloat :=
  if float_ltb b a then b else a.

(** The builtin [max(a, b)]: the second argument replaces the first
    only when it is strictly greater. *)
Definition py_max (a b : Q) : Q :=
  if Qltb a b then b else a.

(** [np.sum] of a list of floats. *)
Definition np_sum (l : list Q) : Q := fold_right Qplus 0%Q l.

(** [np.sum] of a list that may hold [np.inf]. *)
Definition np_sum_inf (l : list pyfloat) : pyfloat :=
  fold_right
    (fun x acc =>
       match x, acc with
       | Fin a, Fin b => Fin (a + b)%Q
       | _, _ => Inf
       end)
    (Fin 0%Q) l.

(** [np.sum] of a list of ints. *)
Definition np_sum_int (l : list nat) : nat := fold_right Nat.add 0 l.

(** An int used as a float. *)
Definition of_int (n : nat) : Q := inject_Z (Z.of_nat n).

(** [x / n] for a float [x] and an int [n]. *)
Definition div_int (x : Q) (n : nat) : Q := (x / of_int n)%Q.

Definition div_int_inf (x : pyfloat) (n : nat) : pyfloat :=
  match x with
  | Fin q => Fin (div_int q n)
  | Inf => Inf
  end.

End PyNum.
Import PyNum.

(* ================================================================== *)
(** * The label codec *)
(* ================================================================== *)

Module MaskBaseDataset.

(** Modelled from the spec: [MaskBaseDataset.encode_multi_class] and
    [MaskBaseDataset.decode_multi_class] are defined in dataset.py, which
    is not among the sources.  The spec describes them as a fixed
    encoding/decoding bijection between (mask, gender, age) triples and
    one multi-class index, and the driver's class table has 18 entries
    (3 mask states, 2 genders, 3 age bands, mask-major): the code is the
    mixed-radix number of the triple. *)
Definition encode_multi_class (mask_label gender_label age_label : Z) : Z :=
  (mask_label * 6 + gender_label * 3 + age_label)%Z.

(** Modelled from the spec: the inverse reading of the mixed-radix code,
    with Python's floor division and modulo. *)
Definition decode_multi_class (multi_class_label : Z) : Z * Z * Z :=
  (((multi_class_label / 6) mod 3)%Z,
   ((multi_class_label / 3) mod 2)%Z,
   (multi_class_label mod 3)%Z).

(** The sub-labels the dataset can hold. *)
Definition valid_triple (mask_label gender_label age_label : Z) : Prop :=
  (0 <= mask_label < 3)%Z /\ (0 <= gender_label < 2)%Z /\ (0 <= age_label < 3)%Z.

Definition num_classes : Z := 18.

End MaskBaseDataset.

(** The dataset object as the driver reads it. *)
Record Dataset : Type := {
  image_paths : list string;
  mask_labels : list Z;
  gender_labels : list Z;
  age_labels : list Z;
  (** the label that [dataset[i]] delivers with image [i] *)
  target : nat -> Z;
  (** [len(val_set)] for the [val_set] of [dataset.split_dataset()] *)
  split_val_len : nat
}.

(** Python's [zip] of three lists. *)
Fixpoint zip3 {A B C : Type} (la : list A) (lb : list B) (lc : list C)
  : list (A * B * C) :=
  match la, lb, lc with
  | a :: la', b :: lb', c :: lc' => (a, b, c) :: zip3 la' lb' lc'
  | _, _, _ => []
  end.

(** [labels = [dataset.encode_multi_class(mask, gender, age) for ...]] *)
Definition kfold_labels (dataset : Dataset) : list Z :=
  List.map
    (fun '(mask, gender, age) =>
       MaskBaseDataset.encode_multi_class mask gender age)
    (zip3 (mask_labels dataset) (gender_labels dataset) (age_labels dataset)).

(* ================================================================== *)
(** * The fold planner *)
(* ================================================================== *)

Module StratifiedKFold.

(** Modelled from the spec: the fold planner is scikit-learn's
    [StratifiedKFold(n_splits).split(X, y)] with its default
    [shuffle=False]; its code is not among the sources.  The spec asks
    for a stratified partition of the sample indices by label that is a
    function of the label order.  The definitions below follow the
    library's procedure: classes are numbered by first appearance, the
    sorted class column is dealt round-robin over the folds to fix how
    many samples of each class a fold receives, and each class then
    hands its samples to the folds in blocks, in dataset order. *)

(** Distinct labels in order of first appearance. *)
Definition classes (y : list Z) : list Z :=
  fold_left (fun seen c => if existsb (Z.eqb c) seen then seen else seen ++ [c]) y [].

(** Position of [c] in [l] ([length l] when absent). *)
Fixpoint index_of (c : Z) (l : list Z) : nat :=
  match l with
  | [] => 0
  | x :: l' => if Z.eqb c x then 0 else S (index_of c l')
  end.

Definition y_encoded (y : list Z) : list nat :=
  List.map (fun c => index_of c (classes y)) y.

(** [np.bincount(a, minlength=n)[k]] *)
Definition bincount (a : list nat) (k : nat) : nat :=
  count_occ Nat.eq_dec a k.

(** The slice [a[skip::step]]. *)
Fixpoint stride {A : Type} (step skip : nat) (a : list A) : list A :=
  match a with
  | [] => []
  | x :: a' =>
      match skip with
      | 0 => x :: stride step (step - 1) a'
      | S s => stride step s a'
      end
  end.

(** [allocation[i][k]]: how many samples of class [k] fold [i] tests. *)
Definition allocation (n_splits : nat) (y : list Z) (i k : nat) : nat :=
  bincount (stride n_splits i (NatSort.sort (y_encoded y))) k.

(** [np.arange(n_splits).repeat(allocation[:, k])] *)
Definition folds_for_class (n_splits : nat) (y : list Z) (k : nat) : list nat :=
  flat_map (fun i => repeat i (allocation n_splits y i k)) (seq 0 n_splits).

(** [arr[mask] = vals]: the values go, in order, to the positions where
    the mask holds; numpy refuses the assignment unless there are exactly
    as many values as such positions.  A cell of [np.empty] that was
    never assigned is [None]. *)
Fixpoint mask_assign (mask : list bool) (vals : list nat) (arr : list (option nat))
  : option (list (option nat)) :=
  match mask, arr with
  | [], [] => match vals with [] => Some [] | _ :: _ => None end
  | true :: mask', _ :: arr' =>
      match vals with
      | [] => None
      | v :: vals' => cons (Some v) <$> mask_assign mask' vals' arr'
      end
  | false :: mask', a :: arr' => cons a <$> mask_assign mask' vals arr'
  | _, _ => None
  end.

(** The loop [for k in range(n_classes): test_folds[y_encoded == k] = ...] *)
Fixpoint assign_classes (n_splits : nat) (y : list Z) (ks : list nat)
         (test_folds : list (option nat)) : option (list (option nat)) :=
  match ks with
  | [] => Some test_folds
  | k :: ks' =>
      test_folds' ← mask_assign (List.map (Nat.eqb k) (y_encoded y))
                                (folds_for_class n_splits y k) test_folds;
      assign_classes n_splits y ks' test_folds'
  end.

(** [_make_test_folds]: [None] stands for the library's [ValueError]
    (no class has as many members as there are folds). *)
Definition make_test_folds (n_splits : nat) (y : list Z) : option (list (option nat)) :=
  let n_classes := length (classes y) in
  let y_counts := List.map (bincount (y_encoded y)) (seq 0 n_classes) in
  if forallb (fun c => c <? n_splits) y_counts then None
  else assign_classes n_splits y (seq 0 n_classes) (repeat None (length y)).

(** [indices[test_folds == i]] and [indices[~(test_folds == i)]] *)
Definition in_fold (i : nat) (f : option nat) : bool :=
  match f with
  | Some j => Nat.eqb j i
  | None => false
  end.

Fixpoint select (mask : list bool) (indices : list nat) : list nat :=
  match mask, indices with
  | b :: mask', x :: indices' =>
      if b then x :: select mask' indices' else select mask' indices'
  | _, _ => []
  end.

(** [split(X, y)]: the list of (train indices, validation indices), one
    pair per fold; [None] for a [ValueError] (X and y of different
    lengths, more folds than samples, or the class-size guard). *)
Definition split (n_splits : nat) (X : list string) (y : list Z)
  : option (list (list nat * list nat)) :=
  if negb (length X =? length y) then None
  else if length X <? n_splits then None
  else
    test_folds ← make_test_folds n_splits y;
    let indices := seq 0 (length X) in
    Some (List.map
            (fun i =>
               let test_mask := List.map (in_fold i) test_folds in
               (select (List.map negb test_mask) indices,
                select test_mask indices))
            (seq 0 n_splits)).

End StratifiedKFold.

(* ================================================================== *)
(** * Data loaders *)
(* ================================================================== *)

(** [torch.utils.data.Subset(dataset, indices)]: sample [j] of the subset
    is sample [indices[j]] of the dataset. *)
Record Subset : Type := {
  sub_dataset : Dataset;
  indices : list nat
}.

Module DataLoader.

(** Modelled from the spec: [torch.utils.data.DataLoader] is a library
    class whose code is not among the sources.  The spec fixes what the
    driver relies on: batches of a fixed size, taken in subset order
    unless a sampler says otherwise, the final incomplete batch dropped
    when [drop_last] is set.  A loader is the record of its constructor
    arguments; [sampler], when given, is the sequence of subset positions
    it draws. *)
Record t : Type := {
  dataset : Subset;
  batch_size : nat;
  sampler : option (list nat);
  drop_last : bool;
  shuffle : bool
}.

(** The batch sampler: append to the current batch, emit it when it
    reaches [batch_size], and at the end emit a non-empty remainder only
    when [drop_last] is off. *)
Fixpoint batch_sampler {A : Type} (batch_size : nat) (drop_last : bool)
         (batch : list A) (source : list A) : list (list A) :=
  match source with
  | [] =>
      if (0 <? length batch) && negb drop_last then [batch] else []
  | idx :: source' =>
      let batch' := batch ++ [idx] in
      if length batch' =? batch_size
      then batch' :: batch_sampler batch_size drop_last [] source'
      else batch_sampler batch_size drop_last batch' source'
  end.

(** The subset positions drawn in one pass, in order. *)
Definition positions (dl : t) : list nat :=
  match sampler dl with
  | Some drawn => drawn
  | None => seq 0 (length (indices (dataset dl)))
  end.

(** One pass over the loader: the batches, each a list of dataset
    indices. *)
Definition iter (dl : t) : list (list nat) :=
  batch_sampler (batch_size dl) (drop_last dl) []
    (omap (fun j => indices (dataset dl) !! j) (positions dl)).

(** [len(loader)] *)
Definition len (dl : t) : nat :=
  let n := length (positions dl) in
  if drop_last dl then n / batch_size dl
  else (n + batch_size dl - 1) / batch_size dl.

End DataLoader.

(** [getDataloader]; [None] is the library's [ValueError] for a batch size
    that is not positive. *)
Definition getDataloader (dataset : Dataset) (train_idx valid_idx : list nat)
           (batch_size : nat) (sampler : option (list nat))
  : option (DataLoader.t * DataLoader.t) :=
  let train_set := {| sub_dataset := dataset; indices := train_idx |} in
  let val_set := {| sub_dataset := dataset; indices := valid_idx |} in
  if batch_size =? 0 then None
  else
    let train_loader :=
      {| DataLoader.dataset := train_set;
         DataLoader.batch_size := batch_size;
         DataLoader.sampler := sampler;
         DataLoader.drop_last := true;
         DataLoader.shuffle := false |} in
    let val_loader :=
      {| DataLoader.dataset := val_set;
         DataLoader.batch_size := batch_size;
         DataLoader.sampler := None;
         DataLoader.drop_last := true;
         DataLoader.shuffle := false |} in
    Some (train_loader, val_loader).

(* ================================================================== *)
(** * Command-line arguments and collaborators *)
(* ================================================================== *)

Record Args : Type := {
  epochs : nat;
  batch_size : nat;
  cutmix : string;
  augmentation : string
}.

(** The image transforms the training phase may apply.  [to_numpy] is the
    detached integer copy [inputs_np] the driver makes of every batch. *)
Class Transforms (image : Type) : Type := {
  CutmixFace : list image * list Z -> list image * list Z;
  to_numpy : image -> image;
  CustomAugmentation : image -> image
}.

(** What the network and the metric library compute, at a given fold and
    epoch. *)
Class Collaborators : Type := {
  (** [torch.argmax(model(inputs), dim=-1)] for one sample *)
  predict : nat -> nat -> nat -> Z;
  (** [criterion(outs, labels).item()] for one batch *)
  criterion : nat -> nat -> list nat -> Q;
  (** [f1_score(labels, preds, average="macro")] *)
  f1_score : list Z -> list Z -> Q
}.

(* ================================================================== *)
(** * Batch preparation *)
(* ================================================================== *)

Section BatchPreparation.
Context {image : Type} `{Transforms image}.

(** [label in [0, 1, 3, 4]] *)
Definition exempt (label : Z) : bool :=
  existsb (Z.eqb label) [0; 1; 3; 4]%Z.

End BatchPreparation.

(* ================================================================== *)
(** * The per-fold trainer *)
(* ================================================================== *)

(** The weights a checkpoint holds: those of fold [ck_fold] after the
    training phase of epoch [ck_epoch]. *)
Record checkpoint : Type := {
  ck_fold : nat;
  ck_epoch : nat
}.

Record val_metrics : Type := {
  val_loss : Q;
  val_acc : Q;
  val_f1 : Q
}.

(** What outlives a fold: the files on disk and the tracking sink. *)
Record world : Type := {
  files : gmap string checkpoint;
  wandb_logs : list val_metrics
}.

Record fold_state : Type := {
  best_val_acc : Q;
  best_val_f1 : Q;
  best_val_loss : pyfloat;
  counter : nat
}.

Inductive flow : Type := Continue | Break.

Definition patience : nat := 5.

(** [torch.save(model.module.state_dict(), path)], when the directory of
    [path] exists; [epoch_end_or_raise] has the other case. *)
Definition torch_save (ck : checkpoint) (path : string) (w : world) : world :=
  {| files := <[path := ck]> (files w); wandb_logs := wandb_logs w |}.

(** [wandb.log({...})] *)
Definition wandb_log (m : val_metrics) (w : world) : world :=
  {| files := files w; wandb_logs := wandb_logs w ++ [m] |}.

Definition best_path (save_dir : string) : string := save_dir +:+ "/best.pth".
Definition last_path (save_dir : string) : string := save_dir +:+ "/last.pth".

Section Trainer.
Context `{Collaborators}.

(** The validation loop of one epoch and its aggregates.  [len_val_set]
    is [len(val_set)], where [val_set] is the variable of [train].  The
    grid that the loop draws from its first batch is [first_batch_figure],
    and [validate_or_raise] is the pass with the assertion of the grid. *)
Definition validate (dataset : Dataset) (fold epoch : nat)
           (val_loader : DataLoader.t) (len_val_set : nat) : val_metrics :=
  let batches := DataLoader.iter val_loader in
  let labels_of := List.map (target dataset) in
  let preds_of := List.map (predict fold epoch) in
  let val_loss_items := List.map (criterion fold epoch) batches in
  let val_acc_items :=
    List.map
      (fun batch =>
         length (List.filter (fun i => Z.eqb (target dataset i) (predict fold epoch i))
                             batch))
      batches in
  let val_f1_items :=
    List.map (fun batch => f1_score (labels_of batch) (preds_of batch)) batches in
  {| val_loss := div_int (np_sum val_loss_items) (DataLoader.len val_loader);
     val_acc := div_int (of_int (np_sum_int val_acc_items)) len_val_set;
     val_f1 := div_int (np_sum val_f1_items) (DataLoader.len val_loader) |}.

(** The tail of the epoch body, from the tracker updates on: what it does
    to the trackers, the disk and the log.  [epoch_end_or_raise] is the
    same tail with the exceptions of [torch.save] and [print]. *)
Definition epoch_end (save_dir : string) (fold epoch : nat) (m : val_metrics)
           (st : fold_state) (w : world) : fold_state * world * flow :=
  let ck := {| ck_fold := fold; ck_epoch := epoch |} in
  let best_val_loss' := py_min (best_val_loss st) (Fin (val_loss m)) in
  let best_val_acc' := py_max (best_val_acc st) (val_acc m) in
  let '(best_val_f1', counter', w) :=
    if Qltb (best_val_f1 st) (val_f1 m)
    then (val_f1 m, 0, torch_save ck (best_path save_dir) w)
    else (best_val_f1 st, counter st + 1, w) in
  let st' :=
    {| best_val_acc := best_val_acc';
       best_val_f1 := best_val_f1';
       best_val_loss := best_val_loss';
       counter := counter' |} in
  if patience <? counter' then (st', w, Break)
  else (st', wandb_log m (torch_save ck (last_path save_dir) w), Continue).

Definition init_fold_state : fold_state :=
  {| best_val_acc := 0%Q;
     best_val_f1 := 0%Q;
     best_val_loss := Inf;
     counter := 0 |}.

(** One epoch: the validation pass on the current weights, then the
    bookkeeping.  [e] ranges over [range(args.epochs)]; the body starts
    with [epoch += 1]. *)
Definition run_epoch (dataset : Dataset) (save_dir : string) (fold : nat)
           (val_loader : DataLoader.t) (len_val_set : nat)
           (e : nat) (st : fold_state) (w : world) : fold_state * world * flow :=
  let epoch := e + 1 in
  let m := validate dataset fold epoch val_loader len_val_set in
  epoch_end save_dir fold epoch m st w.

(** [for epoch in range(args.epochs): ...] with its [break]. *)
Fixpoint epoch_loop (body : nat -> fold_state -> world -> fold_state * world * flow)
         (range : list nat) (st : fold_state) (w : world) : fold_state * world :=
  match range with
  | [] => (st, w)
  | e :: range' =>
      match body e st w with
      | (st', w', Break) => (st', w')
      | (st', w', Continue) => epoch_loop body range' st' w'
      end
  end.

(** The same loop, keeping what every executed epoch left behind. *)
Fixpoint epoch_trace (body : nat -> fold_state -> world -> fold_state * world * flow)
         (range : list nat) (st : fold_state) (w : world)
  : list (fold_state * world * flow) :=
  match range with
  | [] => []
  | e :: range' =>
      match body e st w with
      | (st', w', Break) => [(st', w', Break)]
      | (st', w', Continue) => (st', w', Continue) :: epoch_trace body range' st' w'
      end
  end.

(** The three run-level sequences. *)
Record kfold : Type := {
  kfold_val_loss : list pyfloat;
  kfold_val_acc : list Q;
  kfold_val_f1 : list Q
}.

Definition kfold_append (k : kfold) (st : fold_state) : kfold :=
  {| kfold_val_loss := kfold_val_loss k ++ [best_val_loss st];
     kfold_val_acc := kfold_val_acc k ++ [best_val_acc st];
     kfold_val_f1 := kfold_val_f1 k ++ [best_val_f1 st] |}.

(** The body of the fold loop. *)
Definition train_fold (args : Args) (dataset : Dataset) (save_dir : string)
           (fold : nat) (train_idx valid_idx : list nat) (w : world)
  : option (fold_state * world) :=
  '(train_loader, val_loader) ←
    getDataloader dataset train_idx valid_idx (batch_size args) None;
  Some (epoch_loop
          (run_epoch dataset save_dir fold val_loader (split_val_len dataset))
          (seq 0 (epochs args)) init_fold_state w).

(** [for fold, (train_idx, valid_idx) in enumerate(skf.split(...))] *)
Fixpoint fold_loop (args : Args) (dataset : Dataset) (save_dir : string)
         (folds : list (nat * (list nat * list nat))) (k : kfold) (w : world)
  : option (kfold * world) :=
  match folds with
  | [] => Some (k, w)
  | (fold, (train_idx, valid_idx)) :: folds' =>
      '(st, w') ← train_fold args dataset save_dir fold train_idx valid_idx w;
      fold_loop args dataset save_dir folds' (kfold_append k st) w'
  end.

Definition enumerate {A : Type} (l : list A) : list (nat * A) :=
  zip (seq 0 (length l)) l.

Record report : Type := {
  kfolds : kfold;
  mean_acc : pyfloat;
  mean_loss : Q;
  mean_f1 : Q;
  disk : gmap string checkpoint
}.

Definition n_splits : nat := 5.

(** [train]: [save_dir] is the directory name computed once, before the
    fold loop; [w] is the disk and the tracking sink at that moment.
    This is the bookkeeping of a run; [train_or_raise] is the run with the
    exceptions on its way. *)
Definition train (args : Args) (dataset : Dataset) (save_dir : string) (w : world)
  : option report :=
  let labels := kfold_labels dataset in
  folds ← StratifiedKFold.split n_splits (image_paths dataset) labels;
  '(k, w') ← fold_loop args dataset save_dir (enumerate folds)
               {| kfold_val_loss := []; kfold_val_acc := []; kfold_val_f1 := [] |} w;
  Some {| kfolds := k;
          mean_acc := div_int_inf (np_sum_inf (kfold_val_loss k)) n_splits;
          mean_loss := div_int (np_sum (kfold_val_acc k)) n_splits;
          mean_f1 := div_int (np_sum (kfold_val_f1 k)) n_splits;
          disk := files w' |}.

End Trainer.

(* ================================================================== *)
(** * Vocabulary of the statements *)
(* ================================================================== *)

(** The state and the world in force when the [i]-th executed epoch of a
    trace begins. *)
Definition before (tr : list (fold_state * world * flow))
           (st0 : fold_state) (w0 : world) (i : nat) : fold_state * world :=
  match i with
  | 0 => (st0, w0)
  | S j =>
      match tr !! j with
      | Some (st, w, _) => (st, w)
      | None => (st0, w0)
      end
  end.

(** [x] is the least element of [l]. *)
Definition is_min_of (x : Q) (l : list Q) : Prop :=
  In x l /\ forall y, In y l -> (x <= y)%Q.

(** [x] is, as a rational, the greatest element of [l]. *)
Definition is_max_of (x : Q) (l : list Q) : Prop :=
  (exists a, In a l /\ (x == a)%Q) /\ forall y, In y l -> (y <= x)%Q.

(** [x] is the greater of [floor] and the elements of [l]. *)
Definition is_max_above (floor x : Q) (l : list Q) : Prop :=
  (x = floor \/ In x l) /\ (floor <= x)%Q /\ forall y, In y l -> (y <= x)%Q.

(** The validation metrics of the first [i] epochs of a range. *)
Definition metrics_seen (m : nat -> val_metrics) (range : list nat) (i : nat)
  : list val_metrics :=
  List.map m (take i range).

(** How many cells a boolean mask selects. *)
Definition count_true (mask : list bool) : nat :=
  length (List.filter (fun b => b) mask).

(** The validation index sets of a fold plan. *)
Definition validation_sets (folds : list (list nat * list nat)) : list (list nat) :=
  List.map snd folds.

(** Whether the training loop applies cutmix to a batch. *)
Definition cutmix_applies (args : Args) (coin : Q) : bool :=
  Qltb (1 # 2) coin && String.eqb (cutmix args) "yes".

(** The trackers each fold ends with, the folds run one after the other
    on the same disk. *)
Fixpoint fold_states `{Collaborators} (args : Args) (dataset : Dataset)
         (save_dir : string) (folds : list (nat * (list nat * list nat)))
         (w : world) : option (list fold_state) :=
  match folds with
  | [] => Some []
  | (fold, (train_idx, valid_idx)) :: folds' =>
      '(st, w') ← train_fold args dataset save_dir fold train_idx valid_idx w;
      sts ← fold_states args dataset save_dir folds' w';
      Some (st :: sts)
  end.

(** Between two moments, nothing but the two checkpoint paths changed on
    disk. *)
Definition only_checkpoints_written (save_dir : string) (w0 w1 : world) : Prop :=
  forall p : string,
    p <> best_path save_dir -> p <> last_path save_dir ->
    files w1 !! p = files w0 !! p.

(** Whether the network is right on sample [i]. *)
Definition correct `{Collaborators} (dataset : Dataset) (fold epoch : nat) (i : nat) : bool :=
  Z.eqb (target dataset i) (predict fold epoch i).


(* ================================================================== *)
(** * Sample inputs *)
(* ================================================================== *)

(** Eleven images whose sub-labels are all 0, of which
    [dataset.split_dataset()] sets two aside. *)
Definition eleven_images : Dataset :=
  {| image_paths := repeat "img.jpg" 11;
     mask_labels := repeat 0%Z 11;
     gender_labels := repeat 0%Z 11;
     age_labels := repeat 0%Z 11;
     target := fun _ => 0%Z;
     split_val_len := 2 |}.

(** A network that predicts class 0 for every sample. *)
Definition always_zero : Collaborators :=
  {| predict := fun _ _ _ => 0%Z;
     criterion := fun _ _ _ => (1 # 2)%Q;
     f1_score := fun _ _ => 1%Q |}.

Definition sample_args (epochs batch_size : nat) : Args :=
  {| epochs := epochs;
     batch_size := batch_size;
     cutmix := "no";
     augmentation := "CustomAugmentation" |}.

(** The validation loader of the first of these folds. *)
Definition fold0_val_loader (batch_size : nat) : DataLoader.t :=
  {| DataLoader.dataset := {| sub_dataset := eleven_images; indices := [0; 1; 2] |};
     DataLoader.batch_size := batch_size;
     DataLoader.sampler := None;
     DataLoader.drop_last := true;
     DataLoader.shuffle := false |}.

(** An empty directory and an empty log. *)
Definition fresh_world : world := {| files := ∅; wandb_logs := [] |}.

(** Images as numbers: the copy adds 100, the augmentation adds 1000. *)
Definition sample_transforms : Transforms nat :=
  {| CutmixFace := fun batch => (List.map (fun x => x + 7) batch.1, batch.2);
     to_numpy := fun x => x + 100;
     CustomAugmentation := fun x => x + 1000 |}.

(* ================================================================== *)
(** * Exceptions *)
(* ================================================================== *)

(** [SaveError] stands for what [torch.save] raises when the directory of
    its path does not exist (a [RuntimeError] or a [FileNotFoundError],
    by the version of the library); [ReError] is [re.error]. *)
Inductive pyerror : Type :=
| AssertionError
| IndexError
| ValueError
| ZeroDivisionError
| TypeError
| SaveError
| ReError.

(** What a call yields: a value, or the exception it raises. *)
Inductive result (A : Type) : Type :=
| Ok (a : A)
| Raise (e : pyerror).

Arguments Ok {A} a.
Arguments Raise {A} e.

(* ================================================================== *)
(** * The qualitative grid *)
(* ================================================================== *)

(** One [plt.subplot] of the figure: its number in the grid, the sample
    of the batch it shows, and the lines of its title, each a task with
    the ground-truth and the predicted sub-label. *)
Record cell : Type := {
  position : nat;
  shown : nat;
  title : list (string * Z * Z)
}.

Record figure : Type := {
  n_grid : nat;
  cells : list cell
}.

Definition tasks : list string := ["mask"; "gender"; "age"].

(** The title of a cell:
    [zip(gt_decoded_labels, pred_decoded_labels, tasks)], one line each. *)
Definition title_lines (gt pred : Z) : list (string * Z * Z) :=
  let '(gt_mask, gt_gender, gt_age) := MaskBaseDataset.decode_multi_class gt in
  let '(pred_mask, pred_gender, pred_age) := MaskBaseDataset.decode_multi_class pred in
  List.map
    (fun '(gt_label, pred_label, task) => (task, gt_label, pred_label))
    (zip3 [gt_mask; gt_gender; gt_age] [pred_mask; pred_gender; pred_age] tasks).

(** The loop [for idx, choice in enumerate(choices)].  Indexing [gts],
    [preds] or [np_images] past the end raises [IndexError]; matplotlib
    raises [ValueError] for a subplot number outside [1 .. n_grid * n_grid]. *)
Fixpoint grid_cells (batch_size n_grid : nat) (gts preds : list Z)
         (idx : nat) (choices : list nat) : result (list cell) :=
  match choices with
  | [] => Ok []
  | choice :: choices' =>
      match gts !! choice with
      | None => Raise IndexError
      | Some gt =>
          match preds !! choice with
          | None => Raise IndexError
          | Some pred =>
              if batch_size <=? choice then Raise IndexError
              else if n_grid * n_grid <? idx + 1 then Raise ValueError
              else
                match grid_cells batch_size n_grid gts preds (S idx) choices' with
                | Ok rest =>
                    Ok ({| position := idx + 1;
                           shown := choice;
                           title := title_lines gt pred |} :: rest)
                | Raise e => Raise e
                end
          end
      end
  end.

(** [grid_image(np_images, gts, preds, n, shuffle)].  [batch_size] is
    [np_images.shape[0]]; [drawn] is what
    [random.choices(range(batch_size), k=n)] returns; [n_grid] is
    [int(np.ceil(n ** 0.5))]. *)
Definition grid_image (batch_size : nat) (gts preds : list Z) (n : nat)
           (shuffle : bool) (drawn : list nat) : result figure :=
  if negb (n <=? batch_size) then Raise AssertionError
  else
    let choices := if shuffle then drawn else seq 0 n in
    let n_grid := Nat.sqrt_up n in
    match grid_cells batch_size n_grid gts preds 0 choices with
    | Ok cs => Ok {| n_grid := n_grid; cells := cs |}
    | Raise e => Raise e
    end.

(** The grid of a validation epoch: [figure] stays [None] until the first
    batch, which is drawn with [n=16] and
    [shuffle=args.dataset != "MaskSplitByProfileDataset"]. *)
Definition first_batch_figure `{Collaborators} (dataset : Dataset)
           (args_dataset : string) (fold epoch : nat) (val_loader : DataLoader.t)
           (drawn : list nat) : result (option figure) :=
  match DataLoader.iter val_loader with
  | [] => Ok None
  | batch :: _ =>
      match grid_image (length batch)
                       (List.map (target dataset) batch)
                       (List.map (predict fold epoch) batch)
                       16
                       (negb (String.eqb args_dataset "MaskSplitByProfileDataset"))
                       drawn with
      | Ok fig => Ok (Some fig)
      | Raise e => Raise e
      end
  end.

(* ================================================================== *)
(** * The save directory *)
(* ================================================================== *)

(** What [increment_path] asks of pathlib, glob and re: the text of a
    path, whether it exists, its stem, the paths a pattern matches, and
    the number [int(m.groups()[0])] of a successful [re.search]. *)
Class PathLib : Type := {
  path_str : string -> string;
  path_exists : string -> bool;
  path_stem : string -> string;
  glob_glob : string -> list string;
  re_search_int : string -> string -> option nat
}.

(** [increment_path(path, exist_ok)], for a stem on which [re.search]
    and [int] raise nothing; [increment_path_or_raise] has the other
    case. *)
Definition increment_path `{PathLib} (path : string) (exist_ok : bool) : string :=
  if (path_exists path && exist_ok) || negb (path_exists path)
  then path_str path
  else
    let dirs := glob_glob (path_str path +:+ "*") in
    let i := omap (re_search_int (path_stem path +:+ "(\d+)")) dirs in
    let n := match i with [] => 2 | _ :: _ => max_list i + 1 end in
    path_str path +:+ pretty n.

(* ================================================================== *)
(** * The training phase of an epoch *)
(* ================================================================== *)

(** What one training batch contributes: [loss.item()],
    [(preds == labels).sum().item()] and the macro F1 of the batch. *)
Record train_batch : Type := {
  loss_item : Q;
  match_item : nat;
  f1_item : Q
}.

(** The running sums [loss_value], [matches] and [f1]. *)
Record running : Type := {
  loss_value : Q;
  matches : nat;
  f1 : Q
}.

(** One printed line: the batch number [idx + 1] and the three
    averages. *)
Record train_log : Type := {
  log_batch : nat;
  train_loss : Q;
  train_acc : Q;
  train_f1 : Q
}.

Definition running_zero : running :=
  {| loss_value := 0%Q; matches := 0; f1 := 0%Q |}.

(** [loss_value += ...; matches += ...; f1 += ...] *)
Definition accumulate (acc : running) (b : train_batch) : running :=
  {| loss_value := (loss_value acc + loss_item b)%Q;
     matches := matches acc + match_item b;
     f1 := (f1 acc + f1_item b)%Q |}.

(** The line printed from the running sums. *)
Definition log_line (log_interval : Z) (batch_size : nat) (idx : nat)
           (acc : running) : train_log :=
  {| log_batch := idx + 1;
     train_loss := (loss_value acc / inject_Z log_interval)%Q;
     train_acc := (of_int (matches acc) / of_int batch_size / inject_Z log_interval)%Q;
     train_f1 := (f1 acc / inject_Z log_interval)%Q |}.

(** [for idx, train_batch in enumerate(train_loader)], as far as the
    running sums and the printed lines go, on the values the network gave
    for the batches.  [(idx + 1) % args.log_interval] raises
    [ZeroDivisionError] for an interval of 0, and so does
    [matches / args.batch_size] for a batch size of 0 (both are ints).
    [train_loop] is the loop with the preparation of every batch. *)
Fixpoint train_phase (log_interval : Z) (batch_size : nat) (idx : nat)
         (batches : list train_batch) (acc : running)
  : result (running * list train_log) :=
  match batches with
  | [] => Ok (acc, [])
  | b :: batches' =>
      let acc' := accumulate acc b in
      if (log_interval =? 0)%Z then Raise ZeroDivisionError
      else if (Z.of_nat (idx + 1) mod log_interval =? 0)%Z
      then
        if batch_size =? 0 then Raise ZeroDivisionError
        else
          match train_phase log_interval batch_size (S idx) batches' running_zero with
          | Ok (acc_end, lines) =>
              Ok (acc_end, log_line log_interval batch_size idx acc' :: lines)
          | Raise e => Raise e
          end
      else train_phase log_interval batch_size (S idx) batches' acc'
  end.

(** The sum of a block of floats, added left to right from 0. *)
Definition running_sum (l : list Q) : Q := fold_left Qplus l 0%Q.

(** The batches number [j * k + 1] to [(j + 1) * k] of a list. *)
Definition block {A : Type} (k j : nat) (l : list A) : list A :=
  take k (drop (j * k) l).

(** [n] images whose sub-labels are all 0, of which
    [dataset.split_dataset()] sets [val_len] aside. *)
Definition uniform_images (n val_len : nat) : Dataset :=
  {| image_paths := repeat "img.jpg" n;
     mask_labels := repeat 0%Z n;
     gender_labels := repeat 0%Z n;
     age_labels := repeat 0%Z n;
     target := fun _ => 0%Z;
     split_val_len := val_len |}.

(** Five training batches of four samples each. *)
Definition sample_batches : list train_batch :=
  [{| loss_item := 2%Q; match_item := 1; f1_item := (1 # 4)%Q |};
   {| loss_item := 1%Q; match_item := 3; f1_item := (1 # 2)%Q |};
   {| loss_item := 1%Q; match_item := 4; f1_item := 1%Q |};
   {| loss_item := (1 # 2)%Q; match_item := 2; f1_item := (1 # 2)%Q |};
   {| loss_item := (1 # 4)%Q; match_item := 4; f1_item := 1%Q |}].

(** A model directory that holds exp, exp3 and exp7. *)
Definition sample_paths : PathLib :=
  {| path_str := fun p => p;
     path_exists := fun p => String.eqb p "model/exp";
     path_stem := fun _ => "exp";
     glob_glob := fun _ => ["model/exp"; "model/exp3"; "model/exp7"];
     re_search_int :=
       fun _ d =>
         if String.eqb d "model/exp3" then Some 3
         else if String.eqb d "model/exp7" then Some 7
         else None |}.

(* ================================================================== *)
(** * The run, with the exceptions on its way *)
(* ================================================================== *)

(** [validate], [epoch_end], [run_epoch], [epoch_loop], [train_fold],
    [fold_loop] and [train] above are the bookkeeping of a run that gets
    through.  The definitions of this part put in front of them, in the
    order of the source, the places where the driver raises: the
    [torch.stack] of the training batch, the division of the log line, the
    assertion of the grid, the two [torch.save] and the two [print] that
    format [best_val_f1]. *)

#[global] Instance result_bind : MBind result :=
  fun A B f r => match r with Ok a => f a | Raise e => Raise e end.

(** [re.search] and [int(m.groups()[0])], as [increment_path] calls them:
    the first raises [re.error] when the stem, which goes into the pattern
    unescaped, is no regular expression; the second raises when the stem
    brings a group of its own that holds no number. *)
Class RegexLib (re_match : Type) : Type := {
  re_search : string -> string -> result (option re_match);
  int_group0 : re_match -> result Z
}.

(** A list comprehension whose body may raise. *)
Fixpoint comprehension {A B : Type} (f : A -> result B) (l : list A) : result (list B) :=
  match l with
  | [] => Ok []
  | x :: l' =>
      match f x with
      | Raise e => Raise e
      | Ok y =>
          match comprehension f l' with
          | Raise e => Raise e
          | Ok ys => Ok (y :: ys)
          end
      end
  end.

(** The builtin [max] of a list of ints (0 for the empty list, on which
    the driver does not call it). *)
Definition py_max_list (i : list Z) : Z :=
  match i with
  | [] => 0%Z
  | x :: i' => fold_left Z.max i' x
  end.

(** [increment_path(path, exist_ok)], line by line:
    [matches = [re.search(...) for d in dirs]],
    [i = [int(m.groups()[0]) for m in matches if m]],
    [n = max(i) + 1 if i else 2]. *)
Definition increment_path_or_raise {re_match : Type} `{PathLib} `{RegexLib re_match}
           (path : string) (exist_ok : bool) : result string :=
  if (path_exists path && exist_ok) || negb (path_exists path)
  then Ok (path_str path)
  else
    let dirs := glob_glob (path_str path +:+ "*") in
    matches ← comprehension (re_search (path_stem path +:+ "(\d+)")) dirs;
    i ← comprehension int_group0 (omap id matches);
    let n := match i with [] => 2%Z | _ :: _ => (py_max_list i + 1)%Z end in
    Ok (path_str path +:+ pretty n).

(** An element of [aug_inputs]: a row of [inputs_np], appended as it is
    (line 350), or what [augmentation(input)] returned (lines 347-348). *)
Inductive element (image : Type) : Type :=
| Row (x : image)
| Augmented (x : image).

Arguments Row {image} x.
Arguments Augmented {image} x.

Definition is_row {image : Type} (e : element image) : bool :=
  match e with
  | Row _ => true
  | Augmented _ => false
  end.

Definition augmented_value {image : Type} (e : element image) : option image :=
  match e with
  | Row _ => None
  | Augmented x => Some x
  end.

(** What else a run consults: the image tensor of a sample, the tensor
    library on a list of augmentation results, the random numbers, and
    the network on a training batch. *)
Class Runtime (image : Type) : Type := {
  (** the image the loader delivers for sample [i] *)
  image_of : nat -> image;
  (** [torch.stack] on values that [augmentation] returned: the batch, or
      the library's exception when they are not tensors of one shape *)
  stack_augmented : list image -> result (list image);
  (** [np.random.random()] at batch [idx] of an epoch of a fold *)
  coin : nat -> nat -> nat -> Q;
  (** [loss.item()], [(preds == labels).sum().item()] and the macro F1 at
      batch [idx] of an epoch of a fold *)
  train_stats : nat -> nat -> nat -> list image -> list Z -> train_batch;
  (** [random.choices(range(batch_size), k=16)] in the validation pass of
      an epoch of a fold *)
  grid_draws : nat -> nat -> nat -> list nat;
  grid_draws_spec :
    forall batch_size fold epoch,
      0 < batch_size ->
      length (grid_draws batch_size fold epoch) = 16 /\
      Forall (fun c => c < batch_size) (grid_draws batch_size fold epoch)
}.

(** The arguments and the surroundings a run depends on besides [Args]:
    [args.log_interval], [args.dataset], and whether [save_dir] is a
    directory when the checkpoints are written (nothing in [train]
    creates it). *)
Record Setting : Type := {
  log_interval : Z;
  dataset_name : string;
  save_dir_exists : bool
}.

Section RaisingRun.
Context {image : Type} `{Transforms image} `{Runtime image} `{Collaborators}.

(** The loop that fills [aug_inputs]:
    [for input, label in zip(inputs_np, labels): ...] *)
Definition aug_inputs (inputs_np : list image) (labels : list Z) : list (element image) :=
  List.map
    (fun '(input, label) =>
       if negb (exempt label) then Augmented (CustomAugmentation input) else Row input)
    (zip inputs_np labels).

(** [torch.stack(aug_inputs)]: a numpy row is no tensor, and the library
    raises [TypeError] on a list that holds one. *)
Definition torch_stack (aug_inputs : list (element image)) : result (list image) :=
  if existsb is_row aug_inputs then Raise TypeError
  else stack_augmented (omap augmented_value aug_inputs).

(** The head of the training loop body, up to [optimizer.zero_grad()]
    (lines 327-351): [random] is the value of [np.random.random()]. *)
Definition train_batch_inputs (args : Args) (random : Q)
           (inputs : list image) (labels : list Z) : result (list image * list Z) :=
  let '(inputs, labels) :=
    if Qltb (1 # 2) random && String.eqb (cutmix args) "yes"
    then CutmixFace (inputs, labels)
    else (inputs, labels) in
  let inputs_np := List.map to_numpy inputs in
  if String.eqb (augmentation args) "CustomAugmentation"
  then
    match torch_stack (aug_inputs inputs_np labels) with
    | Raise e => Raise e
    | Ok inputs' => Ok (inputs', labels)
    end
  else Ok (inputs, labels).

(** [for idx, train_batch in enumerate(train_loader)] (lines 326-399):
    the batch is prepared, the network gives its loss, matches and F1,
    the sums grow, and every [log_interval] batches a line is printed. *)
Fixpoint train_loop (args : Args) (env : Setting) (dataset : Dataset)
         (fold epoch idx : nat) (batches : list (list nat)) (acc : running)
  : result (running * list train_log) :=
  match batches with
  | [] => Ok (acc, [])
  | batch :: batches' =>
      match train_batch_inputs args (coin fold epoch idx)
                               (List.map image_of batch)
                               (List.map (target dataset) batch) with
      | Raise e => Raise e
      | Ok (inputs, labels) =>
          let acc' := accumulate acc (train_stats fold epoch idx inputs labels) in
          if (log_interval env =? 0)%Z then Raise ZeroDivisionError
          else if (Z.of_nat (idx + 1) mod log_interval env =? 0)%Z
          then
            if batch_size args =? 0 then Raise ZeroDivisionError
            else
              match train_loop args env dataset fold epoch (S idx) batches' running_zero with
              | Raise e => Raise e
              | Ok (acc_end, lines) =>
                  Ok (acc_end,
                      log_line (log_interval env) (batch_size args) idx acc' :: lines)
              end
          else train_loop args env dataset fold epoch (S idx) batches' acc'
      end
  end.

(** The validation pass of an epoch (lines 403-498): the grid of the
    first batch is drawn inside the loop, before the aggregates. *)
Definition validate_or_raise (env : Setting) (dataset : Dataset) (fold epoch : nat)
           (val_loader : DataLoader.t) (len_val_set : nat) : result val_metrics :=
  let first_len :=
    match DataLoader.iter val_loader with
    | [] => 0
    | batch :: _ => length batch
    end in
  match first_batch_figure dataset (dataset_name env) fold epoch val_loader
                           (grid_draws first_len fold epoch) with
  | Raise e => Raise e
  | Ok _ => Ok (validate dataset fold epoch val_loader len_val_set)
  end.

(** The tail of the epoch body (lines 503-539).  [f1_is_int] says that
    [best_val_f1] is still the int 0 of line 309, which the [print] of
    line 524 cannot format with [:4.4]. *)
Definition epoch_end_or_raise (env : Setting) (save_dir : string) (fold epoch : nat)
           (m : val_metrics) (st : fold_state) (f1_is_int : bool) (w : world)
  : result (fold_state * bool * world * flow) :=
  let improved := Qltb (best_val_f1 st) (val_f1 m) in
  if improved && negb (save_dir_exists env) then Raise SaveError
  else
    let f1_is_int' := f1_is_int && negb improved in
    match epoch_end save_dir fold epoch m st w with
    | (st', w', Break) => Ok (st', f1_is_int', w', Break)
    | (st', w', Continue) =>
        if negb (save_dir_exists env) then Raise SaveError
        else if f1_is_int' then Raise ValueError
        else Ok (st', f1_is_int', w', Continue)
    end.

(** One epoch: training phase, validation pass, bookkeeping. *)
Definition run_epoch_or_raise (args : Args) (env : Setting) (dataset : Dataset)
           (save_dir : string) (fold : nat) (train_loader val_loader : DataLoader.t)
           (len_val_set : nat) (e : nat) (st : fold_state) (f1_is_int : bool) (w : world)
  : result (fold_state * bool * world * flow) :=
  let epoch := e + 1 in
  match train_loop args env dataset fold epoch 0 (DataLoader.iter train_loader)
                   running_zero with
  | Raise err => Raise err
  | Ok _ =>
      match validate_or_raise env dataset fold epoch val_loader len_val_set with
      | Raise err => Raise err
      | Ok m => epoch_end_or_raise env save_dir fold epoch m st f1_is_int w
      end
  end.

(** [for epoch in range(args.epochs): ...] with its [break]. *)
Fixpoint epoch_loop_or_raise
         (body : nat -> fold_state -> bool -> world ->
                 result (fold_state * bool * world * flow))
         (range : list nat) (st : fold_state) (f1_is_int : bool) (w : world)
  : result (fold_state * bool * world) :=
  match range with
  | [] => Ok (st, f1_is_int, w)
  | e :: range' =>
      match body e st f1_is_int w with
      | Raise err => Raise err
      | Ok (st', f1_is_int', w', Break) => Ok (st', f1_is_int', w')
      | Ok (st', f1_is_int', w', Continue) =>
          epoch_loop_or_raise body range' st' f1_is_int' w'
      end
  end.

(** The body of the fold loop (lines 255-546): [getDataloader] raises
    [ValueError] for a batch size of 0, and the [print] of line 544
    formats [best_val_f1] like the one of line 524. *)
Definition train_fold_or_raise (args : Args) (env : Setting) (dataset : Dataset)
           (save_dir : string) (fold : nat) (train_idx valid_idx : list nat) (w : world)
  : result (fold_state * world) :=
  match getDataloader dataset train_idx valid_idx (batch_size args) None with
  | None => Raise ValueError
  | Some (train_loader, val_loader) =>
      match epoch_loop_or_raise
              (run_epoch_or_raise args env dataset save_dir fold train_loader val_loader
                                  (split_val_len dataset))
              (seq 0 (epochs args)) init_fold_state true w with
      | Raise err => Raise err
      | Ok (st, f1_is_int, w') =>
          if f1_is_int then Raise ValueError else Ok (st, w')
      end
  end.

(** [for fold, (train_idx, valid_idx) in enumerate(skf.split(...))] *)
Fixpoint fold_loop_or_raise (args : Args) (env : Setting) (dataset : Dataset)
         (save_dir : string) (folds : list (nat * (list nat * list nat)))
         (k : kfold) (w : world) : result (kfold * world) :=
  match folds with
  | [] => Ok (k, w)
  | (fold, (train_idx, valid_idx)) :: folds' =>
      match train_fold_or_raise args env dataset save_dir fold train_idx valid_idx w with
      | Raise err => Raise err
      | Ok (st, w') =>
          fold_loop_or_raise args env dataset save_dir folds' (kfold_append k st) w'
      end
  end.

(** [train], from the fold planner on. *)
Definition train_or_raise (args : Args) (env : Setting) (dataset : Dataset)
           (save_dir : string) (w : world) : result report :=
  match StratifiedKFold.split n_splits (image_paths dataset) (kfold_labels dataset) with
  | None => Raise ValueError
  | Some folds =>
      match fold_loop_or_raise args env dataset save_dir (enumerate folds)
              {| kfold_val_loss := []; kfold_val_acc := []; kfold_val_f1 := [] |} w with
      | Raise err => Raise err
      | Ok (k, w') =>
          Ok {| kfolds := k;
                mean_acc := div_int_inf (np_sum_inf (kfold_val_loss k)) n_splits;
                mean_loss := div_int (np_sum (kfold_val_acc k)) n_splits;
                mean_f1 := div_int (np_sum (kfold_val_f1 k)) n_splits;
                disk := files w' |}
      end
  end.

(** What the network makes of the batches of an epoch, when every batch
    can be prepared. *)
Fixpoint batch_stats (args : Args) (dataset : Dataset) (fold epoch idx : nat)
         (batches : list (list nat)) : result (list train_batch) :=
  match batches with
  | [] => Ok []
  | batch :: batches' =>
      match train_batch_inputs args (coin fold epoch idx)
                               (List.map image_of batch)
                               (List.map (target dataset) batch) with
      | Raise e => Raise e
      | Ok (inputs, labels) =>
          match batch_stats args dataset fold epoch (S idx) batches' with
          | Raise e => Raise e
          | Ok stats => Ok (train_stats fold epoch idx inputs labels :: stats)
          end
      end
  end.

End RaisingRun.

(** The trackers and the flag go together: while the flag is up the best
    F1 is the initial 0, and once it is down the best F1 is positive. *)
Definition flag_agrees (st : fold_state) (f1_is_int : bool) : Prop :=
  (f1_is_int = true -> best_val_f1 st = 0%Q) /\
  (f1_is_int = false -> (0 < best_val_f1 st)%Q).

(** Images as numbers again; the network is right on every sample of a
    training batch, and the grid draws sample 0 sixteen times. *)
Definition sample_runtime : Runtime nat.
Proof.
  refine {| image_of := fun i => i;
            stack_augmented := fun l => Ok l;
            coin := fun _ _ _ => 0%Q;
            train_stats :=
              fun _ _ _ _ labels =>
                {| loss_item := 1%Q; match_item := length labels; f1_item := 1%Q |};
            grid_draws := fun _ _ _ => repeat 0 16;
            grid_draws_spec := _ |}.
  intros bs _ _ Hbs. split; [reflexivity|].
  apply Forall_forall. intros c Hc. apply list_elem_of_In, repeat_spec in Hc.
  subst c. exact Hbs.
Defined.

(** A run without the custom augmentation and without cutmix. *)
Definition plain_args (epochs batch_size : nat) : Args :=
  {| epochs := epochs;
     batch_size := batch_size;
     cutmix := "no";
     augmentation := "BaseAugmentation" |}.

(** The default log interval and dataset, an existing save directory. *)
Definition sample_setting : Setting :=
  {| log_interval := 20; dataset_name := "MaskBaseDataset"; save_dir_exists := true |}.

(** A matcher that finds 3 on model/exp3 and 7 on model/exp7. *)
Definition sample_regex : RegexLib nat :=
  {| re_search :=
       fun _ d =>
         if String.eqb d "model/exp3" then Ok (Some 3)
         else if String.eqb d "model/exp7" then Ok (Some 7)
         else Ok None;
     int_group0 := fun m => Ok (Z.of_nat m) |}.

(* ================================================================== *)
(** * Facts about numbers *)
(* ================================================================== *)

Lemma Qltb_lt (a b : Q) : Qltb a b = true <-> (a < b)%Q.
Proof.
  unfold Qltb. rewrite negb_true_iff. split.
  - intros Hb. apply Qnot_le_lt. intros Hle.
    apply Qle_bool_iff in Hle. congruence.
  - intros Hlt. destruct (Qle_bool b a) eqn:E; [|reflexivity].
    apply Qle_bool_iff in E. exfalso. exact (Qlt_not_le _ _ Hlt E).
Qed.

Lemma Qltb_ge (a b : Q) : Qltb a b = false <-> (b <= a)%Q.
Proof.
  unfold Qltb. rewrite negb_false_iff. apply Qle_bool_iff.
Qed.

Lemma float_le_refl (a : pyfloat) : float_le a a.
Proof. destruct a; simpl; [apply Qle_refl | exact I]. Qed.

Lemma float_le_trans (a b c : pyfloat) : float_le a b -> float_le b c -> float_le a c.
Proof.
  destruct a, b, c; simpl; try tauto. apply Qle_trans.
Qed.

Lemma py_min_le_l (a b : pyfloat) : float_le (py_min a b) a.
Proof.
  unfold py_min. destruct (float_ltb b a) eqn:E; [|apply float_le_refl].
  destruct a, b; simpl in *; try discriminate; try exact I.
  apply Qltb_lt in E. apply Qlt_le_weak, E.
Qed.

Lemma py_min_le_r (a b : pyfloat) : float_le (py_min a b) b.
Proof.
  unfold py_min. destruct (float_ltb b a) eqn:E; [apply float_le_refl|].
  destruct a, b; simpl in *; try discriminate; try exact I.
  apply Qltb_ge in E. exact E.
Qed.

Lemma py_min_cases (a b : pyfloat) : py_min a b = a \/ py_min a b = b.
Proof. unfold py_min. destruct (float_ltb b a); auto. Qed.

Lemma py_max_ge_l (a b : Q) : (a <= py_max a b)%Q.
Proof.
  unfold py_max. destruct (Qltb a b) eqn:E; [|apply Qle_refl].
  apply Qltb_lt in E. apply Qlt_le_weak, E.
Qed.

Lemma py_max_ge_r (a b : Q) : (b <= py_max a b)%Q.
Proof.
  unfold py_max. destruct (Qltb a b) eqn:E; [apply Qle_refl|].
  apply Qltb_ge in E. exact E.
Qed.

Lemma py_max_cases (a b : Q) : py_max a b = a \/ py_max a b = b.
Proof. unfold py_max. destruct (Qltb a b); auto. Qed.

Lemma of_int_nonneg (n : nat) : (0 <= of_int n)%Q.
Proof.
  unfold of_int. change 0%Q with (inject_Z 0). rewrite <- Zle_Qle. lia.
Qed.

Lemma div_int_nonneg (x : Q) (n : nat) : (0 <= x)%Q -> (0 <= div_int x n)%Q.
Proof.
  intros Hx. unfold div_int, Qdiv.
  apply Qmult_le_0_compat; [exact Hx|].
  apply Qinv_le_0_compat, of_int_nonneg.
Qed.

(* ================================================================== *)
(** * The label codec *)
(* ================================================================== *)

Lemma encode_multi_class_range (mask gender age : Z) :
  MaskBaseDataset.valid_triple mask gender age ->
  (0 <= MaskBaseDataset.encode_multi_class mask gender age < MaskBaseDataset.num_classes)%Z.
Proof.
  unfold MaskBaseDataset.valid_triple, MaskBaseDataset.encode_multi_class,
    MaskBaseDataset.num_classes.
  lia.
Qed.

(** C9. Decoding the multi-class label obtained by encoding a valid
    (mask, gender, age) triple gives the triple back. *)
Theorem decode_encode_multi_class (mask gender age : Z) :
  MaskBaseDataset.valid_triple mask gender age ->
  MaskBaseDataset.decode_multi_class
    (MaskBaseDataset.encode_multi_class mask gender age) = (mask, gender, age).
Proof.
  intros (Hm & Hg & Ha).
  assert (Em : (mask = 0 \/ mask = 1 \/ mask = 2)%Z) by lia.
  assert (Eg : (gender = 0 \/ gender = 1)%Z) by lia.
  assert (Ea : (age = 0 \/ age = 1 \/ age = 2)%Z) by lia.
  destruct Em as [-> | [-> | ->]], Eg as [-> | ->], Ea as [-> | [-> | ->]];
    reflexivity.
Qed.

Lemma decode_encode_multi_class_witness :
  MaskBaseDataset.valid_triple 2 1 0 /\
  MaskBaseDataset.decode_multi_class
    (MaskBaseDataset.encode_multi_class 2 1 0) = (2, 1, 0)%Z.
Proof.
  split.
  - unfold MaskBaseDataset.valid_triple. lia.
  - apply (decode_encode_multi_class 2 1 0).
    unfold MaskBaseDataset.valid_triple. lia.
Defined.

(** The codec is onto the 18 class indices. *)
Lemma encode_decode_multi_class (label : Z) :
  (0 <= label < MaskBaseDataset.num_classes)%Z ->
  let '(mask, gender, age) := MaskBaseDataset.decode_multi_class label in
  MaskBaseDataset.valid_triple mask gender age /\
  MaskBaseDataset.encode_multi_class mask gender age = label.
Proof.
  unfold MaskBaseDataset.num_classes. intros Hl.
  unfold MaskBaseDataset.decode_multi_class, MaskBaseDataset.valid_triple,
    MaskBaseDataset.encode_multi_class.
  assert (N6 : (6 <> 0)%Z) by lia.
  assert (N3 : (3 <> 0)%Z) by lia.
  assert (N2 : (2 <> 0)%Z) by lia.
  assert (P6 : (0 < 6)%Z) by lia.
  assert (P3 : (0 < 3)%Z) by lia.
  assert (P2 : (0 < 2)%Z) by lia.
  pose proof (Z.div_mod label 6 N6) as H6.
  pose proof (Z.div_mod label 3 N3) as H3.
  pose proof (Z.mod_pos_bound label 6 P6) as Hm6.
  pose proof (Z.mod_pos_bound label 3 P3) as Hm3.
  pose proof (Z.mod_pos_bound (label / 6) 3 P3) as Hq3.
  pose proof (Z.mod_pos_bound (label / 3) 2 P2) as Hq2.
  pose proof (Z.div_mod (label / 3) 2 N2) as Hd3.
  assert (Hd6 : (label / 6 = label / 3 / 2)%Z).
  { rewrite Z.div_div by lia. reflexivity. }
  assert (Hsmall : (label / 6 < 3)%Z) by (apply Z.div_lt_upper_bound; lia).
  assert (Hpos : (0 <= label / 6)%Z) by (apply Z.div_pos; lia).
  rewrite (Z.mod_small (label / 6) 3) by lia.
  repeat split; try lia.
Qed.

(* ================================================================== *)
(** * Data loaders *)
(* ================================================================== *)

Section BatchSampler.
Context {A : Type}.
Implicit Types (batch source : list A) (bs : nat).

(** With [drop_last], the sampler emits [floor(n / bs)] batches. *)
Lemma batch_sampler_drop_last_length bs source : forall batch,
  0 < bs -> length batch < bs ->
  length (DataLoader.batch_sampler bs true batch source)
  = (length batch + length source) / bs.
Proof.
  induction source as [|idx source IH]; intros batch Hbs Hb; simpl.
  - rewrite andb_false_r. simpl. rewrite Nat.add_0_r.
    symmetry. apply Nat.div_small. exact Hb.
  - rewrite length_app. simpl.
    destruct (Nat.eqb_spec (length batch + 1) bs) as [E|E].
    + simpl. rewrite IH by (simpl; lia). simpl.
      replace (length batch + S (length source)) with (1 * bs + length source) by lia.
      rewrite Nat.div_add_l by lia. reflexivity.
    + rewrite IH by (rewrite ?length_app; simpl; lia).
      rewrite length_app. simpl. f_equal. lia.
Qed.

(** Every emitted batch is full. *)
Lemma batch_sampler_drop_last_full bs source : forall batch,
  0 < bs -> length batch < bs ->
  Forall (fun b => length b = bs) (DataLoader.batch_sampler bs true batch source).
Proof.
  induction source as [|idx source IH]; intros batch Hbs Hb; simpl.
  - rewrite andb_false_r. constructor.
  - rewrite length_app. simpl.
    destruct (Nat.eqb_spec (length batch + 1) bs) as [E|E].
    + constructor.
      * rewrite length_app. simpl. exact E.
      * apply IH; simpl; lia.
    + apply IH; [lia|]. rewrite length_app. simpl. lia.
Qed.

(** The batches are consecutive pieces of the source: together they are
    its longest prefix whose length is a multiple of the batch size. *)
Lemma batch_sampler_drop_last_concat bs source : forall batch,
  0 < bs -> length batch < bs ->
  concat (DataLoader.batch_sampler bs true batch source)
  = take (bs * ((length batch + length source) / bs)) (batch ++ source).
Proof.
  induction source as [|idx source IH]; intros batch Hbs Hb; simpl.
  - rewrite andb_false_r. simpl. rewrite Nat.add_0_r.
    rewrite Nat.div_small by exact Hb. rewrite Nat.mul_0_r. reflexivity.
  - rewrite length_app. simpl.
    destruct (Nat.eqb_spec (length batch + 1) bs) as [E|E].
    + simpl. rewrite IH by (simpl; lia). simpl.
      replace (length batch + S (length source)) with (1 * bs + length source) by lia.
      rewrite Nat.div_add_l by lia.
      replace (bs * (1 + length source / bs))
        with (length (batch ++ [idx]) + bs * (length source / bs))
        by (rewrite length_app; simpl; lia).
      replace (batch ++ idx :: source) with ((batch ++ [idx]) ++ source)
        by (rewrite <- app_assoc; reflexivity).
      rewrite take_app_add. reflexivity.
    + rewrite IH by (rewrite ?length_app; simpl; lia).
      rewrite length_app. simpl.
      replace (length batch + 1 + length source)
        with (length batch + S (length source)) by lia.
      rewrite <- app_assoc. reflexivity.
Qed.

End BatchSampler.

Lemma omap_lookup_seq {A : Type} (l : list A) : forall pre : list A,
  omap (fun j => (pre ++ l) !! j) (seq (length pre) (length l)) = l.
Proof.
  induction l as [|x l IH]; intros pre; simpl; [reflexivity|].
  rewrite lookup_app_r by lia. rewrite Nat.sub_diag. simpl.
  f_equal.
  specialize (IH (pre ++ [x])). rewrite length_app in IH. simpl in IH.
  rewrite <- app_assoc in IH. simpl in IH.
  replace (length pre + 1) with (S (length pre)) in IH by lia.
  exact IH.
Qed.

(** Without a sampler a loader reads its subset in order. *)
Lemma loader_source_sequential (dl : DataLoader.t) :
  DataLoader.sampler dl = None ->
  omap (fun j => indices (DataLoader.dataset dl) !! j) (DataLoader.positions dl)
  = indices (DataLoader.dataset dl).
Proof.
  intros Hs. unfold DataLoader.positions. rewrite Hs.
  exact (omap_lookup_seq (indices (DataLoader.dataset dl)) []).
Qed.

(** What a sequential drop-last loader yields. *)
Lemma drop_last_loader_batches (dl : DataLoader.t) :
  DataLoader.sampler dl = None ->
  DataLoader.drop_last dl = true ->
  0 < DataLoader.batch_size dl ->
  let n := length (indices (DataLoader.dataset dl)) in
  let bs := DataLoader.batch_size dl in
  length (DataLoader.iter dl) = n / bs /\
  DataLoader.len dl = n / bs /\
  Forall (fun b => length b = bs) (DataLoader.iter dl) /\
  concat (DataLoader.iter dl) = take (bs * (n / bs)) (indices (DataLoader.dataset dl)).
Proof.
  intros Hs Hd Hbs n bs. unfold DataLoader.iter, DataLoader.len.
  rewrite (loader_source_sequential dl Hs), Hd.
  unfold DataLoader.positions. rewrite Hs, length_seq.
  repeat split.
  - rewrite batch_sampler_drop_last_length by (simpl; lia). reflexivity.
  - apply batch_sampler_drop_last_full; simpl; lia.
  - rewrite batch_sampler_drop_last_concat by (simpl; lia). reflexivity.
Qed.

(** [getDataloader] succeeds for a positive batch size and builds both
    loaders with [drop_last=True], [shuffle=False]. *)
Lemma getDataloader_spec dataset train_idx valid_idx bs sampler :
  0 < bs ->
  exists train_loader val_loader,
    getDataloader dataset train_idx valid_idx bs sampler
    = Some (train_loader, val_loader) /\
    indices (DataLoader.dataset train_loader) = train_idx /\
    indices (DataLoader.dataset val_loader) = valid_idx /\
    DataLoader.batch_size train_loader = bs /\
    DataLoader.batch_size val_loader = bs /\
    DataLoader.sampler train_loader = sampler /\
    DataLoader.sampler val_loader = None /\
    DataLoader.drop_last train_loader = true /\
    DataLoader.drop_last val_loader = true /\
    DataLoader.shuffle train_loader = false /\
    DataLoader.shuffle val_loader = false.
Proof.
  intros Hbs. unfold getDataloader.
  destruct (Nat.eqb_spec bs 0) as [E|E]; [lia|].
  eexists _, _. repeat split.
Qed.

(** C7. The training loader of a fold is built with [drop_last=True] and
    [shuffle=False]; over a training subset of [train_count] samples and a
    batch size [bs] (64 by default) it yields [floor(train_count / bs)]
    batches per epoch, all full, which read the subset in order. *)
Theorem train_loader_batch_count dataset train_idx valid_idx bs :
  0 < bs ->
  exists train_loader val_loader,
    getDataloader dataset train_idx valid_idx bs None
    = Some (train_loader, val_loader) /\
    DataLoader.drop_last train_loader = true /\
    DataLoader.shuffle train_loader = false /\
    length (DataLoader.iter train_loader) = length train_idx / bs /\
    DataLoader.len train_loader = length train_idx / bs /\
    Forall (fun b => length b = bs) (DataLoader.iter train_loader) /\
    concat (DataLoader.iter train_loader)
    = take (bs * (length train_idx / bs)) train_idx.
Proof.
  intros Hbs.
  destruct (getDataloader_spec dataset train_idx valid_idx bs None Hbs)
    as (tl & vl & Hget & Hti & _ & Htb & _ & Hts & _ & Htd & _ & Htsh & _).
  exists tl, vl.
  assert (Hpos : 0 < DataLoader.batch_size tl) by (rewrite Htb; exact Hbs).
  destruct (drop_last_loader_batches tl Hts Htd Hpos) as (H1 & H2 & H3 & H4).
  cbv zeta in H1, H2, H3, H4. rewrite ?Htb in H1, H2, H3, H4.
  repeat split; try assumption; rewrite <- Hti; assumption.
Qed.

(* ================================================================== *)
(** * The epoch loop *)
(* ================================================================== *)

Lemma best_last_distinct (save_dir : string) :
  best_path save_dir <> last_path save_dir.
Proof.
  unfold best_path, last_path. intros E.
  apply String.app_inj in E. discriminate E.
Qed.

Lemma before_cons (x : fold_state * world * flow) tr st w j :
  j <= length tr ->
  before (x :: tr) st w (S j) = before tr x.1.1 x.1.2 j.
Proof.
  intros Hj. destruct x as [[st' w'] fl]. destruct j as [|j]; simpl; [reflexivity|].
  destruct (tr !! j) as [[[s1 w1] f1]|] eqn:E; [reflexivity|].
  apply lookup_ge_None in E. lia.
Qed.

Section LoopFacts.
Variable body : nat -> fold_state -> world -> fold_state * world * flow.


(** Every entry of the trace is the loop body run on what the previous
    entry left. *)
Lemma epoch_trace_step range : forall st w i x,
  epoch_trace body range st w !! i = Some x ->
  exists e,
    range !! i = Some e /\
    x = body e (before (epoch_trace body range st w) st w i).1
               (before (epoch_trace body range st w) st w i).2.
Proof.
  induction range as [|e range IH]; intros st w i x; [discriminate|].
  cbn [epoch_trace].
  destruct (body e st w) as [[st' w'] fl] eqn:Eb.
  destruct fl.
  - destruct i as [|i].
    + intros [= <-]. exists e. split; [reflexivity|]. symmetry. exact Eb.
    + intros Hi. cbn [lookup list_lookup] in Hi.
      destruct (IH st' w' i x Hi) as (e' & He' & Hx).
      exists e'. split; [exact He'|].
      rewrite (before_cons (st', w', Continue)); [exact Hx|].
      apply lookup_lt_Some in Hi. lia.
  - destruct i as [|i].
    + intros [= <-]. exists e. split; [reflexivity|]. symmetry. exact Eb.
    + discriminate.
Qed.

(** The loop stops at the entry that breaks. *)
Lemma epoch_trace_break range : forall st w i st' w',
  epoch_trace body range st w !! i = Some (st', w', Break) ->
  length (epoch_trace body range st w) = S i.
Proof.
  induction range as [|e range IH]; intros st w i st' w'; simpl; [discriminate|].
  destruct (body e st w) as [[s1 w1] [|]].
  - destruct i as [|i]; simpl; [discriminate|].
    intros Hi. f_equal. exact (IH _ _ _ _ _ Hi).
  - destruct i as [|i]; simpl; [reflexivity|discriminate].
Qed.

(** The loop leaves epochs of its range unexecuted only after a break. *)
Lemma epoch_trace_short range : forall st w,
  length (epoch_trace body range st w) < length range ->
  exists st' w',
    epoch_trace body range st w !! (length (epoch_trace body range st w) - 1)
    = Some (st', w', Break).
Proof.
  induction range as [|e range IH]; intros st w; simpl; [lia|].
  destruct (body e st w) as [[s1 w1] [|]]; simpl.
  - intros Hlt. destruct (IH s1 w1) as (st' & w' & Hl); [lia|].
    exists st', w'. rewrite Nat.sub_0_r.
    destruct (length (epoch_trace body range s1 w1)) as [|k] eqn:Ek.
    + apply lookup_lt_Some in Hl. lia.
    + simpl in Hl. rewrite Nat.sub_0_r in Hl. exact Hl.
  - intros _. exists s1, w1. reflexivity.
Qed.

(** What the loop returns is what the last executed epoch left. *)
Lemma epoch_loop_trace range : forall st w,
  epoch_loop body range st w
  = before (epoch_trace body range st w) st w (length (epoch_trace body range st w)).
Proof.
  induction range as [|e range IH]; intros st w; simpl; [reflexivity|].
  destruct (body e st w) as [[s1 w1] [|]]; simpl length.
  - rewrite (before_cons (s1, w1, Continue)) by lia. apply IH.
  - reflexivity.
Qed.

(** A tracker that each epoch updates from its own previous value is,
    after any executed epoch, the fold of its update over the metrics
    seen so far. *)
Lemma epoch_trace_fold {T : Type} (proj : fold_state -> T)
      (upd : T -> val_metrics -> T) (ms : nat -> val_metrics) :
  (forall e st w, proj (body e st w).1.1 = upd (proj st) (ms e)) ->
  forall range st w i x,
    epoch_trace body range st w !! i = Some x ->
    proj x.1.1 = fold_left upd (List.map ms (take (S i) range)) (proj st).
Proof.
  intros Hupd. induction range as [|e range IH]; intros st w i x; simpl;
    [discriminate|].
  specialize (Hupd e st w).
  destruct (body e st w) as [[s1 w1] fl] eqn:Eb. simpl in Hupd.
  destruct fl.
  - destruct i as [|i]; simpl.
    + intros [= <-]. simpl. rewrite ?take_0. simpl. exact Hupd.
    + intros Hi. rewrite (IH _ _ _ _ Hi). rewrite Hupd. reflexivity.
  - destruct i as [|i]; simpl; [|discriminate].
    intros [= <-]. simpl. rewrite ?take_0. simpl. exact Hupd.
Qed.

End LoopFacts.

Lemma fold_py_max_spec (l : list Q) : forall b,
  is_max_above b (fold_left py_max l b) l.
Proof.
  unfold is_max_above.
  induction l as [|y l IH]; intros b; simpl.
  - split; [left; reflexivity|]. split; [apply Qle_refl|]. intros y [].
  - destruct (IH (py_max b y)) as (Hin & Hge & Hall).
    pose proof (py_max_ge_l b y) as Hl. pose proof (py_max_ge_r b y) as Hr.
    split; [|split].
    + destruct Hin as [E|Hin]; [|right; right; exact Hin].
      rewrite E. destruct (py_max_cases b y) as [-> | ->]; [left|right; left]; reflexivity.
    + eapply Qle_trans; eassumption.
    + intros z [<-|Hz]; [eapply Qle_trans; eassumption|apply Hall, Hz].
Qed.

Lemma fold_py_min_spec (l : list pyfloat) : forall b,
  let r := fold_left py_min l b in
  (r = b \/ In r l) /\ float_le r b /\ forall y, In y l -> float_le r y.
Proof.
  induction l as [|y l IH]; intros b; simpl.
  - split; [left; reflexivity|]. split; [apply float_le_refl|]. intros y [].
  - destruct (IH (py_min b y)) as (Hin & Hle & Hall).
    pose proof (py_min_le_l b y) as Hl. pose proof (py_min_le_r b y) as Hr.
    split; [|split].
    + destruct Hin as [E|Hin]; [|right; right; exact Hin].
      rewrite E. destruct (py_min_cases b y) as [-> | ->]; [left|right; left]; reflexivity.
    + eapply float_le_trans; eassumption.
    + intros z [<-|Hz]; [eapply float_le_trans; eassumption|apply Hall, Hz].
Qed.

Lemma fold_left_on_map {A B C : Type} (f : A -> C -> A) (g : B -> C) (l : list B) :
  forall a, fold_left f (List.map g l) a = fold_left (fun a x => f a (g x)) l a.
Proof.
  induction l as [|x l IH]; intros a; simpl; [reflexivity|apply IH].
Qed.

Section TrainerFacts.
Context `{Collaborators}.

(** The trackers after the bookkeeping of one epoch. *)
Lemma epoch_end_trackers save_dir fold epoch m st w :
  let r := epoch_end save_dir fold epoch m st w in
  best_val_loss r.1.1 = py_min (best_val_loss st) (Fin (val_loss m)) /\
  best_val_acc r.1.1 = py_max (best_val_acc st) (val_acc m) /\
  best_val_f1 r.1.1 = py_max (best_val_f1 st) (val_f1 m) /\
  counter r.1.1
  = (if Qltb (best_val_f1 st) (val_f1 m) then 0 else counter st + 1) /\
  (r.2 = Break <-> patience < counter r.1.1).
Proof.
  unfold epoch_end, py_max.
  destruct (Qltb (best_val_f1 st) (val_f1 m)); simpl.
  - repeat split; try reflexivity; [discriminate|unfold patience; lia].
  - destruct (Nat.ltb_spec patience (counter st + 1)); simpl;
      repeat split; try reflexivity; try discriminate; try lia; try assumption.
Qed.

(** What the bookkeeping of one epoch writes. *)
Lemma epoch_end_writes save_dir fold epoch m st w :
  let r := epoch_end save_dir fold epoch m st w in
  let ck := {| ck_fold := fold; ck_epoch := epoch |} in
  (r.2 = Break -> r.1.2 = w) /\
  (r.2 = Continue ->
   files r.1.2 !! last_path save_dir = Some ck /\
   wandb_logs r.1.2 = wandb_logs w ++ [m]) /\
  ((best_val_f1 st < val_f1 m)%Q ->
   r.2 = Continue /\ files r.1.2 !! best_path save_dir = Some ck) /\
  (~ (best_val_f1 st < val_f1 m)%Q ->
   files r.1.2 !! best_path save_dir = files w !! best_path save_dir).
Proof.
  pose proof (best_last_distinct save_dir) as Hne.
  unfold epoch_end.
  destruct (Qltb (best_val_f1 st) (val_f1 m)) eqn:E; simpl.
  - apply Qltb_lt in E. repeat split; try discriminate; try tauto.
    + apply lookup_insert_eq.
    + rewrite lookup_insert_ne by (intros E'; apply Hne; symmetry; exact E').
      apply lookup_insert_eq.
  - apply Qltb_ge in E.
    assert (Hno : ~ (best_val_f1 st < val_f1 m)%Q)
      by (intros Hlt; exact (Qlt_not_le _ _ Hlt E)).
    destruct (Nat.ltb_spec patience (counter st + 1)); simpl.
    + split; [reflexivity|]. split; [discriminate|]. split; [tauto|reflexivity].
    + split; [discriminate|]. split.
      * intros _. split; [apply lookup_insert_eq|reflexivity].
      * split; [tauto|]. intros _.
        rewrite lookup_insert_ne by (intros E'; apply Hne; symmetry; exact E').
        reflexivity.
Qed.

Lemma validate_acc_nonneg dataset fold epoch val_loader len_val_set :
  (0 <= val_acc (validate dataset fold epoch val_loader len_val_set))%Q.
Proof.
  unfold validate. simpl. apply div_int_nonneg, of_int_nonneg.
Qed.

Section OneFold.
Variables (dataset : Dataset) (save_dir : string) (fold : nat)
  (val_loader : DataLoader.t) (len_val_set : nat).

Lemma trace_best_val_f1 range st0 w0 i x :
  epoch_trace
    (run_epoch dataset save_dir fold val_loader len_val_set)
    range st0 w0 !! i = Some x ->
  best_val_f1 x.1.1
  = fold_left py_max (List.map val_f1 (metrics_seen
       (fun e => validate dataset fold (e + 1) val_loader len_val_set)
       range (S i))) (best_val_f1 st0).
Proof.
  intros Hi. unfold metrics_seen. rewrite fold_left_on_map.
  eapply (epoch_trace_fold _ best_val_f1 (fun b v => py_max b (val_f1 v)));
    [|exact Hi].
  intros e st w. unfold run_epoch.
  apply (epoch_end_trackers save_dir fold (e + 1)
           (validate dataset fold (e + 1) val_loader len_val_set) st w).
Qed.

Lemma trace_best_val_acc range st0 w0 i x :
  epoch_trace
    (run_epoch dataset save_dir fold val_loader len_val_set)
    range st0 w0 !! i = Some x ->
  best_val_acc x.1.1
  = fold_left py_max (List.map val_acc (metrics_seen
       (fun e => validate dataset fold (e + 1) val_loader len_val_set)
       range (S i))) (best_val_acc st0).
Proof.
  intros Hi. unfold metrics_seen. rewrite fold_left_on_map.
  eapply (epoch_trace_fold _ best_val_acc (fun b v => py_max b (val_acc v)));
    [|exact Hi].
  intros e st w. unfold run_epoch.
  apply (epoch_end_trackers save_dir fold (e + 1)
           (validate dataset fold (e + 1) val_loader len_val_set) st w).
Qed.

Lemma trace_best_val_loss range st0 w0 i x :
  epoch_trace
    (run_epoch dataset save_dir fold val_loader len_val_set)
    range st0 w0 !! i = Some x ->
  best_val_loss x.1.1
  = fold_left py_min
      (List.map (fun v => Fin (val_loss v)) (metrics_seen
       (fun e => validate dataset fold (e + 1) val_loader len_val_set)
       range (S i)))
      (best_val_loss st0).
Proof.
  intros Hi. unfold metrics_seen. rewrite fold_left_on_map.
  eapply (epoch_trace_fold _ best_val_loss (fun b v => py_min b (Fin (val_loss v))));
    [|exact Hi].
  intros e st w. unfold run_epoch.
  apply (epoch_end_trackers save_dir fold (e + 1)
           (validate dataset fold (e + 1) val_loader len_val_set) st w).
Qed.

(** The F1 tracker an epoch starts from is the greater of 0 and the
    validation F1 of the epochs before it. *)
Lemma before_best_val_f1 range w0 i :
  i <= length (epoch_trace
    (run_epoch dataset save_dir fold val_loader len_val_set)
    range init_fold_state w0) ->
  is_max_above 0
    (best_val_f1 (before (epoch_trace
    (run_epoch dataset save_dir fold val_loader len_val_set)
    range init_fold_state w0)
                         init_fold_state w0 i).1)
    (List.map val_f1 (metrics_seen
       (fun e => validate dataset fold (e + 1) val_loader len_val_set)
       range i)).
Proof.
  intros Hi. destruct i as [|j].
  - exact (fold_py_max_spec [] 0%Q).
  - cbn [before].
    destruct (epoch_trace
    (run_epoch dataset save_dir fold val_loader len_val_set)
    range init_fold_state w0 !! j)
      as [[[st w] fl]|] eqn:E.
    + pose proof (trace_best_val_f1 _ _ _ _ _ E) as Hf.
      cbn [fst] in *. rewrite Hf.
      apply fold_py_max_spec.
    + apply lookup_ge_None in E. lia.
Qed.

End OneFold.

End TrainerFacts.

Section FoldTheorems.
Context `{Collaborators}.
Variables (dataset : Dataset) (save_dir : string) (fold : nat)
  (val_loader : DataLoader.t) (len_val_set : nat).

(** C1. In each epoch of a fold the early-stop counter is reset to 0
    exactly when the epoch's validation F1 strictly exceeds the best
    validation F1 of the fold so far (the greater of 0 and the F1 of the
    earlier epochs), and is incremented by 1 otherwise.  The epoch loop
    breaks in the first epoch whose counter exceeds the patience of 5: no
    later epoch runs, every earlier epoch left the counter at 5 or less,
    and the breaking epoch leaves the disk and the log as it found them,
    so its last.pth is not written, whereas every other epoch writes
    last.pth. *)
Theorem early_stop_counter (range : list nat) (w0 : world) :
  let m := fun e => validate dataset fold (e + 1) val_loader len_val_set in
  let body := run_epoch dataset save_dir fold val_loader len_val_set in
  let tr := epoch_trace body range init_fold_state w0 in
  patience = 5 /\
  (forall i st w fl,
      tr !! i = Some (st, w, fl) ->
      exists e,
        range !! i = Some e /\
        let st_prev := (before tr init_fold_state w0 i).1 in
        let w_prev := (before tr init_fold_state w0 i).2 in
        is_max_above 0 (best_val_f1 st_prev)
                     (List.map val_f1 (metrics_seen m range i)) /\
        ((best_val_f1 st_prev < val_f1 (m e))%Q -> counter st = 0) /\
        (~ (best_val_f1 st_prev < val_f1 (m e))%Q ->
         counter st = counter st_prev + 1) /\
        (fl = Break <-> patience < counter st) /\
        (fl = Break -> length tr = S i /\ w = w_prev) /\
        (fl = Continue ->
         files w !! last_path save_dir
         = Some {| ck_fold := fold; ck_epoch := e + 1 |}) /\
        (S i < length tr -> counter st <= patience)) /\
  epoch_loop body range init_fold_state w0
  = before tr init_fold_state w0 (length tr) /\
  (length tr < length range ->
   exists st w, tr !! (length tr - 1) = Some (st, w, Break)).
Proof.
  intros m body tr. split; [reflexivity|]. split; [|split].
  - intros i st w fl Hi.
    destruct (epoch_trace_step body range _ _ i _ Hi) as (e & He & Hx).
    exists e. split; [exact He|]. fold tr in Hx.
    intros st_prev w_prev. fold st_prev w_prev in Hx.
    unfold body, run_epoch in Hx. fold (m e) in Hx.
    pose proof (epoch_end_trackers save_dir fold (e + 1) (m e) st_prev w_prev) as Ht.
    pose proof (epoch_end_writes save_dir fold (e + 1) (m e) st_prev w_prev) as Hw.
    cbv zeta in Ht, Hw. rewrite <- Hx in Ht, Hw. cbn [fst snd] in Ht, Hw.
    destruct Ht as (_ & _ & _ & Hc & Hbrk).
    destruct Hw as (Wb & Wc & _ & _).
    assert (Hbreak : fl = Break -> length tr = S i).
    { intros ->. exact (epoch_trace_break body range _ _ _ _ _ Hi). }
    split.
    { apply before_best_val_f1. apply lookup_lt_Some in Hi. fold body tr. lia. }
    split.
    { intros Hlt. apply Qltb_lt in Hlt. rewrite Hlt in Hc. exact Hc. }
    split.
    { intros Hge. destruct (Qltb (best_val_f1 st_prev) (val_f1 (m e))) eqn:E;
        [apply Qltb_lt in E; contradiction|exact Hc]. }
    split; [exact Hbrk|].
    split.
    { intros Hb. split; [exact (Hbreak Hb)|exact (Wb Hb)]. }
    split.
    { intros Hcont. exact (proj1 (Wc Hcont)). }
    intros Hlast. destruct (Nat.le_gt_cases (counter st) patience) as [Hle|Hgt];
      [exact Hle|].
    apply Hbrk in Hgt. apply Hbreak in Hgt. lia.
  - apply epoch_loop_trace.
  - apply epoch_trace_short.
Qed.

(** C3. Across the epochs of a fold (validated on at least one batch,
    with a non-empty [val_set]) the best-loss tracker never grows and
    is the least validation loss seen so far, the best-accuracy tracker
    never shrinks and is the greatest validation accuracy seen so far, and
    the best-F1 tracker never shrinks and changes, together with the
    writing of best.pth, only in an epoch whose validation F1 is strictly
    greater than the previous best; each tracker is updated from its own
    previous value and its own metric alone. *)
Theorem best_value_trackers (range : list nat) (w0 : world) :
  0 < DataLoader.len val_loader ->
  0 < len_val_set ->
  let m := fun e => validate dataset fold (e + 1) val_loader len_val_set in
  let body := run_epoch dataset save_dir fold val_loader len_val_set in
  let tr := epoch_trace body range init_fold_state w0 in
  forall i st w fl,
    tr !! i = Some (st, w, fl) ->
    exists e,
      range !! i = Some e /\
      let st_prev := (before tr init_fold_state w0 i).1 in
      let w_prev := (before tr init_fold_state w0 i).2 in
      let seen := metrics_seen m range (S i) in
      (exists l, best_val_loss st = Fin l /\ is_min_of l (List.map val_loss seen)) /\
      float_le (best_val_loss st) (best_val_loss st_prev) /\
      is_max_of (best_val_acc st) (List.map val_acc seen) /\
      (best_val_acc st_prev <= best_val_acc st)%Q /\
      (best_val_f1 st_prev <= best_val_f1 st)%Q /\
      ((best_val_f1 st_prev < val_f1 (m e))%Q ->
       best_val_f1 st = val_f1 (m e) /\
       files w !! best_path save_dir
       = Some {| ck_fold := fold; ck_epoch := e + 1 |}) /\
      (~ (best_val_f1 st_prev < val_f1 (m e))%Q ->
       best_val_f1 st = best_val_f1 st_prev /\
       files w !! best_path save_dir = files w_prev !! best_path save_dir) /\
      best_val_loss st = py_min (best_val_loss st_prev) (Fin (val_loss (m e))) /\
      best_val_acc st = py_max (best_val_acc st_prev) (val_acc (m e)) /\
      best_val_f1 st = py_max (best_val_f1 st_prev) (val_f1 (m e)).
Proof.
  intros _ _ m body tr i st w fl Hi.
  destruct (epoch_trace_step body range _ _ i _ Hi) as (e & He & Hx).
  exists e. split; [exact He|]. fold tr in Hx.
  intros st_prev w_prev seen. fold st_prev w_prev in Hx.
  unfold body, run_epoch in Hx. fold (m e) in Hx.
  pose proof (epoch_end_trackers save_dir fold (e + 1) (m e) st_prev w_prev) as Ht.
  pose proof (epoch_end_writes save_dir fold (e + 1) (m e) st_prev w_prev) as Hw.
  cbv zeta in Ht, Hw. rewrite <- Hx in Ht, Hw. cbn [fst snd] in Ht, Hw.
  destruct Ht as (Hloss & Hacc & Hf1 & _ & _).
  destruct Hw as (_ & _ & Wi & Wn).
  assert (Hne : seen <> []).
  { unfold seen, metrics_seen. rewrite (take_S_r _ _ _ He).
    rewrite map_app. intros E. apply app_eq_nil in E. destruct E as [_ E].
    discriminate E. }
  split.
  { pose proof (trace_best_val_loss dataset save_dir fold val_loader len_val_set
                  range init_fold_state w0 i _ Hi) as Hl.
    cbn [fst] in Hl. fold m seen in Hl.
    pose proof (fold_py_min_spec (List.map (fun v => Fin (val_loss v)) seen)
                  (best_val_loss init_fold_state))
      as (Hin & _ & Hall).
    rewrite <- Hl in Hin, Hall.
    destruct Hin as [E|Hin].
    - destruct seen as [|v seen']; [contradiction|].
      specialize (Hall (Fin (val_loss v)) (or_introl eq_refl)).
      rewrite E in Hall. destruct Hall.
    - apply in_map_iff in Hin. destruct Hin as (v & Ev & Hv).
      exists (val_loss v). split; [symmetry; exact Ev|]. split.
      + apply in_map_iff. exists v. split; [reflexivity|exact Hv].
      + intros y Hy. apply in_map_iff in Hy. destruct Hy as (v' & <- & Hv').
        assert (Hle : float_le (best_val_loss st) (Fin (val_loss v'))).
        { apply Hall. apply in_map_iff. exists v'. split; [reflexivity|exact Hv']. }
        rewrite <- Ev in Hle. exact Hle. }
  split.
  { rewrite Hloss. apply py_min_le_l. }
  split.
  { pose proof (trace_best_val_acc dataset save_dir fold val_loader len_val_set
                  range init_fold_state w0 i _ Hi) as Ha.
    cbn [fst] in Ha. fold m seen in Ha.
    pose proof (fold_py_max_spec (List.map val_acc seen)
                  (best_val_acc init_fold_state)) as (Hin & Hge & Hall).
    rewrite <- Ha in Hin, Hge, Hall.
    split; [|exact Hall].
    destruct Hin as [E|Hin].
    - destruct seen as [|v seen'] eqn:Es; [contradiction|].
      exists (val_acc v). split; [left; reflexivity|].
      assert (Hv : In v (v :: seen')) by (left; reflexivity).
      rewrite <- Es in Hv. unfold seen, metrics_seen in Hv.
      apply in_map_iff in Hv. destruct Hv as (e' & <- & _).
      apply Qle_antisym.
      + rewrite E. change (0 <= val_acc (m e'))%Q. apply validate_acc_nonneg.
      + apply Hall. left. reflexivity.
    - exists (best_val_acc st). split; [exact Hin|reflexivity]. }
  split.
  { rewrite Hacc. apply py_max_ge_l. }
  split.
  { rewrite Hf1. apply py_max_ge_l. }
  split.
  { intros Hlt. split; [|exact (proj2 (Wi Hlt))].
    rewrite Hf1. unfold py_max. apply Qltb_lt in Hlt. rewrite Hlt. reflexivity. }
  split.
  { intros Hge. split; [|exact (Wn Hge)].
    rewrite Hf1. unfold py_max.
    destruct (Qltb (best_val_f1 st_prev) (val_f1 (m e))) eqn:E;
      [apply Qltb_lt in E; contradiction|reflexivity]. }
  split; [exact Hloss|]. split; [exact Hacc|exact Hf1].
Qed.

End FoldTheorems.

(* ================================================================== *)
(** * Batch preparation *)
(* ================================================================== *)

Lemma lookup_List_map {A B : Type} (f : A -> B) (l : list A) :
  forall i a, l !! i = Some a -> List.map f l !! i = Some (f a).
Proof.
  induction l as [|x l IH]; intros i a Hi; [discriminate|].
  destruct i as [|i]; simpl in *; [congruence|apply IH, Hi].
Qed.

Lemma exempt_spec (label : Z) :
  exempt label = true <-> (label = 0 \/ label = 1 \/ label = 3 \/ label = 4)%Z.
Proof.
  unfold exempt. simpl. rewrite !orb_true_iff, !Z.eqb_eq. intuition discriminate.
Qed.

(* ================================================================== *)
(** * The run over all folds *)
(* ================================================================== *)

Lemma split_length n X y folds :
  StratifiedKFold.split n X y = Some folds -> length folds = n.
Proof.
  unfold StratifiedKFold.split.
  destruct (negb (length X =? length y)); [discriminate|].
  destruct (length X <? n); [discriminate|].
  destruct (StratifiedKFold.make_test_folds n y) as [tf|]; [|discriminate].
  simpl. intros [= <-]. rewrite length_map, length_seq. reflexivity.
Qed.

Lemma enumerate_length {A : Type} (l : list A) : length (enumerate l) = length l.
Proof.
  unfold enumerate. rewrite length_zip_with, length_seq. lia.
Qed.

Lemma only_checkpoints_written_refl save_dir w :
  only_checkpoints_written save_dir w w.
Proof. intros p _ _. reflexivity. Qed.

Lemma only_checkpoints_written_trans save_dir w0 w1 w2 :
  only_checkpoints_written save_dir w0 w1 ->
  only_checkpoints_written save_dir w1 w2 ->
  only_checkpoints_written save_dir w0 w2.
Proof.
  intros H01 H12 p Hb Hl. rewrite (H12 p Hb Hl). exact (H01 p Hb Hl).
Qed.


Section RunFacts.
Context `{Collaborators}.

Lemma epoch_end_only_checkpoints save_dir fold epoch m st w :
  only_checkpoints_written save_dir w (epoch_end save_dir fold epoch m st w).1.2.
Proof.
  intros p Hb Hl. unfold epoch_end.
  destruct (Qltb (best_val_f1 st) (val_f1 m)); simpl.
  - rewrite !lookup_insert_ne by congruence. reflexivity.
  - destruct (patience <? counter st + 1); simpl; [reflexivity|].
    rewrite lookup_insert_ne by congruence. reflexivity.
Qed.

Lemma epoch_trace_only_checkpoints dataset save_dir fold val_loader len_val_set
      range : forall st0 w0 i st w fl,
  epoch_trace (run_epoch dataset save_dir fold val_loader len_val_set)
              range st0 w0 !! i = Some (st, w, fl) ->
  only_checkpoints_written save_dir w0 w.
Proof.
  induction range as [|e range IH]; intros st0 w0 i st w fl; [discriminate|].
  cbn [epoch_trace]. unfold run_epoch at 1.
  pose proof (epoch_end_only_checkpoints save_dir fold (e + 1)
                (validate dataset fold (e + 1) val_loader len_val_set) st0 w0) as Hstep.
  destruct (epoch_end save_dir fold (e + 1)
              (validate dataset fold (e + 1) val_loader len_val_set) st0 w0)
    as [[s1 w1] f1]. cbn [fst snd] in Hstep.
  destruct f1.
  - destruct i as [|i]; cbn [lookup list_lookup].
    + intros [= <- <- <-]. exact Hstep.
    + intros Hi. eapply only_checkpoints_written_trans; [exact Hstep|].
      exact (IH _ _ _ _ _ _ Hi).
  - destruct i as [|i]; cbn [lookup list_lookup]; [|discriminate].
    intros [= <- <- <-]. exact Hstep.
Qed.

Lemma epoch_loop_only_checkpoints dataset save_dir fold val_loader len_val_set
      range st0 w0 :
  only_checkpoints_written save_dir w0
    (epoch_loop (run_epoch dataset save_dir fold val_loader len_val_set)
                range st0 w0).2.
Proof.
  rewrite epoch_loop_trace.
  set (tr := epoch_trace _ range st0 w0).
  destruct (length tr) as [|k] eqn:Ek; cbn [before].
  - apply only_checkpoints_written_refl.
  - destruct (tr !! k) as [[[st w] fl]|] eqn:E.
    + exact (epoch_trace_only_checkpoints _ _ _ _ _ _ _ _ _ _ _ _ E).
    + apply only_checkpoints_written_refl.
Qed.

Lemma train_fold_only_checkpoints args dataset save_dir fold train_idx valid_idx
      w st w' :
  train_fold args dataset save_dir fold train_idx valid_idx w = Some (st, w') ->
  only_checkpoints_written save_dir w w'.
Proof.
  unfold train_fold.
  destruct (getDataloader dataset train_idx valid_idx (batch_size args) None)
    as [[tl vl]|]; [|discriminate].
  simpl. intros [= E].
  pose proof (epoch_loop_only_checkpoints dataset save_dir fold vl
                (split_val_len dataset) (seq 0 (epochs args)) init_fold_state w) as Hw.
  rewrite E in Hw. exact Hw.
Qed.

(** The run-level sequences grow by one entry per fold, in fold order. *)
Lemma fold_loop_states args dataset save_dir folds : forall k w k' w',
  fold_loop args dataset save_dir folds k w = Some (k', w') ->
  exists states,
    fold_states args dataset save_dir folds w = Some states /\
    length states = length folds /\
    kfold_val_loss k' = kfold_val_loss k ++ List.map best_val_loss states /\
    kfold_val_acc k' = kfold_val_acc k ++ List.map best_val_acc states /\
    kfold_val_f1 k' = kfold_val_f1 k ++ List.map best_val_f1 states /\
    only_checkpoints_written save_dir w w'.
Proof.
  induction folds as [|[fold [train_idx valid_idx]] folds IH]; intros k w k' w'.
  - simpl. intros [= <- <-]. exists []. simpl. rewrite !app_nil_r.
    repeat split; try reflexivity; try apply only_checkpoints_written_refl.
  - cbn [fold_loop fold_states].
    destruct (train_fold args dataset save_dir fold train_idx valid_idx w)
      as [[st w1]|] eqn:Ef; [|discriminate].
    simpl. intros Hrest.
    destruct (IH _ _ _ _ Hrest) as (states & Hs & Hlen & Hl & Ha & Hf & Hw).
    exists (st :: states). rewrite Hs. simpl.
    rewrite Hl, Ha, Hf. simpl. rewrite <- !app_assoc. simpl.
    repeat split; try reflexivity; [lia|].
    eapply only_checkpoints_written_trans; [|exact Hw].
    exact (train_fold_only_checkpoints _ _ _ _ _ _ _ _ _ Ef).
Qed.

End RunFacts.

(* ================================================================== *)
(** * The fold planner *)
(* ================================================================== *)

Lemma lookup_List_map_eq {A B : Type} (f : A -> B) (l : list A) (p : nat) :
  List.map f l !! p = f <$> (l !! p).
Proof. exact (list_lookup_fmap f l p). Qed.

Section PlannerFacts.
Import StratifiedKFold.

Lemma list_sum_zero {A : Type} (l : list A) :
  list_sum (List.map (fun _ => 0) l) = 0.
Proof. induction l; simpl; [reflexivity|assumption]. Qed.

Lemma stride_cons_0 {A : Type} (n : nat) (x : A) (l : list A) :
  stride (S n) 0 (x :: l) = x :: stride (S n) n l.
Proof. simpl. rewrite Nat.sub_0_r. reflexivity. Qed.

(** Dealing a list round-robin over [n] hands loses no element: the
    counts of a class over the [n] strides add up to its count. *)
Lemma stride_count (n k : nat) (l : list nat) :
  0 < n ->
  list_sum (List.map (fun i => count_occ Nat.eq_dec (stride n i l) k) (seq 0 n))
  = count_occ Nat.eq_dec l k.
Proof.
  intros Hn. induction l as [|x l IH].
  - simpl. apply list_sum_zero.
  - destruct n as [|n]; [lia|].
    rewrite seq_S in IH. rewrite map_app, list_sum_app in IH.
    cbn [List.map list_sum] in IH. rewrite ?Nat.add_0_r, ?Nat.add_0_l in IH.
    rewrite <- cons_seq. cbn [List.map list_sum].
    rewrite <- seq_shift, map_map.
    rewrite stride_cons_0.
    cbn [stride]. simpl count_occ at 1.
    cbn [count_occ] in *.
    destruct (Nat.eq_dec x k); simpl in *; lia.
Qed.

Lemma sort_count (l : list nat) (k : nat) :
  count_occ Nat.eq_dec (NatSort.sort l) k = count_occ Nat.eq_dec l k.
Proof.
  symmetry. apply Permutation_count_occ. apply NatSort.Permuted_sort.
Qed.

(** A class hands out exactly as many fold numbers as it has samples. *)
Lemma folds_for_class_length (n : nat) (y : list Z) (k : nat) :
  0 < n ->
  length (folds_for_class n y k) = count_occ Nat.eq_dec (y_encoded y) k.
Proof.
  intros Hn. unfold folds_for_class. rewrite length_flat_map.
  rewrite (map_ext _ (fun i => allocation n y i k))
    by (intros i; apply repeat_length).
  unfold allocation, bincount. rewrite stride_count by exact Hn.
  apply sort_count.
Qed.

(** The fold numbers handed out are fold numbers. *)
Lemma folds_for_class_range (n : nat) (y : list Z) (k v : nat) :
  In v (folds_for_class n y k) -> v < n.
Proof.
  unfold folds_for_class. intros Hv. apply in_flat_map in Hv.
  destruct Hv as (i & Hi & Hv). apply repeat_spec in Hv. subst v.
  apply in_seq in Hi. lia.
Qed.

Lemma count_true_eqb (k : nat) (a : list nat) :
  count_true (List.map (Nat.eqb k) a) = count_occ Nat.eq_dec a k.
Proof.
  unfold count_true. induction a as [|x a IH]; simpl; [reflexivity|].
  destruct (Nat.eq_dec x k) as [->|Hne].
  - rewrite Nat.eqb_refl. simpl. f_equal. exact IH.
  - destruct (Nat.eqb_spec k x) as [E|_]; [congruence|exact IH].
Qed.

(** The masked assignment goes through when the values are as many as
    the selected cells, and then writes those cells and no other. *)
Lemma mask_assign_spec (mask : list bool) : forall vals arr,
  length arr = length mask ->
  length vals = count_true mask ->
  exists arr',
    mask_assign mask vals arr = Some arr' /\
    length arr' = length arr /\
    forall p,
      (mask !! p = Some true ->
       exists v, In v vals /\ arr' !! p = Some (Some v)) /\
      (mask !! p = Some false -> arr' !! p = arr !! p).
Proof.
  unfold count_true.
  induction mask as [|b mask IH]; intros vals arr Harr Hvals.
  - destruct arr; [|discriminate]. destruct vals; [|discriminate].
    exists []. simpl. split; [reflexivity|]. split; [reflexivity|].
    intros p. split; discriminate.
  - destruct arr as [|a arr]; [discriminate|].
    simpl in Harr. injection Harr as Harr.
    destruct b; simpl in Hvals.
    + destruct vals as [|v vals]; [discriminate|].
      simpl in Hvals. injection Hvals as Hvals.
      destruct (IH vals arr Harr Hvals) as (arr' & Hok & Hlen & Hp).
      exists (Some v :: arr'). simpl. rewrite Hok. simpl.
      split; [reflexivity|]. split; [f_equal; exact Hlen|].
      intros [|p]; simpl.
      * split; [|discriminate]. intros _. exists v. split; [left|]; reflexivity.
      * destruct (Hp p) as (Ht & Hf). split; [|exact Hf].
        intros Hm. destruct (Ht Hm) as (v' & Hv' & Hl).
        exists v'. split; [right; exact Hv'|exact Hl].
    + destruct (IH vals arr Harr Hvals) as (arr' & Hok & Hlen & Hp).
      exists (a :: arr'). simpl. rewrite Hok. simpl.
      split; [reflexivity|]. split; [f_equal; exact Hlen|].
      intros [|p]; simpl.
      * split; [discriminate|reflexivity].
      * exact (Hp p).
Qed.

(** After the loop over a list of classes, every sample of one of these
    classes has a fold number, and the other cells are as before. *)
Lemma assign_classes_spec (n : nat) (y : list Z) (ks : list nat) :
  0 < n ->
  forall tf,
    length tf = length y ->
    exists tf',
      assign_classes n y ks tf = Some tf' /\
      length tf' = length y /\
      forall p c,
        y_encoded y !! p = Some c ->
        (In c ks -> exists v, v < n /\ tf' !! p = Some (Some v)) /\
        (~ In c ks -> tf' !! p = tf !! p).
Proof.
  intros Hn. induction ks as [|k ks IH]; intros tf Htf.
  - exists tf. simpl. split; [reflexivity|]. split; [exact Htf|].
    intros p c _. split; [intros []|reflexivity].
  - cbn [assign_classes].
    destruct (mask_assign_spec (List.map (Nat.eqb k) (y_encoded y))
                (folds_for_class n y k) tf) as (tf1 & Hok & Hlen & Hp).
    { rewrite length_map. unfold y_encoded. rewrite length_map. exact Htf. }
    { rewrite count_true_eqb. apply folds_for_class_length, Hn. }
    rewrite Hok. simpl.
    destruct (IH tf1) as (tf' & Hok' & Hlen' & Hp'); [congruence|].
    exists tf'. split; [exact Hok'|]. split; [exact Hlen'|].
    intros p c Hc. destruct (Hp' p c Hc) as (Hin & Hout).
    destruct (Hp p) as (Ht & Hf).
    rewrite lookup_List_map_eq, Hc in Ht, Hf. simpl in Ht, Hf.
    split.
    + intros Hck. destruct (in_dec Nat.eq_dec c ks) as [Hcks|Hcks];
        [exact (Hin Hcks)|].
      destruct Hck as [<-|Hck]; [|contradiction].
      rewrite (Hout Hcks). rewrite Nat.eqb_refl in Ht.
      destruct (Ht eq_refl) as (v & Hv & Hl).
      exists v. split; [exact (folds_for_class_range _ _ _ _ Hv)|exact Hl].
    + intros Hck. rewrite Hout by (intros Hc'; apply Hck; right; exact Hc').
      apply Hf. f_equal. apply Nat.eqb_neq. intros ->. apply Hck. left. reflexivity.
Qed.

Lemma classes_complete (y : list Z) : forall seen c,
  In c seen \/ In c y ->
  In c (fold_left
          (fun seen c => if existsb (Z.eqb c) seen then seen else seen ++ [c])
          y seen).
Proof.
  induction y as [|c0 y IH]; intros seen c Hc; simpl.
  - destruct Hc as [Hc|[]]. exact Hc.
  - apply IH.
    destruct (existsb (Z.eqb c0) seen) eqn:E.
    + destruct Hc as [Hc|[<-|Hc]]; [left; exact Hc| |right; exact Hc].
      left. apply existsb_exists in E. destruct E as (x & Hx & Ex).
      apply Z.eqb_eq in Ex. subst x. exact Hx.
    + destruct Hc as [Hc|[<-|Hc]]; [| |right; exact Hc].
      * left. apply in_or_app. left. exact Hc.
      * left. apply in_or_app. right. left. reflexivity.
Qed.

Lemma index_of_lt (c : Z) (l : list Z) : In c l -> index_of c l < length l.
Proof.
  induction l as [|x l IH]; simpl; [intros []|].
  intros Hc. destruct (Z.eqb_spec c x) as [_|Hne]; [lia|].
  destruct Hc as [->|Hc]; [contradiction|]. specialize (IH Hc). lia.
Qed.

Lemma y_encoded_range (y : list Z) (p c : nat) :
  y_encoded y !! p = Some c -> c < length (classes y).
Proof.
  unfold y_encoded. rewrite lookup_List_map_eq.
  destruct (y !! p) as [z|] eqn:E; [|discriminate].
  simpl. intros [= <-]. apply index_of_lt.
  apply classes_complete. right.
  apply list_elem_of_In. exact (list_elem_of_lookup_2 _ _ _ E).
Qed.

Lemma y_encoded_count (y : list Z) (cl : list Z) (c : Z) :
  count_occ Z.eq_dec y c
  <= count_occ Nat.eq_dec (List.map (fun c' => index_of c' cl) y) (index_of c cl).
Proof.
  induction y as [|x y IH]; simpl; [lia|].
  destruct (Z.eq_dec x c) as [->|Hne].
  - destruct (Nat.eq_dec (index_of c cl) (index_of c cl)); [lia|contradiction].
  - destruct (Nat.eq_dec (index_of x cl) (index_of c cl)); lia.
Qed.

(** When some label has at least [n] samples, the planner's guard lets
    the labels through and every sample receives a fold number. *)
Lemma make_test_folds_spec (n : nat) (y : list Z) :
  0 < n ->
  (exists c, n <= count_occ Z.eq_dec y c) ->
  exists tf,
    make_test_folds n y = Some tf /\
    length tf = length y /\
    forall p, p < length y -> exists v, v < n /\ tf !! p = Some (Some v).
Proof.
  intros Hn (c & Hc). unfold make_test_folds.
  assert (Hguard :
            forallb (fun c => c <? n)
                    (List.map (bincount (y_encoded y)) (seq 0 (length (classes y))))
            = false).
  { destruct (forallb _ _) eqn:E; [|reflexivity]. exfalso.
    rewrite forallb_forall in E.
    assert (Hin : In c y).
    { apply (count_occ_In Z.eq_dec). lia. }
    specialize (E (bincount (y_encoded y) (index_of c (classes y)))).
    assert (Hlt : (bincount (y_encoded y) (index_of c (classes y)) <? n) = true).
    { apply E. apply in_map. apply in_seq. split; [lia|]. simpl.
      apply index_of_lt. apply classes_complete. right. exact Hin. }
    apply Nat.ltb_lt in Hlt. unfold bincount, y_encoded in Hlt.
    pose proof (y_encoded_count y (classes y) c). lia. }
  rewrite Hguard.
  destruct (assign_classes_spec n y (seq 0 (length (classes y))) Hn
              (repeat None (length y))) as (tf & Hok & Hlen & Hp).
  { apply repeat_length. }
  exists tf. split; [exact Hok|]. split; [exact Hlen|].
  intros p Hlt.
  destruct (y_encoded y !! p) as [k|] eqn:E.
  - destruct (Hp p k E) as (Hin & _). apply Hin.
    apply in_seq. pose proof (y_encoded_range y p k E). lia.
  - apply lookup_ge_None in E. unfold y_encoded in E. rewrite length_map in E. lia.
Qed.

(** What a boolean mask selects from a run of consecutive indices. *)
Lemma select_seq (mask : list bool) : forall s len p,
  In p (select mask (seq s len))
  <-> s <= p /\ p < s + len /\ mask !! (p - s) = Some true.
Proof.
  induction mask as [|b mask IH]; intros s len p.
  - simpl. split; [intros []|]. intros (_ & _ & Hm). discriminate.
  - destruct len as [|len]; [simpl; split; [intros []|lia]|].
    cbn [seq select].
    assert (Htail : In p (select mask (seq (S s) len))
                    <-> S s <= p /\ p < s + S len /\ (b :: mask) !! (p - s) = Some true).
    { rewrite IH. split.
      - intros (H1 & H2 & H3). split; [lia|]. split; [lia|].
        replace (p - s) with (S (p - S s)) by lia. exact H3.
      - intros (H1 & H2 & H3). split; [lia|]. split; [lia|].
        replace (p - s) with (S (p - S s)) in H3 by lia. exact H3. }
    destruct b.
    + cbn [In]. rewrite Htail. split.
      * intros [<-|(H1 & H2 & H3)].
        -- split; [lia|]. split; [lia|]. rewrite Nat.sub_diag. reflexivity.
        -- split; [lia|]. split; [lia|exact H3].
      * intros (H1 & H2 & H3).
        destruct (Nat.eq_dec s p) as [->|Hne]; [left; reflexivity|].
        right. split; [lia|]. split; [lia|exact H3].
    + rewrite Htail. split.
      * intros (H1 & H2 & H3). split; [lia|]. split; [lia|exact H3].
      * intros (H1 & H2 & H3).
        destruct (Nat.eq_dec s p) as [->|Hne].
        -- rewrite Nat.sub_diag in H3. discriminate.
        -- split; [lia|]. split; [lia|exact H3].
Qed.

End PlannerFacts.

Section PlannerTheorem.
Import StratifiedKFold.

Lemma validation_select (tf : list (option nat)) (i p : nat) :
  In p (select (List.map (in_fold i) tf) (seq 0 (length tf)))
  <-> tf !! p = Some (Some i).
Proof.
  rewrite select_seq, Nat.sub_0_r, lookup_List_map_eq. split.
  - intros (_ & _ & Hm). destruct (tf !! p) as [[j|]|]; simpl in Hm;
      try discriminate.
    injection Hm as Hm. apply Nat.eqb_eq in Hm. subst j. reflexivity.
  - intros Hp. split; [lia|]. split.
    + apply lookup_lt_Some in Hp. lia.
    + rewrite Hp. simpl. rewrite Nat.eqb_refl. reflexivity.
Qed.

Lemma train_select (tf : list (option nat)) (i p : nat) :
  In p (select (List.map negb (List.map (in_fold i) tf)) (seq 0 (length tf)))
  <-> p < length tf /\ tf !! p <> Some (Some i).
Proof.
  rewrite select_seq, Nat.sub_0_r, !lookup_List_map_eq. split.
  - intros (_ & Hlt & Hm). split; [lia|].
    intros Hp. rewrite Hp in Hm. simpl in Hm. rewrite Nat.eqb_refl in Hm.
    discriminate.
  - intros (Hlt & Hne). split; [lia|]. split; [lia|].
    destruct (tf !! p) as [[j|]|] eqn:E; simpl.
    + destruct (Nat.eqb_spec j i) as [->|_]; [contradiction|reflexivity].
    + reflexivity.
    + apply lookup_ge_None in E. lia.
Qed.

(** On such labels the planner returns the folds that the fold numbers
    of its samples select, whatever the samples are. *)
Lemma split_returns (n : nat) (X : list string) (y : list Z) :
  0 < n ->
  length X = length y ->
  (exists c, n <= count_occ Z.eq_dec y c) ->
  exists tf,
    length tf = length y /\
    (forall p, p < length y -> exists v, v < n /\ tf !! p = Some (Some v)) /\
    forall X' : list string,
      length X' = length X ->
      StratifiedKFold.split n X' y
      = Some (List.map
                (fun i =>
                   (select (List.map negb (List.map (in_fold i) tf))
                           (seq 0 (length tf)),
                    select (List.map (in_fold i) tf) (seq 0 (length tf))))
                (seq 0 n)).
Proof.
  intros Hn Hlen (c & Hc).
  destruct (make_test_folds_spec n y Hn (ex_intro _ c Hc))
    as (tf & Hok & Hlen_tf & Hp).
  pose proof (count_occ_bound Z.eq_dec c y) as Hbound.
  exists tf. split; [exact Hlen_tf|]. split; [exact Hp|].
  intros X' HX'. unfold StratifiedKFold.split.
  rewrite HX', Hlen, Nat.eqb_refl. simpl negb. cbv iota.
  destruct (Nat.ltb_spec (length y) n) as [Hlt|_]; [lia|].
  rewrite Hok. simpl. rewrite Hlen_tf. reflexivity.
Qed.

(** C2. On labels of which some class has at least 5 samples (otherwise
    the planner raises and the run has no folds), the fold planner yields
    exactly 5 (train indices, validation indices) pairs; the validation
    index sets are pairwise disjoint, their union is the full index set
    of the dataset, each train set is the complement of its validation
    set, and the plan is a function of the label sequence alone. *)
Theorem stratified_fold_plan (X : list string) (y : list Z) :
  length X = length y ->
  (exists c, n_splits <= count_occ Z.eq_dec y c) ->
  exists folds,
    StratifiedKFold.split n_splits X y = Some folds /\
    length folds = 5 /\
    (forall i j vi vj p,
        validation_sets folds !! i = Some vi ->
        validation_sets folds !! j = Some vj ->
        i <> j -> In p vi -> ~ In p vj) /\
    (forall p,
        p < length X <-> exists v, In v (validation_sets folds) /\ In p v) /\
    (forall t v p, In (t, v) folds -> (In p t <-> p < length X /\ ~ In p v)) /\
    (forall X' : list string,
        length X' = length X ->
        StratifiedKFold.split n_splits X' y = Some folds).
Proof.
  intros Hlen Hc.
  assert (Hn : 0 < n_splits) by (unfold n_splits; lia).
  destruct (split_returns n_splits X y Hn Hlen Hc) as (tf & Hlen_tf & Hp & Hsplit).
  eexists. split; [exact (Hsplit X eq_refl)|].
  assert (Hval : forall i vi,
             validation_sets
               (List.map
                  (fun i =>
                     (select (List.map negb (List.map (in_fold i) tf))
                             (seq 0 (length tf)),
                      select (List.map (in_fold i) tf) (seq 0 (length tf))))
                  (seq 0 n_splits)) !! i = Some vi ->
             i < n_splits /\
             vi = select (List.map (in_fold i) tf) (seq 0 (length tf))).
  { intros i vi. unfold validation_sets. rewrite map_map. cbn [snd].
    rewrite lookup_List_map_eq.
    destruct (seq 0 n_splits !! i) as [i'|] eqn:E; [|discriminate].
    apply lookup_seq in E. destruct E as [-> E]. simpl.
    intros [= <-]. split; [exact E|reflexivity]. }
  split; [rewrite length_map, length_seq; reflexivity|].
  split; [|split; [|split]].
  - intros i j vi vj p Hi Hj Hne Hpi Hpj.
    apply Hval in Hi, Hj. destruct Hi as [_ ->], Hj as [_ ->].
    apply validation_select in Hpi, Hpj. congruence.
  - intros p. split.
    + intros Hlt. rewrite Hlen in Hlt.
      destruct (Hp p Hlt) as (v & Hv & Hl).
      exists (select (List.map (in_fold v) tf) (seq 0 (length tf))). split.
      * unfold validation_sets. rewrite map_map. cbn [snd].
        apply in_map_iff. exists v. split; [reflexivity|].
        apply in_seq. lia.
      * apply validation_select. exact Hl.
    + intros (v & Hv & Hpv). unfold validation_sets in Hv.
      rewrite map_map in Hv. cbn [snd] in Hv.
      apply in_map_iff in Hv. destruct Hv as (i & <- & _).
      apply validation_select in Hpv. apply lookup_lt_Some in Hpv. lia.
  - intros t v p Hin. apply in_map_iff in Hin.
    destruct Hin as (i & [= <- <-] & _).
    rewrite train_select, validation_select. rewrite Hlen_tf, Hlen. tauto.
  - exact Hsplit.
Qed.

End PlannerTheorem.

(* ================================================================== *)
(** * The validation aggregates *)
(* ================================================================== *)

Lemma correct_count_concat (P : nat -> bool) (batches : list (list nat)) :
  np_sum_int (List.map (fun batch => length (List.filter P batch)) batches)
  = length (List.filter P (concat batches)).
Proof.
  induction batches as [|b batches IH]; simpl; [reflexivity|].
  rewrite List.filter_app, length_app, IH. reflexivity.
Qed.

Section ValidationFacts.
Context `{Collaborators}.

(** The loss and the F1 of an epoch are the sums of the per-batch values
    over the number of validation batches; the accuracy is the number of
    correct predictions over [len(val_set)]. *)
Lemma validate_aggregates dataset fold epoch val_loader len_val_set :
  let batches := DataLoader.iter val_loader in
  let m := validate dataset fold epoch val_loader len_val_set in
  val_loss m
  = div_int (np_sum (List.map (criterion fold epoch) batches))
            (DataLoader.len val_loader) /\
  val_f1 m
  = div_int (np_sum (List.map
                       (fun batch =>
                          f1_score (List.map (target dataset) batch)
                                   (List.map (predict fold epoch) batch))
                       batches))
            (DataLoader.len val_loader) /\
  val_acc m
  = div_int (of_int (length (List.filter (correct dataset fold epoch)
                                         (concat batches))))
            len_val_set.
Proof.
  intros batches m. split; [reflexivity|]. split; [reflexivity|].
  rewrite <- (correct_count_concat (correct dataset fold epoch) batches).
  reflexivity.
Qed.

(** The validation loader is built with [drop_last=True] as well: the
    batches cover the longest prefix of the validation subset whose
    length is a multiple of the batch size, the samples after it are in
    no batch, and only the covered samples are counted as correct. *)
Lemma validation_drops_tail dataset train_idx valid_idx bs train_loader val_loader
      fold epoch len_val_set :
  getDataloader dataset train_idx valid_idx bs None = Some (train_loader, val_loader) ->
  let n := length valid_idx in
  let kept := take (bs * (n / bs)) valid_idx in
  DataLoader.drop_last val_loader = true /\
  length (DataLoader.iter val_loader) = n / bs /\
  DataLoader.len val_loader = n / bs /\
  concat (DataLoader.iter val_loader) = kept /\
  valid_idx = kept ++ drop (bs * (n / bs)) valid_idx /\
  length (drop (bs * (n / bs)) valid_idx) = n mod bs /\
  val_acc (validate dataset fold epoch val_loader len_val_set)
  = div_int (of_int (length (List.filter (correct dataset fold epoch) kept)))
            len_val_set.
Proof.
  intros Hget n kept.
  assert (Hbs : 0 < bs).
  { unfold getDataloader in Hget. destruct (Nat.eqb_spec bs 0); [discriminate|lia]. }
  destruct (getDataloader_spec dataset train_idx valid_idx bs None Hbs)
    as (tl & vl & Hget' & _ & Hvi & _ & Hvb & _ & Hvs & _ & Hvd & _).
  rewrite Hget in Hget'. injection Hget' as <- <-.
  assert (Hpos : 0 < DataLoader.batch_size val_loader) by (rewrite Hvb; exact Hbs).
  destruct (drop_last_loader_batches val_loader Hvs Hvd Hpos) as (H1 & H2 & H3 & H4).
  cbv zeta in H1, H2, H3, H4. rewrite Hvb, Hvi in H1, H2, H4. fold n in H1, H2, H4.
  fold kept in H4.
  split; [exact Hvd|]. split; [exact H1|]. split; [exact H2|]. split; [exact H4|].
  split; [symmetry; apply take_drop|]. split.
  - rewrite length_drop. fold n. pose proof (Nat.div_mod_eq n bs). lia.
  - destruct (validate_aggregates dataset fold epoch val_loader len_val_set)
      as (_ & _ & Hacc).
    rewrite Hacc, H4. reflexivity.
Qed.

End ValidationFacts.

(* ================================================================== *)
(** * The statements at the sample inputs *)
(* ================================================================== *)

Lemma train_loader_batch_count_witness :
  0 < 64 /\
  exists train_loader val_loader,
    getDataloader eleven_images (seq 0 200) (seq 200 50) 64 None
    = Some (train_loader, val_loader) /\
    length (DataLoader.iter train_loader) = 3.
Proof.
  split; [lia|].
  destruct (train_loader_batch_count eleven_images (seq 0 200) (seq 200 50) 64)
    as (tl & vl & Hget & _ & _ & Hlen & _); [lia|].
  exists tl, vl. split; [exact Hget|]. rewrite Hlen. reflexivity.
Defined.

Lemma early_stop_counter_witness :
  let tr :=
    epoch_trace
      (run_epoch (H := always_zero) eleven_images "model/exp" 0 (fold0_val_loader 1) 2)
      (seq 0 10) init_fold_state fresh_world in
  exists st w,
    tr !! 6 = Some (st, w, Break) /\
    length tr = 7 /\
    patience < counter st /\
    w = (before tr init_fold_state fresh_world 6).2.
Proof.
  intros tr.
  destruct (tr !! 6) as [[[st w] fl]|] eqn:E.
  2: { exfalso. vm_compute in E. discriminate E. }
  assert (Hfl : fl = Break).
  { pose proof E as E'. vm_compute in E'. injection E' as _ _ Hfl.
    symmetry. exact Hfl. }
  subst fl.
  destruct (early_stop_counter (H := always_zero) eleven_images "model/exp" 0
              (fold0_val_loader 1) 2 (seq 0 10) fresh_world) as (_ & Hall & _ & _).
  destruct (Hall 6 st w Break E) as (e & _ & _ & _ & _ & Hbrk & Hlast & _).
  exists st, w. split; [reflexivity|].
  destruct (Hlast eq_refl) as [Hlen Hw].
  split; [exact Hlen|]. split; [apply Hbrk; reflexivity|exact Hw].
Defined.

Lemma best_value_trackers_witness :
  let m := fun e => validate (H := always_zero) eleven_images 0 (e + 1)
                             (fold0_val_loader 1) 2 in
  let tr :=
    epoch_trace
      (run_epoch (H := always_zero) eleven_images "model/exp" 0 (fold0_val_loader 1) 2)
      (seq 0 10) init_fold_state fresh_world in
  0 < DataLoader.len (fold0_val_loader 1) /\
  0 < 2 /\
  exists st w fl l,
    tr !! 2 = Some (st, w, fl) /\
    best_val_loss st = Fin l /\
    is_min_of l (List.map val_loss (metrics_seen m (seq 0 10) 3)) /\
    is_max_of (best_val_acc st) (List.map val_acc (metrics_seen m (seq 0 10) 3)).
Proof.
  intros m tr.
  assert (H1 : 0 < DataLoader.len (fold0_val_loader 1)) by (vm_compute; lia).
  assert (H2 : 0 < 2) by lia.
  split; [exact H1|]. split; [exact H2|].
  destruct (tr !! 2) as [[[st w] fl]|] eqn:E.
  2: { exfalso. vm_compute in E. discriminate E. }
  destruct (best_value_trackers (H := always_zero) eleven_images "model/exp" 0
              (fold0_val_loader 1) 2 (seq 0 10) fresh_world H1 H2 2 st w fl E)
    as (e & _ & (l & Hl & Hmin) & _ & Hmax & _).
  exists st, w, fl, l. split; [reflexivity|]. split; [exact Hl|].
  split; [exact Hmin|exact Hmax].
Defined.

Lemma stratified_fold_plan_witness :
  length (image_paths eleven_images) = length (kfold_labels eleven_images) /\
  (exists c, n_splits <= count_occ Z.eq_dec (kfold_labels eleven_images) c) /\
  exists folds,
    StratifiedKFold.split n_splits (image_paths eleven_images)
                          (kfold_labels eleven_images) = Some folds /\
    length folds = 5.
Proof.
  assert (H1 : length (image_paths eleven_images) = length (kfold_labels eleven_images))
    by reflexivity.
  assert (H2 : exists c, n_splits <= count_occ Z.eq_dec (kfold_labels eleven_images) c).
  { exists 0%Z. vm_compute. lia. }
  split; [exact H1|]. split; [exact H2|].
  destruct (stratified_fold_plan _ _ H1 H2) as (folds & Hs & Hl & _).
  exists folds. split; assumption.
Defined.

(* ================================================================== *)
(** * The qualitative grid *)
(* ================================================================== *)

Lemma grid_cells_not_assertion batch_size grid gts preds choices : forall idx,
  grid_cells batch_size grid gts preds idx choices <> Raise AssertionError.
Proof.
  induction choices as [|c choices IH]; intros idx; cbn [grid_cells]; [discriminate|].
  destruct (gts !! c); [|discriminate].
  destruct (preds !! c); [|discriminate].
  destruct (batch_size <=? c); [discriminate|].
  destruct (grid * grid <? idx + 1); [discriminate|].
  specialize (IH (S idx)).
  destruct (grid_cells batch_size grid gts preds (S idx) choices) as [rest|e];
    [discriminate|].
  intros [= ->]. apply IH. reflexivity.
Qed.

(** With every choice inside the batch and room left in the grid, the loop
    draws one cell per choice, in order. *)
Lemma grid_cells_ok batch_size grid gts preds choices : forall idx,
  Forall (fun c => c < batch_size) choices ->
  batch_size <= length gts ->
  batch_size <= length preds ->
  idx + length choices <= grid * grid ->
  exists cs,
    grid_cells batch_size grid gts preds idx choices = Ok cs /\
    length cs = length choices /\
    forall j c,
      cs !! j = Some c ->
      exists choice gt pred,
        choices !! j = Some choice /\
        gts !! choice = Some gt /\
        preds !! choice = Some pred /\
        c = {| position := idx + j + 1; shown := choice; title := title_lines gt pred |}.
Proof.
  induction choices as [|choice choices IH]; intros idx Hin Hg Hp Hroom.
  - exists []. split; [reflexivity|]. split; [reflexivity|]. intros j c Hc. discriminate.
  - apply Forall_cons in Hin. destruct Hin as [Hc Hin].
    cbn [grid_cells length] in *.
    destruct (lookup_lt_is_Some_2 gts choice) as [gt Hgt]; [lia|].
    destruct (lookup_lt_is_Some_2 preds choice) as [pred Hpred]; [lia|].
    rewrite Hgt, Hpred.
    destruct (Nat.leb_spec batch_size choice) as [Hle|_]; [lia|].
    destruct (Nat.ltb_spec (grid * grid) (idx + 1)) as [Hlt|_]; [lia|].
    destruct (IH (S idx) Hin Hg Hp) as (cs & Hcs & Hlen & Hcells); [lia|].
    rewrite Hcs. eexists. split; [reflexivity|]. split; [simpl; lia|].
    intros [|j] c Hj; cbn [lookup list_lookup] in Hj.
    + injection Hj as <-. exists choice, gt, pred.
      repeat split; try assumption. f_equal. lia.
    + destruct (Hcells j c Hj) as (ch & g & p & H1 & H2 & H3 & ->).
      exists ch, g, p. repeat split; try assumption. f_equal. lia.
Qed.

(** X1. [grid_image] raises [AssertionError] exactly when it is asked for
    more cells than the batch has samples, whatever the labels are. *)
Theorem grid_image_assertion batch_size gts preds n shuffle drawn :
  grid_image batch_size gts preds n shuffle drawn = Raise AssertionError
  <-> batch_size < n.
Proof.
  unfold grid_image. destruct (Nat.leb_spec n batch_size) as [Hle|Hlt]; simpl.
  - split; [|lia]. intros Hr. exfalso.
    destruct (grid_cells batch_size (Nat.sqrt_up n) gts preds 0
                (if shuffle then drawn else seq 0 n)) as [cs|e] eqn:E; [discriminate|].
    injection Hr as ->.
    exact (grid_cells_not_assertion _ _ _ _ _ _ E).
  - split; [lia|reflexivity].
Qed.

(** X2. When the batch has at least [n] samples with their labels, and the
    random draws (used when [shuffle] is set) are [n] indices into the
    batch, [grid_image] raises nothing and returns [n] cells numbered 1 to
    [n] in a square grid of side [n_grid], the least side whose square
    holds [n] cells; every cell shows a sample of the batch under the title
    of that sample's labels, and without [shuffle] cell [j + 1] shows
    sample [j]. *)
Theorem grid_image_layout batch_size gts preds n shuffle drawn :
  n <= batch_size ->
  batch_size <= length gts ->
  batch_size <= length preds ->
  (shuffle = true -> length drawn = n /\ Forall (fun c => c < batch_size) drawn) ->
  exists fig,
    grid_image batch_size gts preds n shuffle drawn = Ok fig /\
    length (cells fig) = n /\
    n <= n_grid fig * n_grid fig /\
    (0 < n -> (n_grid fig - 1) * (n_grid fig - 1) < n) /\
    forall j c,
      cells fig !! j = Some c ->
      position c = j + 1 /\
      position c <= n_grid fig * n_grid fig /\
      shown c < batch_size /\
      (shuffle = false -> shown c = j) /\
      exists gt pred,
        gts !! shown c = Some gt /\
        preds !! shown c = Some pred /\
        title c = title_lines gt pred.
Proof.
  intros Hn Hg Hp Hdrawn. unfold grid_image.
  destruct (Nat.leb_spec n batch_size) as [_|Hlt]; [|lia]. simpl.
  set (choices := if shuffle then drawn else seq 0 n).
  assert (Hlen : length choices = n).
  { unfold choices. destruct shuffle; [apply Hdrawn; reflexivity|apply length_seq]. }
  assert (Hin : Forall (fun c => c < batch_size) choices).
  { unfold choices. destruct shuffle; [apply Hdrawn; reflexivity|].
    apply Forall_forall. intros c Hc. apply list_elem_of_In, in_seq in Hc. lia. }
  assert (Hsq : n <= Nat.sqrt_up n * Nat.sqrt_up n).
  { destruct n as [|n]; [lia|]. apply Nat.sqrt_up_spec. lia. }
  destruct (grid_cells_ok batch_size (Nat.sqrt_up n) gts preds choices 0 Hin Hg Hp)
    as (cs & Hcs & Hlcs & Hcells); [lia|].
  rewrite Hcs. eexists. split; [reflexivity|]. cbn [cells n_grid].
  split; [lia|]. split; [exact Hsq|]. split.
  { intros Hpos. pose proof (Nat.sqrt_up_spec n Hpos) as [Hlow _].
    rewrite <- Nat.sub_1_r in Hlow. exact Hlow. }
  intros j c Hj.
  destruct (Hcells j c Hj) as (choice & gt & pred & Hch & Hgt & Hpred & ->).
  cbn [position shown title].
  assert (Hjn : j < n).
  { apply lookup_lt_Some in Hj. lia. }
  split; [lia|]. split; [lia|]. split.
  { rewrite Forall_forall in Hin. apply Hin.
    exact (list_elem_of_lookup_2 _ _ _ Hch). }
  split.
  { intros ->. unfold choices in Hch. apply lookup_seq in Hch. lia. }
  exists gt, pred. repeat split; assumption.
Qed.

Lemma decode_multi_class_inj (gt pred : Z) :
  (0 <= gt < MaskBaseDataset.num_classes)%Z ->
  (0 <= pred < MaskBaseDataset.num_classes)%Z ->
  MaskBaseDataset.decode_multi_class gt = MaskBaseDataset.decode_multi_class pred ->
  gt = pred.
Proof.
  intros Hg Hp E.
  pose proof (encode_decode_multi_class gt Hg) as H1.
  pose proof (encode_decode_multi_class pred Hp) as H2.
  rewrite E in H1.
  destruct (MaskBaseDataset.decode_multi_class pred) as [[m g] a].
  destruct H1 as [_ <-]. destruct H2 as [_ <-]. reflexivity.
Qed.

(** X3. The title of a cell has one line per task, mask, gender and age in
    this order; for two class indices below 18 the ground truth and the
    prediction agree on every line exactly when the two indices are the
    same. *)
Theorem title_lines_agree (gt pred : Z) :
  (0 <= gt < MaskBaseDataset.num_classes)%Z ->
  (0 <= pred < MaskBaseDataset.num_classes)%Z ->
  List.map (fun line => line.1.1) (title_lines gt pred) = tasks /\
  (Forall (fun line => line.1.2 = line.2) (title_lines gt pred) <-> gt = pred).
Proof.
  intros Hg Hp. unfold title_lines.
  destruct (MaskBaseDataset.decode_multi_class gt) as [[gm gg] ga] eqn:Eg.
  destruct (MaskBaseDataset.decode_multi_class pred) as [[pm pg] pa] eqn:Ep.
  cbn. split; [reflexivity|]. split.
  - intros HF.
    apply Forall_cons in HF. destruct HF as [H1 HF].
    apply Forall_cons in HF. destruct HF as [H2 HF].
    apply Forall_cons in HF. destruct HF as [H3 _].
    cbn in H1, H2, H3. subst pm pg pa.
    apply (decode_multi_class_inj gt pred Hg Hp). congruence.
  - intros ->. rewrite Eg in Ep. injection Ep as <- <- <-.
    repeat constructor.
Qed.

Lemma title_lines_agree_witness :
  (0 <= 7 < MaskBaseDataset.num_classes)%Z /\
  (0 <= 13 < MaskBaseDataset.num_classes)%Z /\
  ~ Forall (fun line => line.1.2 = line.2) (title_lines 7 13).
Proof.
  assert (H1 : (0 <= 7 < MaskBaseDataset.num_classes)%Z)
    by (unfold MaskBaseDataset.num_classes; lia).
  assert (H2 : (0 <= 13 < MaskBaseDataset.num_classes)%Z)
    by (unfold MaskBaseDataset.num_classes; lia).
  split; [exact H1|]. split; [exact H2|].
  intros HF. apply (title_lines_agree 7 13 H1 H2) in HF. discriminate HF.
Defined.

Lemma grid_image_layout_witness :
  16 <= 64 /\
  exists fig,
    grid_image 64 (repeat 3%Z 64) (repeat 5%Z 64) 16 false [] = Ok fig /\
    length (cells fig) = 16 /\
    n_grid fig = 4.
Proof.
  split; [lia|].
  destruct (grid_image_layout 64 (repeat 3%Z 64) (repeat 5%Z 64) 16 false [])
    as (fig & Hfig & Hlen & _); [lia| | |discriminate|].
  - rewrite repeat_length. lia.
  - rewrite repeat_length. lia.
  - exists fig. split; [exact Hfig|]. split; [exact Hlen|].
    vm_compute in Hfig. injection Hfig as <-. reflexivity.
Defined.

Section ValidationGrid.
Context `{Collaborators}.

(** X4. The validation loader has only full batches, so the grid drawn
    from the first validation batch asks for 16 of [batch_size] samples:
    a validation epoch raises [AssertionError] there exactly when the batch
    size is below 16 and the validation subset fills at least one batch.
    A subset too small for one batch draws no grid, and with 16 or more
    per batch (and, when the cells are drawn at random, 16 draws inside
    the batch) the grid is a 4 by 4 figure of 16 cells. *)
Theorem validation_grid_assertion dataset args_dataset fold epoch
        train_idx valid_idx bs train_loader val_loader drawn :
  getDataloader dataset train_idx valid_idx bs None = Some (train_loader, val_loader) ->
  (first_batch_figure dataset args_dataset fold epoch val_loader drawn
   = Raise AssertionError
   <-> bs < 16 /\ bs <= length valid_idx) /\
  (length valid_idx < bs ->
   first_batch_figure dataset args_dataset fold epoch val_loader drawn = Ok None) /\
  (16 <= bs -> bs <= length valid_idx ->
   (args_dataset <> "MaskSplitByProfileDataset" ->
    length drawn = 16 /\ Forall (fun c => c < bs) drawn) ->
   exists fig,
     first_batch_figure dataset args_dataset fold epoch val_loader drawn
     = Ok (Some fig) /\
     n_grid fig = 4 /\
     length (cells fig) = 16).
Proof.
  intros Hget.
  assert (Hbs : 0 < bs).
  { unfold getDataloader in Hget. destruct (Nat.eqb_spec bs 0); [discriminate|lia]. }
  destruct (getDataloader_spec dataset train_idx valid_idx bs None Hbs)
    as (tl & vl & Hget' & _ & Hvi & _ & Hvb & _ & Hvs & _ & Hvd & _).
  rewrite Hget in Hget'. injection Hget' as <- <-.
  assert (Hpos : 0 < DataLoader.batch_size val_loader) by (rewrite Hvb; exact Hbs).
  destruct (drop_last_loader_batches val_loader Hvs Hvd Hpos) as (Hcount & _ & Hfull & _).
  cbv zeta in Hcount. rewrite Hvb, Hvi in Hcount. rewrite Hvb in Hfull.
  unfold first_batch_figure.
  destruct (DataLoader.iter val_loader) as [|batch batches] eqn:Eit.
  - simpl in Hcount. symmetry in Hcount.
    apply Nat.div_small_iff in Hcount; [|lia].
    split; [split; [discriminate|lia]|]. split; [reflexivity|]. lia.
  - apply Forall_cons in Hfull. destruct Hfull as [Hb _].
    assert (Hn : bs <= length valid_idx).
    { destruct (Nat.le_gt_cases bs (length valid_idx)) as [Hle|Hgt]; [exact Hle|].
      rewrite Nat.div_small in Hcount by exact Hgt. discriminate Hcount. }
    rewrite Hb. unfold grid_image.
    set (shuffle := negb (String.eqb args_dataset "MaskSplitByProfileDataset")).
    set (choices := if shuffle then drawn else seq 0 16).
    split; [|split; [lia|]].
    + destruct (Nat.leb_spec 16 bs) as [Hle|Hlt]; cbn [negb].
      * split; [|lia]. intros Hr. exfalso.
        destruct (grid_cells bs (Nat.sqrt_up 16) (List.map (target dataset) batch)
                    (List.map (predict fold epoch) batch) 0 choices)
          as [cs|e] eqn:E; [discriminate|].
        injection Hr as ->.
        exact (grid_cells_not_assertion _ _ _ _ _ _ E).
      * split; [intros _; split; [exact Hlt|exact Hn]|reflexivity].
    + intros H16 _ Hd.
      destruct (Nat.leb_spec 16 bs) as [_|Hlt]; [|lia]. cbn [negb].
      assert (Hlen : length choices = 16).
      { unfold choices. destruct shuffle eqn:Es; [|apply length_seq].
        apply Hd. apply negb_true_iff in Es. apply String.eqb_neq. exact Es. }
      assert (Hin : Forall (fun c => c < bs) choices).
      { unfold choices. destruct shuffle eqn:Es.
        - apply Hd. apply negb_true_iff in Es. apply String.eqb_neq. exact Es.
        - apply Forall_forall. intros c Hc. apply list_elem_of_In, in_seq in Hc. lia. }
      destruct (grid_cells_ok bs (Nat.sqrt_up 16) (List.map (target dataset) batch)
                  (List.map (predict fold epoch) batch) choices 0 Hin)
        as (cs & Hcs & Hlcs & _).
      { rewrite length_map. lia. }
      { rewrite length_map. lia. }
      { rewrite Hlen. vm_compute. lia. }
      rewrite Hcs. eexists. split; [reflexivity|]. cbn [n_grid cells].
      split; [reflexivity|]. lia.
Qed.

End ValidationGrid.

Lemma validation_grid_assertion_witness :
  getDataloader eleven_images [3; 4; 5; 6; 7; 8; 9; 10] [0; 1; 2] 2 None
  = Some ({| DataLoader.dataset :=
               {| sub_dataset := eleven_images; indices := [3; 4; 5; 6; 7; 8; 9; 10] |};
             DataLoader.batch_size := 2;
             DataLoader.sampler := None;
             DataLoader.drop_last := true;
             DataLoader.shuffle := false |},
          fold0_val_loader 2) /\
  first_batch_figure (H := always_zero) eleven_images "MaskBaseDataset" 0 0
    (fold0_val_loader 2) [] = Raise AssertionError.
Proof.
  assert (Hget : getDataloader eleven_images [3; 4; 5; 6; 7; 8; 9; 10] [0; 1; 2] 2 None
                 = Some ({| DataLoader.dataset :=
                              {| sub_dataset := eleven_images;
                                 indices := [3; 4; 5; 6; 7; 8; 9; 10] |};
                            DataLoader.batch_size := 2;
                            DataLoader.sampler := None;
                            DataLoader.drop_last := true;
                            DataLoader.shuffle := false |},
                         fold0_val_loader 2)) by reflexivity.
  split; [exact Hget|].
  apply (validation_grid_assertion (H := always_zero) eleven_images "MaskBaseDataset"
           0 0 _ _ _ _ _ [] Hget).
  simpl. lia.
Defined.


(* ================================================================== *)
(** * The save directory *)
(* ================================================================== *)

Lemma pretty_N_go_length (x : N) : forall s,
  String.length s <= String.length (pretty_N_go x s).
Proof.
  induction (N.lt_wf_0 x) as [x _ IH]; intros s.
  destruct (decide (x = 0)%N) as [->|Hx].
  - rewrite pretty_N_go_0. lia.
  - rewrite pretty_N_go_step by lia.
    etrans; [|apply IH, N.div_lt; lia]. simpl. lia.
Qed.

Lemma pretty_nat_nonempty (n : nat) : pretty n <> "".
Proof.
  unfold pretty, pretty_nat, pretty, pretty_N.
  destruct (decide (N.of_nat n = 0)%N) as [_|Hn]; [discriminate|].
  rewrite pretty_N_go_step by lia. intros E.
  pose proof (pretty_N_go_length (N.of_nat n `div` 10)
                (String (pretty_N_char (N.of_nat n `mod` 10)) "")) as Hlen.
  rewrite E in Hlen. simpl in Hlen. lia.
Qed.

Lemma append_empty_r (s : string) : s +:+ "" = s.
Proof.
  induction s as [|c s IH]; [reflexivity|].
  change (String c (s +:+ "") = String c s). f_equal. exact IH.
Qed.

Lemma append_number_neq (s : string) (n : nat) : s +:+ pretty n <> s.
Proof.
  intros E. rewrite <- (append_empty_r s) in E at 2.
  apply String.app_inj in E. exact (pretty_nat_nonempty n E).
Qed.

Section SaveDirectory.
Context `{PathLib}.

(** X5. [increment_path] returns the path as it is exactly when the path
    does not exist or [exist_ok] is set; an existing path without
    [exist_ok] is never returned itself. *)
Theorem increment_path_unchanged (path : string) (exist_ok : bool) :
  increment_path path exist_ok = path_str path
  <-> path_exists path = false \/ exist_ok = true.
Proof.
  unfold increment_path.
  destruct (path_exists path), exist_ok; simpl.
  - split; [right; reflexivity|reflexivity].
  - split; [|intros [E|E]; discriminate E].
    intros E. exfalso. exact (append_number_neq _ _ E).
  - split; [left; reflexivity|reflexivity].
  - split; [left; reflexivity|reflexivity].
Qed.

End SaveDirectory.

(* ================================================================== *)
(** * The training phase of an epoch *)
(* ================================================================== *)

(** The test [(idx + 1) % log_interval == 0] looks at the size of the
    interval only. *)
Lemma log_point (L : Z) (a : nat) :
  L <> 0%Z ->
  (Z.of_nat a mod L =? 0)%Z = (a mod Z.abs_nat L =? 0).
Proof.
  intros HL. apply eq_true_iff_eq.
  rewrite Z.eqb_eq, Nat.eqb_eq.
  assert (Hk : Z.of_nat (Z.abs_nat L) <> 0%Z) by lia.
  rewrite (Z.mod_divide _ _ HL), <- Z.divide_abs_l, <- (Zabs2Nat.id_abs L).
  rewrite <- (Z.mod_divide _ _ Hk), <- Nat2Z.inj_mod. lia.
Qed.

Lemma mod_succ_small (idx k : nat) :
  idx mod k + 1 < k -> (idx + 1) mod k = idx mod k + 1.
Proof.
  intros Hlt. rewrite <- Nat.Div0.add_mod_idemp_l.
  apply Nat.mod_small. exact Hlt.
Qed.

Lemma mod_succ_full (idx k : nat) :
  idx mod k + 1 = k -> (idx + 1) mod k = 0.
Proof.
  intros E. rewrite <- Nat.Div0.add_mod_idemp_l, E.
  apply Nat.Div0.mod_same.
Qed.

(** Batches that do not reach the next multiple of the interval are summed
    and print nothing. *)
Lemma train_phase_quiet (L : Z) (bs : nat) (pre rest : list train_batch) :
  L <> 0%Z ->
  forall idx acc,
    idx mod Z.abs_nat L + length pre < Z.abs_nat L ->
    train_phase L bs idx (pre ++ rest) acc
    = train_phase L bs (idx + length pre) rest (fold_left accumulate pre acc).
Proof.
  intros HL. induction pre as [|b pre IH]; intros idx acc Hlt.
  - simpl. rewrite Nat.add_0_r. reflexivity.
  - cbn [app train_phase length fold_left] in *.
    destruct (Z.eqb_spec L 0) as [E|_]; [contradiction|].
    rewrite (log_point L (idx + 1) HL).
    rewrite mod_succ_small by lia.
    destruct (Nat.eqb_spec (idx mod Z.abs_nat L + 1) 0) as [E|_]; [lia|].
    rewrite IH.
    + f_equal. lia.
    + replace (S idx) with (idx + 1) by lia. rewrite mod_succ_small by lia. lia.
Qed.

(** The batch that completes an interval prints a line and resets the
    sums. *)
Lemma train_phase_log (L : Z) (bs idx : nat) (b : train_batch)
      (rest : list train_batch) (acc : running) :
  L <> 0%Z ->
  idx mod Z.abs_nat L + 1 = Z.abs_nat L ->
  train_phase L bs idx (b :: rest) acc
  = if bs =? 0 then Raise ZeroDivisionError
    else match train_phase L bs (S idx) rest running_zero with
         | Ok (acc_end, lines) =>
             Ok (acc_end, log_line L bs idx (accumulate acc b) :: lines)
         | Raise e => Raise e
         end.
Proof.
  intros HL Hfull. cbn [train_phase].
  destruct (Z.eqb_spec L 0) as [E|_]; [contradiction|].
  rewrite (log_point L (idx + 1) HL), (mod_succ_full _ _ Hfull).
  reflexivity.
Qed.

Lemma split_block {A : Type} (k : nat) (l : list A) :
  0 < k -> k <= length l ->
  exists pre b,
    l = pre ++ b :: drop k l /\ length pre = k - 1 /\ take k l = pre ++ [b].
Proof.
  intros Hk Hlen.
  destruct (lookup_lt_is_Some_2 l (k - 1)) as [b Hb]; [lia|].
  exists (take (k - 1) l), b.
  split; [|split].
  - rewrite <- (take_drop (k - 1) l) at 1. f_equal.
    rewrite (drop_S l b (k - 1) Hb). do 2 f_equal. lia.
  - rewrite length_take. lia.
  - replace k with (S (k - 1)) at 1 by lia.
    rewrite (take_S_r l (k - 1) b Hb). reflexivity.
Qed.

(** The training phase, interval by interval. *)
Lemma train_phase_blocks (L : Z) (bs : nat) :
  L <> 0%Z -> bs <> 0 ->
  forall m batches q,
    length batches <= m ->
    exists acc_end lines,
      train_phase L bs (q * Z.abs_nat L) batches running_zero = Ok (acc_end, lines) /\
      length lines = length batches / Z.abs_nat L /\
      (forall j line,
         lines !! j = Some line ->
         line = log_line L bs ((q + j + 1) * Z.abs_nat L - 1)
                  (fold_left accumulate (block (Z.abs_nat L) j batches) running_zero)) /\
      acc_end = fold_left accumulate
                  (drop (Z.abs_nat L * (length batches / Z.abs_nat L)) batches)
                  running_zero.
Proof.
  intros HL Hbs.
  set (k := Z.abs_nat L).
  assert (Hk : 0 < k) by (unfold k; lia).
  induction m as [|m IH]; intros batches q Hm.
  - destruct batches; [|simpl in Hm; lia].
    exists running_zero, []. simpl.
    split; [reflexivity|]. split; [symmetry; apply Nat.Div0.div_0_l|].
    split; [intros j line Hj; discriminate|].
    rewrite drop_nil. reflexivity.
  - destruct (Nat.lt_ge_cases (length batches) k) as [Hshort|Hlong].
    + exists (fold_left accumulate batches running_zero), [].
      pose proof (train_phase_quiet L bs batches [] HL (q * k) running_zero) as Hq.
      rewrite app_nil_r in Hq. fold k in Hq.
      rewrite Nat.Div0.mod_mul in Hq. rewrite Hq by lia. cbn [train_phase].
      rewrite (Nat.div_small _ _ Hshort), Nat.mul_0_r, drop_0.
      split; [reflexivity|]. split; [reflexivity|].
      split; [intros j line Hj; discriminate|reflexivity].
    + destruct (split_block k batches Hk Hlong) as (pre & b & Hsplit & Hpre & Htake).
      set (rest := drop k batches) in *.
      assert (Hrest : length batches = k + length rest).
      { unfold rest. rewrite length_drop. lia. }
      destruct (IH rest (S q)) as (acc_end & lines & Hrun & Hlen & Hlines & Hend); [lia|].
      assert (Hdiv : length batches / k = S (length rest / k)).
      { rewrite Hrest. replace (k + length rest) with (1 * k + length rest) by lia.
        rewrite Nat.div_add_l by lia. lia. }
      exists acc_end,
        (log_line L bs (q * k + length pre)
           (accumulate (fold_left accumulate pre running_zero) b) :: lines).
      split; [|split; [|split]].
      * rewrite Hsplit.
        pose proof (train_phase_quiet L bs pre (b :: rest) HL (q * k) running_zero) as Hq.
        fold k in Hq. rewrite Nat.Div0.mod_mul in Hq. rewrite Hq by lia.
        rewrite train_phase_log.
        -- destruct (Nat.eqb_spec bs 0) as [E|_]; [contradiction|].
           replace (S (q * k + length pre)) with (S q * k) by lia.
           rewrite Hrun. reflexivity.
        -- exact HL.
        -- fold k. replace (q * k + length pre) with (length pre + q * k) by lia.
           rewrite Nat.Div0.mod_add.
           rewrite Nat.mod_small by lia. lia.
      * cbn [length]. rewrite Hlen, Hdiv. reflexivity.
      * intros [|j] line Hj; cbn [lookup list_lookup] in Hj.
        -- injection Hj as <-. f_equal; [lia|].
           unfold block. rewrite Nat.mul_0_l, drop_0, Htake, fold_left_app.
           reflexivity.
        -- rewrite (Hlines j line Hj).
           assert (Hblock : block k j rest = block k (S j) batches).
           { unfold block, rest. rewrite drop_drop. do 2 f_equal; lia. }
           rewrite Hblock. f_equal. lia.
      * rewrite Hend, Hdiv. unfold rest. rewrite drop_drop. do 2 f_equal; lia.
Qed.

Lemma accumulate_loss (l : list train_batch) : forall acc,
  loss_value (fold_left accumulate l acc)
  = fold_left Qplus (List.map loss_item l) (loss_value acc).
Proof.
  induction l as [|b l IH]; intros acc; [reflexivity|].
  cbn [fold_left List.map]. rewrite IH. reflexivity.
Qed.

Lemma accumulate_f1 (l : list train_batch) : forall acc,
  f1 (fold_left accumulate l acc)
  = fold_left Qplus (List.map f1_item l) (f1 acc).
Proof.
  induction l as [|b l IH]; intros acc; [reflexivity|].
  cbn [fold_left List.map]. rewrite IH. reflexivity.
Qed.

Lemma accumulate_matches (l : list train_batch) : forall acc,
  matches (fold_left accumulate l acc)
  = matches acc + list_sum (List.map match_item l).
Proof.
  induction l as [|b l IH]; intros acc.
  - simpl. lia.
  - simpl. rewrite IH. simpl. lia.
Qed.

Lemma block_length {A : Type} (k j : nat) (l : list A) :
  0 < k -> j < length l / k -> length (block k j l) = k.
Proof.
  intros Hk Hj. unfold block. rewrite length_take, length_drop.
  pose proof (Nat.Div0.mul_div_le (length l) k) as Hle.
  assert (S j * k <= length l) by nia. lia.
Qed.

Lemma list_sum_bound (l : list nat) (c : nat) :
  Forall (fun x => x <= c) l -> list_sum l <= length l * c.
Proof.
  induction 1 as [|x l Hx _ IH]; simpl; lia.
Qed.

(** X9. The batches after the last printed line are summed and never
    reported: when the phase ends, the running sums hold exactly the last
    [len(train_loader) % k] batches, and nothing when [k] divides the
    number of batches.  With fewer than [k] batches no line is printed at
    all. *)
Theorem train_phase_remainder (L : Z) (bs : nat) (batches : list train_batch)
        (acc_end : running) (lines : list train_log) :
  L <> 0%Z -> bs <> 0 ->
  train_phase L bs 0 batches running_zero = Ok (acc_end, lines) ->
  let tail := drop (Z.abs_nat L * length lines) batches in
  length tail = length batches mod Z.abs_nat L /\
  loss_value acc_end = running_sum (List.map loss_item tail) /\
  matches acc_end = list_sum (List.map match_item tail) /\
  f1 acc_end = running_sum (List.map f1_item tail) /\
  (length batches mod Z.abs_nat L = 0 -> acc_end = running_zero) /\
  (length batches < Z.abs_nat L -> lines = []).
Proof.
  intros HL Hbs Hrun.
  destruct (train_phase_blocks L bs HL Hbs (length batches) batches 0 (Nat.le_refl _))
    as (acc_end' & lines' & Hrun' & Hlen & _ & Hend).
  cbn [Nat.mul] in Hrun'. rewrite Hrun in Hrun'. injection Hrun' as <- <-.
  rewrite Hlen. intros tail.
  assert (Htail : length tail = length batches mod Z.abs_nat L).
  { unfold tail. rewrite length_drop, Nat.Div0.mod_eq. reflexivity. }
  split; [exact Htail|].
  fold tail in Hend. rewrite Hend.
  rewrite accumulate_loss, accumulate_f1, accumulate_matches.
  split; [reflexivity|]. split; [reflexivity|]. split; [reflexivity|]. split.
  - intros Hz. rewrite Hz in Htail. destruct tail; [reflexivity|discriminate Htail].
  - intros Hshort. rewrite (Nat.div_small _ _ Hshort) in Hlen.
    destruct lines; [reflexivity|discriminate Hlen].
Qed.

(** X10. When no batch has more matches than the batch size (the loader
    drops the short batch and the driver passes the same batch size to
    both) and the log interval is positive, every printed training
    accuracy lies between 0 and 1. *)
Theorem train_acc_bounds (L : Z) (bs : nat) (batches : list train_batch)
        (acc_end : running) (lines : list train_log) :
  (0 < L)%Z -> 0 < bs ->
  Forall (fun b => match_item b <= bs) batches ->
  train_phase L bs 0 batches running_zero = Ok (acc_end, lines) ->
  Forall (fun line => (0 <= train_acc line)%Q /\ (train_acc line <= 1)%Q) lines.
Proof.
  intros HL Hbs Hm Hrun.
  assert (HL0 : L <> 0%Z) by lia.
  assert (Hbs0 : bs <> 0) by lia.
  destruct (train_phase_blocks L bs HL0 Hbs0 (length batches) batches 0 (Nat.le_refl _))
    as (acc_end' & lines' & Hrun' & Hlen & Hlines & _).
  cbn [Nat.mul] in Hrun'. rewrite Hrun in Hrun'. injection Hrun' as <- <-.
  apply Forall_lookup. intros j line Hj.
  rewrite (Hlines j line Hj). cbn [train_acc log_line].
  rewrite accumulate_matches. cbn [running_zero matches Nat.add].
  set (blk := block (Z.abs_nat L) j batches).
  assert (Hblk : length blk = Z.abs_nat L).
  { apply block_length; [lia|]. rewrite <- Hlen. exact (lookup_lt_Some _ _ _ Hj). }
  assert (Hsum : list_sum (List.map match_item blk) <= Z.abs_nat L * bs).
  { rewrite <- Hblk, <- (length_map match_item blk). apply list_sum_bound.
    apply Forall_forall. intros x Hx.
    apply list_elem_of_In, in_map_iff in Hx. destruct Hx as (b & <- & Hb).
    rewrite Forall_forall in Hm. apply Hm.
    unfold blk, block in Hb. apply list_elem_of_In in Hb.
    exact (subseteq_drop _ _ _ (subseteq_take _ _ _ Hb)). }
  assert (HLq : (0 < inject_Z L)%Q).
  { change 0%Q with (inject_Z 0). rewrite <- Zlt_Qlt. exact HL. }
  assert (Hbq : (0 < of_int bs)%Q).
  { unfold of_int. change 0%Q with (inject_Z 0). rewrite <- Zlt_Qlt. lia. }
  split.
  - unfold Qdiv. apply Qmult_le_0_compat.
    + apply Qmult_le_0_compat; [apply of_int_nonneg|].
      apply Qinv_le_0_compat, Qlt_le_weak, Hbq.
    + apply Qinv_le_0_compat, Qlt_le_weak, HLq.
  - apply Qle_shift_div_r; [exact HLq|].
    apply Qle_shift_div_r; [exact Hbq|].
    unfold of_int, Qle, Qmult, inject_Z. cbn [Qnum Qden]. nia.
Qed.

Lemma train_phase_remainder_witness :
  2%Z <> 0%Z /\ 4 <> 0 /\
  exists acc_end lines,
    train_phase 2 4 0 sample_batches running_zero = Ok (acc_end, lines) /\
    loss_value acc_end = running_sum [(1 # 4)%Q] /\
    matches acc_end = 4.
Proof.
  assert (HL : 2%Z <> 0%Z) by lia.
  assert (Hbs : 4 <> 0) by lia.
  split; [exact HL|]. split; [exact Hbs|].
  destruct (train_phase 2 4 0 sample_batches running_zero) as [[acc_end lines]|e] eqn:E;
    [|exfalso; vm_compute in E; discriminate E].
  destruct (train_phase_remainder 2 4 sample_batches acc_end lines HL Hbs E)
    as (_ & Hloss & Hmatch & _).
  exists acc_end, lines. split; [reflexivity|].
  assert (Hlines : length lines = 2).
  { vm_compute in E. injection E as <- <-. reflexivity. }
  rewrite Hlines in Hloss, Hmatch.
  split; [exact Hloss|exact Hmatch].
Defined.

Lemma train_acc_bounds_witness :
  (0 < 2)%Z /\ 0 < 4 /\
  Forall (fun b => match_item b <= 4) sample_batches /\
  exists acc_end lines,
    train_phase 2 4 0 sample_batches running_zero = Ok (acc_end, lines) /\
    Forall (fun line => (0 <= train_acc line)%Q /\ (train_acc line <= 1)%Q) lines.
Proof.
  assert (HL : (0 < 2)%Z) by lia.
  assert (Hbs : 0 < 4) by lia.
  assert (Hm : Forall (fun b => match_item b <= 4) sample_batches).
  { unfold sample_batches. repeat constructor; simpl; lia. }
  split; [exact HL|]. split; [exact Hbs|]. split; [exact Hm|].
  destruct (train_phase 2 4 0 sample_batches running_zero) as [[acc_end lines]|e] eqn:E;
    [|exfalso; vm_compute in E; discriminate E].
  exists acc_end, lines. split; [reflexivity|].
  exact (train_acc_bounds 2 4 sample_batches acc_end lines HL Hbs Hm E).
Defined.

(* ================================================================== *)
(** * The epochs of a fold, over time *)
(* ================================================================== *)

(** The two ways the F1 bookkeeping of an epoch can go. *)
Lemma epoch_end_f1_cases save_dir fold epoch m st w :
  let r := epoch_end save_dir fold epoch m st w in
  ((best_val_f1 st < val_f1 m)%Q /\
   counter r.1.1 = 0 /\ best_val_f1 r.1.1 = val_f1 m) \/
  ((val_f1 m <= best_val_f1 st)%Q /\
   counter r.1.1 = counter st + 1 /\ best_val_f1 r.1.1 = best_val_f1 st).
Proof.
  destruct (epoch_end_trackers save_dir fold epoch m st w) as (_ & _ & Hf & Hc & _).
  cbv zeta. rewrite Hf, Hc. unfold py_max.
  destruct (Qltb (best_val_f1 st) (val_f1 m)) eqn:E.
  - left. apply Qltb_lt in E. split; [exact E|]. split; reflexivity.
  - right. apply Qltb_ge in E. split; [exact E|]. split; reflexivity.
Qed.

Lemma before_lookup tr st0 w0 i x :
  tr !! S i = Some x ->
  exists st w fl, tr !! i = Some (st, w, fl) /\ before tr st0 w0 (S i) = (st, w).
Proof.
  intros Hx. apply lookup_lt_Some in Hx.
  destruct (lookup_lt_is_Some_2 tr i) as [[[st w] fl] Hi]; [lia|].
  exists st, w, fl. split; [exact Hi|]. simpl. rewrite Hi. reflexivity.
Qed.

Section FoldOverTime.
Context `{Collaborators}.
Variables (dataset : Dataset) (save_dir : string) (fold : nat)
  (val_loader : DataLoader.t) (len_val_set : nat).



(** X12. Within a fold, best.pth and the F1 tracker go together.  After
    any executed epoch either no epoch so far had a positive validation
    F1, the tracker is still 0 and best.pth is whatever the fold found on
    disk (nothing, or an earlier fold's file); or best.pth holds the
    weights of the first epoch that reached the highest validation F1 so
    far, and the tracker is that F1. *)
Theorem best_checkpoint_is_first_maximum (range : list nat) (w0 : world) :
  let m := fun e => validate dataset fold (e + 1) val_loader len_val_set in
  let body := run_epoch dataset save_dir fold val_loader len_val_set in
  let tr := epoch_trace body range init_fold_state w0 in
  forall i st w fl,
    tr !! i = Some (st, w, fl) ->
    (best_val_f1 st = 0%Q /\
     files w !! best_path save_dir = files w0 !! best_path save_dir /\
     forall j e, j <= i -> range !! j = Some e -> (val_f1 (m e) <= 0)%Q) \/
    (exists j e,
        j <= i /\ range !! j = Some e /\
        files w !! best_path save_dir = Some {| ck_fold := fold; ck_epoch := e + 1 |} /\
        best_val_f1 st = val_f1 (m e) /\
        (0 < val_f1 (m e))%Q /\
        (forall j' e', j' <= i -> range !! j' = Some e' ->
                       (val_f1 (m e') <= val_f1 (m e))%Q) /\
        (forall j' e', j' < j -> range !! j' = Some e' ->
                       (val_f1 (m e') < val_f1 (m e))%Q)).
Proof.
  intros m body tr i. induction i as [|i IH]; intros st w fl Hi.
  - destruct (epoch_trace_step body range _ _ 0 _ Hi) as (e & He & Hx).
    fold tr in Hx. cbn [before fst snd] in Hx.
    unfold body, run_epoch in Hx. fold (m e) in Hx.
    pose proof (epoch_end_f1_cases save_dir fold (e + 1) (m e) init_fold_state w0) as Hc.
    pose proof (epoch_end_writes save_dir fold (e + 1) (m e) init_fold_state w0) as Hw.
    cbv zeta in Hc, Hw. rewrite <- Hx in Hc, Hw. cbn [fst snd] in Hc, Hw.
    cbn [init_fold_state best_val_f1] in Hc, Hw.
    destruct Hw as (_ & _ & Wi & Wn).
    destruct Hc as [(Hlt & _ & Hb)|(Hle & _ & Hb)].
    + right. exists 0, e. split; [lia|]. split; [exact He|].
      split; [apply Wi, Hlt|]. split; [exact Hb|]. split; [exact Hlt|]. split.
      * intros j' e' Hj' He'. assert (j' = 0) as -> by lia.
        rewrite He in He'. injection He' as <-. apply Qle_refl.
      * intros j' e' Hj'. lia.
    + left. split; [exact Hb|]. split.
      * apply Wn. intros Hlt. exact (Qlt_not_le _ _ Hlt Hle).
      * intros j e' Hj He'. assert (j = 0) as -> by lia.
        rewrite He in He'. injection He' as <-. exact Hle.
  - destruct (epoch_trace_step body range _ _ (S i) _ Hi) as (e & He & Hx).
    fold tr in Hx.
    destruct (before_lookup tr init_fold_state w0 i _ Hi) as (st' & w' & fl' & Hi' & Hbef).
    rewrite Hbef in Hx. cbn [fst snd] in Hx.
    unfold body, run_epoch in Hx. fold (m e) in Hx.
    pose proof (epoch_end_f1_cases save_dir fold (e + 1) (m e) st' w') as Hc.
    pose proof (epoch_end_writes save_dir fold (e + 1) (m e) st' w') as Hw.
    cbv zeta in Hc, Hw. rewrite <- Hx in Hc, Hw. cbn [fst snd] in Hc, Hw.
    destruct Hw as (_ & _ & Wi & Wn).
    specialize (IH st' w' fl' Hi').
    assert (Hpos : (0 <= best_val_f1 st')%Q).
    { destruct IH as [(E & _)|(j & e0 & _ & _ & _ & E & Hp & _)]; rewrite E.
      - apply Qle_refl.
      - apply Qlt_le_weak, Hp. }
    assert (Hseen : forall j' e', j' <= i -> range !! j' = Some e' ->
                                  (val_f1 (m e') <= best_val_f1 st')%Q).
    { destruct IH as [(E & _ & Hall)|(j & e0 & _ & _ & _ & E & _ & Hall & _)]; rewrite E.
      - exact Hall.
      - exact Hall. }
    destruct Hc as [(Hlt & _ & Hb)|(Hle & _ & Hb)].
    + right. exists (S i), e. split; [lia|]. split; [exact He|].
      split; [apply Wi, Hlt|]. split; [exact Hb|].
      split; [eapply Qle_lt_trans; eassumption|]. split.
      * intros j' e' Hj' He'.
        destruct (Nat.eq_dec j' (S i)) as [->|Hne].
        -- rewrite He in He'. injection He' as <-. apply Qle_refl.
        -- apply Qlt_le_weak. eapply Qle_lt_trans; [|exact Hlt].
           apply (Hseen j' e'); [lia|exact He'].
      * intros j' e' Hj' He'. eapply Qle_lt_trans; [|exact Hlt].
        apply (Hseen j' e'); [lia|exact He'].
    + assert (Hno : ~ (best_val_f1 st' < val_f1 (m e))%Q)
        by (intros Hlt; exact (Qlt_not_le _ _ Hlt Hle)).
      specialize (Wn Hno).
      destruct IH as [(E & Hf & Hall)|(j & e0 & Hj & He0 & Hf & E & Hp & Hall & Hfirst)].
      * left. split; [rewrite Hb; exact E|]. split; [rewrite Wn; exact Hf|].
        intros j' e' Hj' He'.
        destruct (Nat.eq_dec j' (S i)) as [->|Hne].
        -- rewrite He in He'. injection He' as <-. rewrite <- E. exact Hle.
        -- apply (Hall j' e'); [lia|exact He'].
      * right. exists j, e0. split; [lia|]. split; [exact He0|].
        split; [rewrite Wn; exact Hf|]. split; [rewrite Hb; exact E|].
        split; [exact Hp|]. split; [|exact Hfirst].
        intros j' e' Hj' He'.
        destruct (Nat.eq_dec j' (S i)) as [->|Hne].
        -- rewrite He in He'. injection He' as <-. rewrite <- E. exact Hle.
        -- apply (Hall j' e'); [lia|exact He'].
Qed.

(** X13. What a fold leaves in the log and in last.pth: the loop logs
    the metrics of the epochs that did not break, in order, and nothing
    else; when it stops early the metrics of the breaking epoch are never
    logged and its weights are not saved, so last.pth holds the weights
    of the epoch before it.  If no epoch ended without a break, last.pth
    is what it was. *)
Theorem epoch_loop_log_and_last (range : list nat) :
  let m := fun e => validate dataset fold (e + 1) val_loader len_val_set in
  let body := run_epoch dataset save_dir fold val_loader len_val_set in
  forall st w,
    exists n,
      n <= length range /\
      wandb_logs (epoch_loop body range st w).2
      = wandb_logs w ++ List.map m (take n range) /\
      (n < length range -> patience < counter (epoch_loop body range st w).1) /\
      (n = 0 ->
       files (epoch_loop body range st w).2 !! last_path save_dir
       = files w !! last_path save_dir) /\
      (forall e,
          0 < n -> range !! (n - 1) = Some e ->
          files (epoch_loop body range st w).2 !! last_path save_dir
          = Some {| ck_fold := fold; ck_epoch := e + 1 |}).
Proof.
  intros m body. induction range as [|e range IH]; intros st w.
  - exists 0. cbn. split; [lia|]. split; [rewrite app_nil_r; reflexivity|].
    split; [lia|]. split; [reflexivity|]. intros e Hn. lia.
  - cbn [epoch_loop].
    pose proof (epoch_end_writes save_dir fold (e + 1) (m e) st w) as Hw.
    pose proof (epoch_end_trackers save_dir fold (e + 1) (m e) st w) as Ht.
    cbv zeta in Hw, Ht.
    destruct (body e st w) as [[st' w'] fl] eqn:Ee.
    unfold body, run_epoch in Ee. fold (m e) in Ee.
    rewrite Ee in Hw, Ht. cbn [fst snd] in Hw, Ht.
    destruct Hw as (Wb & Wc & _). destruct Ht as (_ & _ & _ & _ & Hbr).
    destruct fl.
    + destruct (Wc eq_refl) as [Hlast Hlog].
      destruct (IH st' w') as (n & Hn & Hlogs & Hstop & Hzero & Hsome).
      exists (S n). cbn [length]. split; [lia|]. split.
      { rewrite Hlogs, Hlog, <- app_assoc. reflexivity. }
      split; [intros Hlt; apply Hstop; lia|]. split; [lia|].
      intros e' _ He'. destruct n as [|n].
      * cbn in He'. injection He' as <-. rewrite (Hzero eq_refl). exact Hlast.
      * apply Hsome; [lia|]. replace (S n - 1) with n by lia.
        replace (S (S n) - 1) with (S n) in He' by lia. exact He'.
    + exists 0. cbn [length fst snd]. split; [lia|]. split.
      { rewrite (Wb eq_refl). cbn. rewrite app_nil_r. reflexivity. }
      split; [intros _; apply Hbr; reflexivity|]. split.
      * intros _. rewrite (Wb eq_refl). reflexivity.
      * intros e' Hn. lia.
Qed.

End FoldOverTime.

Lemma best_checkpoint_is_first_maximum_witness :
  let val_loader :=
    {| DataLoader.dataset :=
         {| sub_dataset := uniform_images 101 20; indices := seq 0 21 |};
       DataLoader.batch_size := 16;
       DataLoader.sampler := None;
       DataLoader.drop_last := true;
       DataLoader.shuffle := false |} in
  let tr :=
    epoch_trace
      (run_epoch (H := always_zero) (uniform_images 101 20) "model/exp" 0 val_loader 20)
      (seq 0 10) init_fold_state fresh_world in
  exists st w fl,
    tr !! 2 = Some (st, w, fl) /\
    files w !! best_path "model/exp" = Some {| ck_fold := 0; ck_epoch := 1 |}.
Proof.
  intros val_loader tr.
  destruct (tr !! 2) as [[[st w] fl]|] eqn:E.
  2: { exfalso. vm_compute in E. discriminate E. }
  exists st, w, fl. split; [reflexivity|].
  destruct (best_checkpoint_is_first_maximum (H := always_zero) (uniform_images 101 20)
              "model/exp" 0 val_loader 20 (seq 0 10) fresh_world 2 st w fl E)
    as [(_ & _ & Hall)|(j & e & Hj & He & Hf & _ & _ & _ & Hfirst)].
  - exfalso. specialize (Hall 0 0 (Nat.le_0_l 2) eq_refl).
    vm_compute in Hall. apply Hall. reflexivity.
  - destruct j as [|j].
    + cbn in He. injection He as <-. exact Hf.
    + exfalso. specialize (Hfirst 0 0 (Nat.lt_0_succ j) eq_refl).
      apply lookup_seq in He. destruct He as [-> _].
      vm_compute in Hfirst. discriminate Hfirst.
Defined.

(* ================================================================== *)
(** * The reported validation accuracy *)
(* ================================================================== *)

Lemma div_int_le_1 (h d : nat) :
  0 < d -> (div_int (of_int h) d <= 1)%Q <-> h <= d.
Proof.
  intros Hd. destruct d as [|d]; [lia|].
  unfold div_int, of_int, Qdiv, Qinv, Qmult, Qle, inject_Z.
  change (Z.of_nat (S d)) with (Z.pos (Pos.of_succ_nat d)).
  cbn [Qnum Qden].
  rewrite ?Z.mul_1_r, ?Pos.mul_1_l, ?Z.mul_1_l, ?Zpos_P_of_succ_nat. lia.
Qed.

Lemma div_int_eq_1 (h d : nat) :
  0 < d -> (div_int (of_int h) d == 1)%Q <-> h = d.
Proof.
  intros Hd. destruct d as [|d]; [lia|].
  unfold div_int, of_int, Qdiv, Qinv, Qmult, Qeq, inject_Z.
  change (Z.of_nat (S d)) with (Z.pos (Pos.of_succ_nat d)).
  cbn [Qnum Qden].
  rewrite ?Z.mul_1_r, ?Pos.mul_1_l, ?Z.mul_1_l, ?Zpos_P_of_succ_nat. lia.
Qed.

Section ReportedAccuracy.
Context `{Collaborators}.

(** X14. The validation accuracy of an epoch, for every positive batch
    size: the number of correct predictions among the samples of the full
    validation batches, over [len(val_set)].  It is at most 1 exactly when
    that number does not exceed [len(val_set)], and a network that is right
    on every validated sample is reported at 100% exactly when
    [len(val_set)] equals the number of samples in full batches. *)
Theorem validation_accuracy_formula dataset train_idx valid_idx bs
        train_loader val_loader fold epoch d :
  getDataloader dataset train_idx valid_idx bs None = Some (train_loader, val_loader) ->
  0 < d ->
  let kept := take (bs * (length valid_idx / bs)) valid_idx in
  let hits := length (List.filter (correct dataset fold epoch) kept) in
  let acc := val_acc (validate dataset fold epoch val_loader d) in
  acc = div_int (of_int hits) d /\
  hits <= length kept /\
  length kept = bs * (length valid_idx / bs) /\
  length kept <= length valid_idx /\
  ((acc <= 1)%Q <-> hits <= d) /\
  ((acc == 1)%Q <-> hits = d) /\
  (Forall (fun i => correct dataset fold epoch i = true) kept ->
   ((acc == 1)%Q <-> bs * (length valid_idx / bs) = d)).
Proof.
  intros Hget Hd kept hits acc.
  destruct (validation_drops_tail dataset train_idx valid_idx bs train_loader
              val_loader fold epoch d Hget) as (_ & _ & _ & _ & _ & _ & Hacc).
  cbv zeta in Hacc. fold kept in Hacc. fold hits in Hacc. fold acc in Hacc.
  assert (Hbs : 0 < bs).
  { unfold getDataloader in Hget. destruct (Nat.eqb_spec bs 0); [discriminate|lia]. }
  assert (Hkept : length kept = bs * (length valid_idx / bs)).
  { unfold kept. rewrite length_take.
    pose proof (Nat.Div0.mul_div_le (length valid_idx) bs). lia. }
  split; [exact Hacc|]. split; [apply List.filter_length_le|]. split; [exact Hkept|].
  split; [rewrite Hkept; apply Nat.Div0.mul_div_le|].
  rewrite Hacc.
  split; [apply div_int_le_1, Hd|]. split; [apply div_int_eq_1, Hd|].
  intros Hall. rewrite (div_int_eq_1 hits d Hd).
  assert (Hhits : hits = length kept).
  { unfold hits. clear -Hall. induction Hall as [|i l Hi _ IH]; [reflexivity|].
    cbn [List.filter]. rewrite Hi. cbn [length]. rewrite IH. reflexivity. }
  rewrite Hhits, Hkept. reflexivity.
Qed.

End ReportedAccuracy.

Lemma validation_accuracy_formula_witness :
  let dataset := uniform_images 101 20 in
  let val_loader :=
    {| DataLoader.dataset := {| sub_dataset := dataset; indices := seq 0 21 |};
       DataLoader.batch_size := 21;
       DataLoader.sampler := None;
       DataLoader.drop_last := true;
       DataLoader.shuffle := false |} in
  StratifiedKFold.split n_splits (image_paths dataset) (kfold_labels dataset)
    ≫= (fun folds => folds !! 0)
  = Some (seq 21 80, seq 0 21) /\
  (exists train_loader,
      getDataloader dataset (seq 21 80) (seq 0 21) 21 None
      = Some (train_loader, val_loader)) /\
  (exists fig,
      first_batch_figure (H := always_zero) dataset "MaskSplitByProfileDataset" 0 1
        val_loader [] = Ok (Some fig)) /\
  0 < split_val_len dataset /\
  ~ (val_acc (validate (H := always_zero) dataset 0 1 val_loader
                (split_val_len dataset)) <= 1)%Q.
Proof.
  intros dataset val_loader.
  assert (Hget : getDataloader dataset (seq 21 80) (seq 0 21) 21 None
                 = Some ({| DataLoader.dataset :=
                              {| sub_dataset := dataset; indices := seq 21 80 |};
                            DataLoader.batch_size := 21;
                            DataLoader.sampler := None;
                            DataLoader.drop_last := true;
                            DataLoader.shuffle := false |}, val_loader))
    by reflexivity.
  assert (Hd : 0 < split_val_len dataset) by (simpl; lia).
  split; [vm_compute; reflexivity|].
  split; [eexists; exact Hget|].
  split; [eexists; vm_compute; reflexivity|].
  split; [exact Hd|].
  destruct (validation_accuracy_formula (H := always_zero) dataset
              (seq 21 80) (seq 0 21) 21 _ val_loader 0 1 _ Hget Hd)
    as (_ & _ & _ & _ & Hle & _).
  intros Hacc. apply Hle in Hacc. vm_compute in Hacc. lia.
Defined.

(* ================================================================== *)
(** * Labels, sub-labels and folds *)
(* ================================================================== *)

(** X15. In terms of the sub-labels, the samples that the custom
    augmentation leaves alone are those with mask label 0 and an age label
    other than 2, of either gender: every other valid triple encodes to a
    label outside 0, 1, 3, 4 and is augmented. *)
Theorem exempt_by_sub_labels (mask gender age : Z) :
  MaskBaseDataset.valid_triple mask gender age ->
  exempt (MaskBaseDataset.encode_multi_class mask gender age) = true
  <-> mask = 0%Z /\ age <> 2%Z.
Proof.
  intros Hv. rewrite exempt_spec.
  unfold MaskBaseDataset.valid_triple, MaskBaseDataset.encode_multi_class in *.
  lia.
Qed.

Lemma exempt_by_sub_labels_witness :
  MaskBaseDataset.valid_triple 0 1 2 /\
  exempt (MaskBaseDataset.encode_multi_class 0 1 2) = false.
Proof.
  assert (Hv : MaskBaseDataset.valid_triple 0 1 2)
    by (unfold MaskBaseDataset.valid_triple; lia).
  split; [exact Hv|].
  destruct (exempt (MaskBaseDataset.encode_multi_class 0 1 2)) eqn:E; [|reflexivity].
  apply (exempt_by_sub_labels 0 1 2 Hv) in E. lia.
Defined.

Lemma zip3_lookup {A B C : Type} (la : list A) :
  forall (lb : list B) (lc : list C) i a b c,
    la !! i = Some a -> lb !! i = Some b -> lc !! i = Some c ->
    zip3 la lb lc !! i = Some (a, b, c).
Proof.
  induction la as [|a0 la IH]; intros lb lc i a b c Ha Hb Hc; [discriminate|].
  destruct lb as [|b0 lb]; [discriminate|].
  destruct lc as [|c0 lc]; [discriminate|].
  destruct i as [|i].
  - cbn in *. congruence.
  - cbn in *. apply IH; assumption.
Qed.

Lemma zip3_length {A B C : Type} (la : list A) (lb : list B) (lc : list C) :
  length (zip3 la lb lc) = Nat.min (length la) (Nat.min (length lb) (length lc)).
Proof.
  revert lb lc. induction la as [|a la IH]; intros lb lc; [reflexivity|].
  destruct lb as [|b lb]; [reflexivity|].
  destruct lc as [|c lc]; [reflexivity|].
  cbn [zip3 length]. rewrite IH. lia.
Qed.

(** X16. The labels handed to the fold planner: one per sample as far as
    the three sub-label lists all reach, and for samples with valid
    sub-labels a class index below 18 that two samples share exactly when
    they agree on mask, gender and age, so the planner stratifies by the
    full triple. *)
Theorem kfold_labels_stratify (dataset : Dataset) (i j : nat)
        (mi gi ai mj gj aj : Z) :
  mask_labels dataset !! i = Some mi ->
  gender_labels dataset !! i = Some gi ->
  age_labels dataset !! i = Some ai ->
  mask_labels dataset !! j = Some mj ->
  gender_labels dataset !! j = Some gj ->
  age_labels dataset !! j = Some aj ->
  MaskBaseDataset.valid_triple mi gi ai ->
  MaskBaseDataset.valid_triple mj gj aj ->
  length (kfold_labels dataset)
  = Nat.min (length (mask_labels dataset))
            (Nat.min (length (gender_labels dataset)) (length (age_labels dataset))) /\
  exists li lj,
    kfold_labels dataset !! i = Some li /\
    kfold_labels dataset !! j = Some lj /\
    (0 <= li < MaskBaseDataset.num_classes)%Z /\
    (li = lj <-> (mi, gi, ai) = (mj, gj, aj)).
Proof.
  intros Hmi Hgi Hai Hmj Hgj Haj Hvi Hvj. unfold kfold_labels. split.
  { rewrite length_map. apply zip3_length. }
  exists (MaskBaseDataset.encode_multi_class mi gi ai),
         (MaskBaseDataset.encode_multi_class mj gj aj).
  split; [|split; [|split]].
  - rewrite (lookup_List_map _ _ i _ (zip3_lookup _ _ _ i _ _ _ Hmi Hgi Hai)).
    reflexivity.
  - rewrite (lookup_List_map _ _ j _ (zip3_lookup _ _ _ j _ _ _ Hmj Hgj Haj)).
    reflexivity.
  - apply encode_multi_class_range, Hvi.
  - unfold MaskBaseDataset.valid_triple, MaskBaseDataset.encode_multi_class in *.
    split.
    + intros E. assert (mi = mj) by lia. assert (gi = gj) by lia.
      assert (ai = aj) by lia. congruence.
    + intros [= -> -> ->]. reflexivity.
Qed.

Lemma kfold_labels_stratify_witness :
  MaskBaseDataset.valid_triple 0 0 0 /\
  exists li lj,
    kfold_labels eleven_images !! 0 = Some li /\
    kfold_labels eleven_images !! 7 = Some lj /\
    (li = lj <-> (0, 0, 0)%Z = (0, 0, 0)%Z).
Proof.
  assert (Hv : MaskBaseDataset.valid_triple 0 0 0)
    by (unfold MaskBaseDataset.valid_triple; lia).
  split; [exact Hv|].
  destruct (kfold_labels_stratify eleven_images 0 7 0 0 0 0 0 0
              eq_refl eq_refl eq_refl eq_refl eq_refl eq_refl Hv Hv)
    as (_ & li & lj & Hi & Hj & _ & Hiff).
  exists li, lj. split; [exact Hi|]. split; [exact Hj|exact Hiff].
Defined.

Lemma select_partition (mask : list bool) : forall indices,
  length mask = length indices ->
  length (StratifiedKFold.select (List.map negb mask) indices)
  + length (StratifiedKFold.select mask indices)
  = length indices.
Proof.
  induction mask as [|b mask IH]; intros [|x indices] Hlen; try discriminate Hlen.
  - reflexivity.
  - cbn [List.map StratifiedKFold.select]. injection Hlen as Hlen.
    specialize (IH indices Hlen). destruct b; cbn [negb length]; lia.
Qed.

(** X17. Planner and loaders together: on labels that pass the planner's
    guard and for a positive batch size, every fold gets its two loaders;
    the training batches hold only training indices of the fold and the
    validation batches only validation indices, all of them indices of the
    dataset, and no sample of a fold is both trained on and validated.
    The two index sets of a fold cover the dataset, and what a fold
    neither trains on nor validates is the two incomplete batches. *)
Theorem fold_batches_do_not_leak (dataset : Dataset) (X : list string) (y : list Z)
        (bs : nat) :
  length X = length y ->
  (exists c, n_splits <= count_occ Z.eq_dec y c) ->
  0 < bs ->
  exists folds,
    StratifiedKFold.split n_splits X y = Some folds /\
    forall k t v,
      folds !! k = Some (t, v) ->
      exists train_loader val_loader,
        getDataloader dataset t v bs None = Some (train_loader, val_loader) /\
        (forall p, In p (concat (DataLoader.iter train_loader)) ->
                   In p t /\ p < length X /\
                   ~ In p (concat (DataLoader.iter val_loader))) /\
        (forall p, In p (concat (DataLoader.iter val_loader)) ->
                   In p v /\ p < length X) /\
        length t + length v = length X /\
        length (concat (DataLoader.iter train_loader))
        + length (concat (DataLoader.iter val_loader))
        + length t mod bs + length v mod bs
        = length X.
Proof.
  intros Hlen Hguard Hbs.
  assert (Hn : 0 < n_splits) by (unfold n_splits; lia).
  destruct (split_returns n_splits X y Hn Hlen Hguard) as (tf & Htf & Hcells & Hsplit).
  rewrite (Hsplit X eq_refl). eexists. split; [reflexivity|].
  intros k t v Hk.
  apply list_lookup_fmap_Some in Hk. destruct Hk as (i & Hi & _).
  injection Hi as -> ->.
  destruct (getDataloader_spec dataset
              (StratifiedKFold.select
                 (List.map negb (List.map (StratifiedKFold.in_fold i) tf))
                 (seq 0 (length tf)))
              (StratifiedKFold.select (List.map (StratifiedKFold.in_fold i) tf)
                 (seq 0 (length tf)))
              bs None Hbs)
    as (tl & vl & Hget & Hti & Hvi & Htb & Hvb & Hts & Hvs & Htd & Hvd & _).
  exists tl, vl. split; [exact Hget|].
  assert (Htpos : 0 < DataLoader.batch_size tl) by (rewrite Htb; exact Hbs).
  assert (Hvpos : 0 < DataLoader.batch_size vl) by (rewrite Hvb; exact Hbs).
  destruct (drop_last_loader_batches tl Hts Htd Htpos) as (_ & _ & _ & Htc).
  destruct (drop_last_loader_batches vl Hvs Hvd Hvpos) as (_ & _ & _ & Hvc).
  cbv zeta in Htc, Hvc. rewrite Htb, Hti in Htc. rewrite Hvb, Hvi in Hvc.
  set (t := StratifiedKFold.select
              (List.map negb (List.map (StratifiedKFold.in_fold i) tf))
              (seq 0 (length tf))) in *.
  set (v := StratifiedKFold.select (List.map (StratifiedKFold.in_fold i) tf)
              (seq 0 (length tf))) in *.
  assert (Htin : forall p, In p (concat (DataLoader.iter tl)) -> In p t).
  { intros p Hp. rewrite Htc in Hp. apply list_elem_of_In in Hp.
    apply list_elem_of_In. exact (subseteq_take _ _ _ Hp). }
  assert (Hvin : forall p, In p (concat (DataLoader.iter vl)) -> In p v).
  { intros p Hp. rewrite Hvc in Hp. apply list_elem_of_In in Hp.
    apply list_elem_of_In. exact (subseteq_take _ _ _ Hp). }
  assert (Hpart : length t + length v = length X).
  { unfold t, v. rewrite select_partition.
    - rewrite length_seq. lia.
    - rewrite length_map, length_seq. reflexivity. }
  split; [|split; [|split]].
  - intros p Hp. pose proof (Htin p Hp) as Ht.
    apply train_select in Ht. destruct Ht as [Hlt Hne].
    split; [exact (Htin p Hp)|]. split; [lia|].
    intros Hv. apply Hvin, validation_select in Hv. contradiction.
  - intros p Hp. pose proof (Hvin p Hp) as Hv. split; [exact Hv|].
    apply validation_select, lookup_lt_Some in Hv. lia.
  - exact Hpart.
  - rewrite Htc, Hvc, !length_take.
    pose proof (Nat.div_mod_eq (length t) bs).
    pose proof (Nat.div_mod_eq (length v) bs).
    pose proof (Nat.Div0.mul_div_le (length t) bs).
    pose proof (Nat.Div0.mul_div_le (length v) bs).
    lia.
Qed.

Lemma fold_batches_do_not_leak_witness :
  let dataset := uniform_images 101 20 in
  length (image_paths dataset) = length (kfold_labels dataset) /\
  (exists c, n_splits <= count_occ Z.eq_dec (kfold_labels dataset) c) /\
  0 < 16 /\
  exists folds,
    StratifiedKFold.split n_splits (image_paths dataset) (kfold_labels dataset)
    = Some folds /\
    forall k t v,
      folds !! k = Some (t, v) -> length t + length v = 101.
Proof.
  intros dataset.
  assert (H1 : length (image_paths dataset) = length (kfold_labels dataset))
    by (vm_compute; reflexivity).
  assert (H2 : exists c, n_splits <= count_occ Z.eq_dec (kfold_labels dataset) c).
  { exists 0%Z. vm_compute. lia. }
  assert (H3 : 0 < 16) by lia.
  split; [exact H1|]. split; [exact H2|]. split; [exact H3|].
  destruct (fold_batches_do_not_leak dataset (image_paths dataset)
              (kfold_labels dataset) 16 H1 H2 H3) as (folds & Hsplit & Hfolds).
  exists folds. split; [exact Hsplit|].
  intros k t v Hk.
  destruct (Hfolds k t v Hk) as (tl & vl & _ & _ & _ & Hpart & _).
  rewrite Hpart. vm_compute. reflexivity.
Defined.

(* ================================================================== *)
(** * What a run leaves behind *)
(* ================================================================== *)

Lemma py_min_finite (x : pyfloat) (v : Q) : exists q, py_min x (Fin v) = Fin q.
Proof.
  unfold py_min. destruct x as [a|]; simpl.
  - destruct (Qltb v a); eexists; reflexivity.
  - eexists; reflexivity.
Qed.

Lemma np_sum_inf_finite (l : list pyfloat) :
  Forall (fun x => exists q, x = Fin q) l -> exists q, np_sum_inf l = Fin q.
Proof.
  induction 1 as [|x l [a ->] _ [b IH]].
  - eexists; reflexivity.
  - change (np_sum_inf (Fin a :: l))
      with (match np_sum_inf l with Fin b => Fin (a + b)%Q | Inf => Inf end).
    rewrite IH. eexists; reflexivity.
Qed.

Lemma enumerate_five {A : Type} (folds : list A) :
  length folds = 5 ->
  exists front x, enumerate folds = front ++ [(4, x)].
Proof.
  intros Hlen.
  destruct folds as [|a [|b [|c [|d [|e [|f folds]]]]]]; try discriminate Hlen.
  exists [(0, a); (1, b); (2, c); (3, d)], e. reflexivity.
Qed.

Section RunFacts.
Context `{Collaborators}.

(** After at least one epoch the best loss of a fold is a number. *)
Lemma epoch_loop_loss_finite dataset save_dir fold val_loader len_val_set range :
  forall st w,
    range <> [] \/ (exists q, best_val_loss st = Fin q) ->
    exists q,
      best_val_loss
        (epoch_loop (run_epoch dataset save_dir fold val_loader len_val_set)
                    range st w).1 = Fin q.
Proof.
  induction range as [|e range IH]; intros st w Hor.
  - destruct Hor as [Hne|Hfin]; [contradiction|exact Hfin].
  - cbn [epoch_loop]. unfold run_epoch at 1.
    pose proof (epoch_end_trackers save_dir fold (e + 1)
                  (validate dataset fold (e + 1) val_loader len_val_set) st w) as Ht.
    cbv zeta in Ht. destruct Ht as (Hloss & _).
    destruct (epoch_end save_dir fold (e + 1)
                (validate dataset fold (e + 1) val_loader len_val_set) st w)
      as [[st' w'] fl].
    cbn [fst snd] in Hloss.
    assert (Hfin : exists q, best_val_loss st' = Fin q).
    { rewrite Hloss. apply py_min_finite. }
    destruct fl; [apply IH; right; exact Hfin|exact Hfin].
Qed.

(** Once an epoch of a fold has ended without a break, last.pth is a
    checkpoint of that fold. *)
Lemma epoch_loop_last_of_fold dataset save_dir fold val_loader len_val_set n range :
  forall st w,
    Forall (fun e => e < n) range ->
    (range <> [] /\ counter st + 1 <= patience) \/
    (exists ck, files w !! last_path save_dir = Some ck /\
                ck_fold ck = fold /\ 1 <= ck_epoch ck <= n) ->
    exists ck,
      files (epoch_loop (run_epoch dataset save_dir fold val_loader len_val_set)
                        range st w).2 !! last_path save_dir = Some ck /\
      ck_fold ck = fold /\ 1 <= ck_epoch ck <= n.
Proof.
  induction range as [|e range IH]; intros st w Hrange Hor.
  - destruct Hor as [[Hne _]|Hck]; [contradiction|exact Hck].
  - apply Forall_cons in Hrange. destruct Hrange as [He Hrange].
    cbn [epoch_loop]. unfold run_epoch at 1.
    pose proof (epoch_end_trackers save_dir fold (e + 1)
                  (validate dataset fold (e + 1) val_loader len_val_set) st w) as Ht.
    pose proof (epoch_end_writes save_dir fold (e + 1)
                  (validate dataset fold (e + 1) val_loader len_val_set) st w) as Hw.
    cbv zeta in Ht, Hw. destruct Ht as (_ & _ & _ & Hc & Hbr).
    destruct Hw as (Wb & Wc & _).
    destruct (epoch_end save_dir fold (e + 1)
                (validate dataset fold (e + 1) val_loader len_val_set) st w)
      as [[st' w'] fl].
    cbn [fst snd] in Hc, Hbr, Wb, Wc.
    destruct fl.
    + apply (IH st' w' Hrange). right.
      destruct (Wc eq_refl) as [Hlast _].
      eexists. split; [exact Hlast|]. cbn. split; [reflexivity|lia].
    + cbn [snd]. rewrite (Wb eq_refl).
      destruct Hor as [[_ Hcount]|Hck]; [|exact Hck].
      destruct Hbr as [Hbr _]. specialize (Hbr eq_refl).
      destruct (Qltb (best_val_f1 st) _); lia.
Qed.

(** While the counter cannot pass the patience, every epoch ends
    without a break and last.pth holds the weights of the last one. *)
Lemma epoch_loop_runs_through dataset save_dir fold val_loader len_val_set range :
  forall st w,
    range <> [] ->
    counter st + length range <= patience ->
    files (epoch_loop (run_epoch dataset save_dir fold val_loader len_val_set)
                      range st w).2 !! last_path save_dir
    = Some {| ck_fold := fold; ck_epoch := List.last range 0 + 1 |}.
Proof.
  induction range as [|e range IH]; intros st w Hne Hcount; [contradiction|].
  cbn [epoch_loop length] in *. unfold run_epoch at 1.
  pose proof (epoch_end_trackers save_dir fold (e + 1)
                (validate dataset fold (e + 1) val_loader len_val_set) st w) as Ht.
  pose proof (epoch_end_writes save_dir fold (e + 1)
                (validate dataset fold (e + 1) val_loader len_val_set) st w) as Hw.
  cbv zeta in Ht, Hw. destruct Ht as (_ & _ & _ & Hc & Hbr).
  destruct Hw as (_ & Wc & _).
  destruct (epoch_end save_dir fold (e + 1)
              (validate dataset fold (e + 1) val_loader len_val_set) st w)
    as [[st' w'] fl].
  cbn [fst snd] in Hc, Hbr, Wc.
  assert (Hc' : counter st' <= counter st + 1).
  { rewrite Hc. destruct (Qltb (best_val_f1 st) _); lia. }
  destruct fl.
  - destruct range as [|e' range].
    + cbn. exact (proj1 (Wc eq_refl)).
    + rewrite (IH st' w'); [reflexivity|discriminate|cbn [length] in *; lia].
  - destruct Hbr as [Hbr _]. specialize (Hbr eq_refl). lia.
Qed.

Lemma fold_loop_last args dataset save_dir f t v : forall folds k w k' w',
  fold_loop args dataset save_dir (folds ++ [(f, (t, v))]) k w = Some (k', w') ->
  exists w1 st, train_fold args dataset save_dir f t v w1 = Some (st, w').
Proof.
  induction folds as [|[f0 [t0 v0]] folds IH]; intros k w k' w' Hrun.
  - cbn [app fold_loop] in Hrun.
    destruct (train_fold args dataset save_dir f t v w) as [[st w1]|] eqn:E;
      [|discriminate Hrun].
    cbn in Hrun. injection Hrun as _ <-. exists w, st. exact E.
  - cbn [app fold_loop] in Hrun.
    destruct (train_fold args dataset save_dir f0 t0 v0 w) as [[st w1]|];
      [|discriminate Hrun].
    cbn [mbind option_bind] in Hrun. exact (IH _ _ _ _ Hrun).
Qed.

Lemma fold_loop_no_epochs args dataset save_dir :
  epochs args = 0 ->
  forall folds k w k' w',
    fold_loop args dataset save_dir folds k w = Some (k', w') ->
    w' = w /\
    kfold_val_loss k' = kfold_val_loss k ++ repeat Inf (length folds) /\
    kfold_val_acc k' = kfold_val_acc k ++ repeat 0%Q (length folds) /\
    kfold_val_f1 k' = kfold_val_f1 k ++ repeat 0%Q (length folds).
Proof.
  intros He. induction folds as [|[f [t v]] folds IH]; intros k w k' w' Hrun.
  - cbn in Hrun. injection Hrun as <- <-. cbn. rewrite !app_nil_r. auto.
  - cbn [fold_loop] in Hrun. unfold train_fold in Hrun. rewrite He in Hrun.
    destruct (getDataloader dataset t v (batch_size args) None) as [[tl vl]|];
      [|discriminate Hrun].
    cbn [mbind option_bind seq epoch_loop] in Hrun.
    destruct (IH _ _ _ _ Hrun) as (-> & Hl & Ha & Hf).
    split; [reflexivity|]. rewrite Hl, Ha, Hf. cbn.
    rewrite <- !app_assoc. auto.
Qed.

Lemma fold_loop_loss_finite args dataset save_dir :
  epochs args <> 0 ->
  forall folds k w k' w',
    fold_loop args dataset save_dir folds k w = Some (k', w') ->
    Forall (fun x => exists q, x = Fin q) (kfold_val_loss k) ->
    Forall (fun x => exists q, x = Fin q) (kfold_val_loss k').
Proof.
  intros He. induction folds as [|[f [t v]] folds IH]; intros k w k' w' Hrun Hk.
  - cbn in Hrun. injection Hrun as <- <-. exact Hk.
  - cbn [fold_loop] in Hrun.
    destruct (train_fold args dataset save_dir f t v w) as [[st w1]|] eqn:E;
      [|discriminate Hrun].
    cbn [mbind option_bind] in Hrun.
    apply (IH _ _ _ _ Hrun). cbn [kfold_append kfold_val_loss].
    apply Forall_app. split; [exact Hk|]. apply Forall_cons. split; [|constructor].
    unfold train_fold in E.
    destruct (getDataloader dataset t v (batch_size args) None) as [[tl vl]|];
      [|discriminate E].
    cbn [mbind option_bind] in E. injection E as E.
    pose proof (epoch_loop_loss_finite dataset save_dir f vl (split_val_len dataset)
                  (seq 0 (epochs args)) init_fold_state w) as Hfin.
    rewrite E in Hfin. apply Hfin. left.
    destruct (epochs args); [contradiction|discriminate].
Qed.

(** X19. After a run of at least one epoch per fold, last.pth holds
    weights of the final fold, number 4: the first epoch of a fold cannot
    break, so every fold overwrites the file.  With at most five epochs
    (one by default) no fold stops early and the file holds the weights of
    the final epoch of the final fold. *)
Theorem last_checkpoint_of_run args dataset save_dir w r :
  train args dataset save_dir w = Some r ->
  0 < epochs args ->
  (exists ck,
      disk r !! last_path save_dir = Some ck /\
      ck_fold ck = 4 /\ 1 <= ck_epoch ck <= epochs args) /\
  (epochs args <= 5 ->
   disk r !! last_path save_dir = Some {| ck_fold := 4; ck_epoch := epochs args |}).
Proof.
  unfold train.
  destruct (StratifiedKFold.split n_splits (image_paths dataset) (kfold_labels dataset))
    as [folds|] eqn:Es; [|discriminate].
  simpl.
  destruct (fold_loop args dataset save_dir (enumerate folds)
              {| kfold_val_loss := []; kfold_val_acc := []; kfold_val_f1 := [] |} w)
    as [[k w']|] eqn:Ef; [|discriminate].
  simpl. intros [= <-] He. cbn [disk].
  pose proof (split_length _ _ _ _ Es) as Hlen.
  destruct (enumerate_five folds Hlen) as (front & [t v] & Henum).
  rewrite Henum in Ef.
  destruct (fold_loop_last args dataset save_dir 4 t v front _ _ _ _ Ef)
    as (w1 & st & Hfold).
  unfold train_fold in Hfold.
  destruct (getDataloader dataset t v (batch_size args) None) as [[tl vl]|];
    [|discriminate Hfold].
  cbn [mbind option_bind] in Hfold. injection Hfold as Hfold.
  assert (Hne : seq 0 (epochs args) <> []).
  { destruct (epochs args); [lia|discriminate]. }
  split.
  - pose proof (epoch_loop_last_of_fold dataset save_dir 4 vl (split_val_len dataset)
                  (epochs args) (seq 0 (epochs args)) init_fold_state w1) as Hlast.
    rewrite Hfold in Hlast. apply Hlast.
    + apply Forall_forall. intros e Hin. apply list_elem_of_In, in_seq in Hin. lia.
    + left. split; [exact Hne|]. unfold patience. cbn. lia.
  - intros H5.
    pose proof (epoch_loop_runs_through dataset save_dir 4 vl (split_val_len dataset)
                  (seq 0 (epochs args)) init_fold_state w1 Hne) as Hlast.
    rewrite Hfold in Hlast. cbn [snd] in Hlast. rewrite Hlast.
    + do 2 f_equal. destruct (epochs args) as [|n]; [lia|].
      rewrite seq_S, last_last. cbn. lia.
    + rewrite length_seq. unfold patience. cbn. lia.
Qed.

End RunFacts.

Lemma last_checkpoint_of_run_witness :
  exists r,
    train (H := always_zero) (sample_args 1 16) (uniform_images 101 20) "model/exp"
          fresh_world = Some r /\
    0 < epochs (sample_args 1 16) /\
    disk r !! last_path "model/exp" = Some {| ck_fold := 4; ck_epoch := 1 |}.
Proof.
  destruct (train (H := always_zero) (sample_args 1 16) (uniform_images 101 20)
                  "model/exp" fresh_world) as [r|] eqn:E.
  2: { exfalso. vm_compute in E. discriminate E. }
  assert (He : 0 < epochs (sample_args 1 16)) by (simpl; lia).
  exists r. split; [reflexivity|]. split; [exact He|].
  apply (last_checkpoint_of_run (H := always_zero) _ _ _ _ _ E He).
  simpl. lia.
Defined.

(* ================================================================== *)
(** * The run, with the exceptions on its way *)
(* ================================================================== *)

Section RaisingFacts.
Context {image : Type} `{Transforms image} `{Runtime image} `{Collaborators}.

(** An epoch tail that raises nothing did the bookkeeping of [epoch_end];
    it went past a [torch.save] only with the directory in place, and past
    the [print] only with a float in [best_val_f1]. *)
Lemma epoch_end_or_raise_ok env save_dir fold epoch m st f1_is_int w st' f1_is_int' w' fl :
  epoch_end_or_raise env save_dir fold epoch m st f1_is_int w
  = Ok (st', f1_is_int', w', fl) ->
  epoch_end save_dir fold epoch m st w = (st', w', fl) /\
  f1_is_int' = f1_is_int && negb (Qltb (best_val_f1 st) (val_f1 m)) /\
  (Qltb (best_val_f1 st) (val_f1 m) = true -> save_dir_exists env = true) /\
  (fl = Continue -> save_dir_exists env = true /\ f1_is_int' = false).
Proof.
  unfold epoch_end_or_raise.
  destruct (Qltb (best_val_f1 st) (val_f1 m)) eqn:Ei;
    destruct (save_dir_exists env) eqn:Ed; cbn [andb negb]; try discriminate;
    destruct (epoch_end save_dir fold epoch m st w) as [[s1 w1] [|]];
    cbn [andb negb]; try discriminate.
  - rewrite andb_false_r. intros [= <- <- <- <-]. repeat split; reflexivity.
  - rewrite andb_false_r. intros [= <- <- <- <-].
    repeat split; try reflexivity; discriminate.
  - rewrite andb_true_r. destruct f1_is_int; [discriminate|].
    intros [= <- <- <- <-]. repeat split; try reflexivity; discriminate.
  - rewrite andb_true_r. intros [= <- <- <- <-].
    repeat split; try reflexivity; discriminate.
  - rewrite andb_true_r. intros [= <- <- <- <-].
    repeat split; try reflexivity; discriminate.
Qed.

Lemma validate_or_raise_ok env dataset fold epoch val_loader len_val_set m :
  validate_or_raise env dataset fold epoch val_loader len_val_set = Ok m ->
  m = validate dataset fold epoch val_loader len_val_set.
Proof.
  unfold validate_or_raise.
  destruct (first_batch_figure _ _ _ _ _ _); [|discriminate].
  intros [= <-]. reflexivity.
Qed.

(** An epoch that raises nothing is an epoch of [run_epoch]. *)
Lemma run_epoch_or_raise_ok args env dataset save_dir fold train_loader val_loader
      len_val_set e st f1_is_int w st' f1_is_int' w' fl :
  run_epoch_or_raise args env dataset save_dir fold train_loader val_loader len_val_set
                     e st f1_is_int w
  = Ok (st', f1_is_int', w', fl) ->
  let m := validate dataset fold (e + 1) val_loader len_val_set in
  run_epoch dataset save_dir fold val_loader len_val_set e st w = (st', w', fl) /\
  validate_or_raise env dataset fold (e + 1) val_loader len_val_set = Ok m /\
  (exists r, train_loop args env dataset fold (e + 1) 0 (DataLoader.iter train_loader)
                        running_zero = Ok r) /\
  f1_is_int' = f1_is_int && negb (Qltb (best_val_f1 st) (val_f1 m)) /\
  (Qltb (best_val_f1 st) (val_f1 m) = true -> save_dir_exists env = true) /\
  (fl = Continue -> save_dir_exists env = true /\ f1_is_int' = false).
Proof.
  unfold run_epoch_or_raise, run_epoch.
  destruct (train_loop args env dataset fold (e + 1) 0 (DataLoader.iter train_loader)
              running_zero) as [r|]; [|discriminate].
  destruct (validate_or_raise env dataset fold (e + 1) val_loader len_val_set)
    as [m|] eqn:Ev; [|discriminate].
  apply validate_or_raise_ok in Ev. subst m. intros Hend.
  apply epoch_end_or_raise_ok in Hend.
  destruct Hend as (Ha & Hb & Hc & Hd).
  split; [exact Ha|]. split; [reflexivity|]. split; [exists r; reflexivity|].
  split; [exact Hb|]. split; [exact Hc|exact Hd].
Qed.

Lemma flag_agrees_step save_dir fold epoch m st f1_is_int w :
  flag_agrees st f1_is_int ->
  flag_agrees (epoch_end save_dir fold epoch m st w).1.1
              (f1_is_int && negb (Qltb (best_val_f1 st) (val_f1 m))).
Proof.
  intros [Hint Hfloat]. unfold flag_agrees.
  destruct (epoch_end_f1_cases save_dir fold epoch m st w) as [(Hlt & _ & Hb)|(Hle & _ & Hb)];
    cbv zeta in Hb; rewrite Hb.
  - assert (Hpos : (0 <= best_val_f1 st)%Q).
    { destruct f1_is_int; [rewrite Hint by reflexivity; apply Qle_refl|].
      apply Qlt_le_weak, Hfloat. reflexivity. }
    apply Qltb_lt in Hlt as Hb'. rewrite Hb'. rewrite andb_false_r.
    split; [discriminate|]. intros _. eapply Qle_lt_trans; eassumption.
  - apply Qltb_ge in Hle as Hb'. rewrite Hb'. rewrite andb_true_r.
    split; assumption.
Qed.

Section OneFoldRaising.
Variables (args : Args) (env : Setting) (dataset : Dataset) (save_dir : string)
  (fold : nat) (train_loader val_loader : DataLoader.t) (len_val_set : nat).

(** Once the flag is down, best.pth stays a checkpoint of this fold. *)
Lemma epoch_loop_or_raise_keeps_best range : forall st w st' f1_is_int' w',
  epoch_loop_or_raise
    (run_epoch_or_raise args env dataset save_dir fold train_loader val_loader len_val_set)
    range st false w = Ok (st', f1_is_int', w') ->
  (exists ck, files w !! best_path save_dir = Some ck /\ ck_fold ck = fold) ->
  exists ck, files w' !! best_path save_dir = Some ck /\ ck_fold ck = fold.
Proof.
  induction range as [|e range IH]; intros st w st' i' w' Hrun Hbest.
  - cbn in Hrun. injection Hrun as _ _ <-. exact Hbest.
  - cbn [epoch_loop_or_raise] in Hrun.
    destruct (run_epoch_or_raise args env dataset save_dir fold train_loader val_loader
                len_val_set e st false w) as [[[[s1 i1] w1] fl]|] eqn:Eb; [|discriminate].
    destruct (run_epoch_or_raise_ok _ _ _ _ _ _ _ _ _ _ _ _ _ _ _ _ Eb)
      as (Hpure & _ & _ & Hi1 & _).
    cbn [andb] in Hi1. subst i1.
    pose proof (epoch_end_writes save_dir fold (e + 1)
                  (validate dataset fold (e + 1) val_loader len_val_set) st w) as Hw.
    cbv zeta in Hw. unfold run_epoch in Hpure. rewrite Hpure in Hw.
    cbn [fst snd] in Hw. destruct Hw as (_ & _ & Wi & Wn).
    assert (Hbest1 : exists ck, files w1 !! best_path save_dir = Some ck /\
                                ck_fold ck = fold).
    { destruct (Qltb (best_val_f1 st)
                  (val_f1 (validate dataset fold (e + 1) val_loader len_val_set))) eqn:Eq.
      - apply Qltb_lt in Eq. destruct (Wi Eq) as [_ Hb].
        eexists. split; [exact Hb|reflexivity].
      - apply Qltb_ge in Eq. rewrite Wn; [exact Hbest|].
        intros Hlt. exact (Qlt_not_le _ _ Hlt Eq). }
    destruct fl.
    + exact (IH _ _ _ _ _ Hrun Hbest1).
    + injection Hrun as _ _ <-. exact Hbest1.
Qed.

(** A loop that raises nothing is the loop of [epoch_loop].  If the flag
    went down in it, the directory exists and best.pth holds a checkpoint
    of this fold. *)
Lemma epoch_loop_or_raise_ok range : forall st f1_is_int w st' f1_is_int' w',
  epoch_loop_or_raise
    (run_epoch_or_raise args env dataset save_dir fold train_loader val_loader len_val_set)
    range st f1_is_int w = Ok (st', f1_is_int', w') ->
  flag_agrees st f1_is_int ->
  epoch_loop (run_epoch dataset save_dir fold val_loader len_val_set) range st w
  = (st', w') /\
  flag_agrees st' f1_is_int' /\
  (f1_is_int = true -> f1_is_int' = false ->
   range <> [] /\ save_dir_exists env = true /\
   exists ck, files w' !! best_path save_dir = Some ck /\ ck_fold ck = fold) /\
  (f1_is_int = false -> f1_is_int' = false).
Proof.
  induction range as [|e range IH]; intros st i w st' i' w' Hrun Hflag.
  - cbn in Hrun. injection Hrun as <- <- <-.
    split; [reflexivity|]. split; [exact Hflag|]. split; [|auto].
    intros -> Hf. discriminate Hf.
  - cbn [epoch_loop_or_raise epoch_loop] in *.
    destruct (run_epoch_or_raise args env dataset save_dir fold train_loader val_loader
                len_val_set e st i w) as [[[[s1 i1] w1] fl]|] eqn:Eb; [|discriminate].
    destruct (run_epoch_or_raise_ok _ _ _ _ _ _ _ _ _ _ _ _ _ _ _ _ Eb)
      as (Hpure & _ & _ & Hi1 & Hdir & _).
    cbv zeta in Hi1, Hdir. rewrite Hpure.
    pose proof (flag_agrees_step save_dir fold (e + 1)
                  (validate dataset fold (e + 1) val_loader len_val_set) st i w Hflag)
      as Hflag1.
    pose proof (epoch_end_writes save_dir fold (e + 1)
                  (validate dataset fold (e + 1) val_loader len_val_set) st w) as Hw.
    cbv zeta in Hw. unfold run_epoch in Hpure. rewrite Hpure in Hflag1, Hw.
    cbn [fst snd] in Hflag1, Hw. rewrite <- Hi1 in Hflag1.
    destruct Hw as (_ & _ & Wi & _).
    assert (Hnow : i = true -> i1 = false ->
                   save_dir_exists env = true /\
                   exists ck, files w1 !! best_path save_dir = Some ck /\
                              ck_fold ck = fold).
    { intros -> ->. symmetry in Hi1. cbn [andb] in Hi1.
      apply negb_false_iff in Hi1. split; [exact (Hdir Hi1)|].
      apply Qltb_lt in Hi1. destruct (Wi Hi1) as [_ Hb].
      eexists. split; [exact Hb|reflexivity]. }
    assert (Hkeep : i = false -> i1 = false).
    { intros ->. rewrite Hi1. reflexivity. }
    destruct fl.
    + destruct (IH _ _ _ _ _ _ Hrun Hflag1) as (Hloop & Hflag' & Hdown & Hstay).
      split; [exact Hloop|]. split; [exact Hflag'|]. split; [|auto].
      intros Hi Hi'. split; [discriminate|].
      destruct i1 eqn:E1.
      * destruct (Hdown eq_refl Hi') as (_ & Hd & Hck). split; assumption.
      * destruct (Hnow Hi eq_refl) as [Hd Hbest]. split; [exact Hd|].
        exact (epoch_loop_or_raise_keeps_best _ _ _ _ _ _ Hrun Hbest).
    + injection Hrun as <- <- <-. split; [reflexivity|]. split; [exact Hflag1|].
      split; [|exact Hkeep].
      intros Hi Hi'. split; [discriminate|]. exact (Hnow Hi Hi').
Qed.

End OneFoldRaising.

(** A fold that raises nothing is a fold of [train_fold]; it ran at least
    one epoch in an existing directory, ended with a positive best F1, and
    left both files as checkpoints of its own. *)
Lemma train_fold_or_raise_ok args env dataset save_dir fold train_idx valid_idx w st w' :
  train_fold_or_raise args env dataset save_dir fold train_idx valid_idx w = Ok (st, w') ->
  train_fold args dataset save_dir fold train_idx valid_idx w = Some (st, w') /\
  0 < epochs args /\
  0 < batch_size args /\
  save_dir_exists env = true /\
  (0 < best_val_f1 st)%Q /\
  (exists ck, files w' !! best_path save_dir = Some ck /\ ck_fold ck = fold) /\
  (exists ck, files w' !! last_path save_dir = Some ck /\
              ck_fold ck = fold /\ 1 <= ck_epoch ck <= epochs args).
Proof.
  unfold train_fold_or_raise, train_fold.
  destruct (getDataloader dataset train_idx valid_idx (batch_size args) None)
    as [[tl vl]|] eqn:Hget; [|discriminate].
  assert (Hbs : 0 < batch_size args).
  { unfold getDataloader in Hget.
    destruct (Nat.eqb_spec (batch_size args) 0); [discriminate|lia]. }
  destruct (epoch_loop_or_raise _ _ _ _ _) as [[[s1 i1] w1]|] eqn:Eloop; [|discriminate].
  destruct i1; [discriminate|]. intros [= <- <-].
  assert (Hflag0 : flag_agrees init_fold_state true).
  { split; [reflexivity|discriminate]. }
  destruct (epoch_loop_or_raise_ok _ _ _ _ _ _ _ _ _ _ _ _ _ _ _ Eloop Hflag0)
    as (Hpure & [_ Hpos] & Hdown & _).
  destruct (Hdown eq_refl eq_refl) as (Hne & Hdir & Hbest).
  cbn [mbind option_bind]. rewrite Hpure.
  assert (He : 0 < epochs args).
  { destruct (epochs args); [contradiction Hne; reflexivity|lia]. }
  split; [reflexivity|]. split; [exact He|]. split; [exact Hbs|].
  split; [exact Hdir|]. split; [apply Hpos; reflexivity|]. split; [exact Hbest|].
  pose proof (epoch_loop_last_of_fold dataset save_dir fold vl (split_val_len dataset)
                (epochs args) (seq 0 (epochs args)) init_fold_state w) as Hlast.
  rewrite Hpure in Hlast. apply Hlast.
  - apply Forall_forall. intros e Hin. apply list_elem_of_In, in_seq in Hin. lia.
  - left. split; [exact Hne|]. unfold patience. cbn. lia.
Qed.

(** A fold loop that raises nothing is the loop of [fold_loop]. *)
Lemma fold_loop_or_raise_ok args env dataset save_dir folds : forall k w k' w',
  fold_loop_or_raise args env dataset save_dir folds k w = Ok (k', w') ->
  fold_loop args dataset save_dir folds k w = Some (k', w') /\
  (folds <> [] ->
   0 < epochs args /\ 0 < batch_size args /\ save_dir_exists env = true) /\
  (Forall (fun x => (0 < x)%Q) (kfold_val_f1 k) ->
   Forall (fun x => (0 < x)%Q) (kfold_val_f1 k')).
Proof.
  induction folds as [|[f [t v]] folds IH]; intros k w k' w' Hrun.
  - cbn in Hrun. injection Hrun as <- <-. split; [reflexivity|].
    split; [intros Hne; contradiction|auto].
  - cbn [fold_loop_or_raise fold_loop] in *.
    destruct (train_fold_or_raise args env dataset save_dir f t v w)
      as [[st w1]|] eqn:Ef; [|discriminate].
    destruct (train_fold_or_raise_ok _ _ _ _ _ _ _ _ _ _ Ef)
      as (Hpure & He & Hbs & Hdir & Hpos & _).
    rewrite Hpure. cbn [mbind option_bind].
    destruct (IH _ _ _ _ Hrun) as (Hloop & _ & Hf1).
    split; [exact Hloop|]. split; [auto|].
    intros Hk. apply Hf1. cbn [kfold_append kfold_val_f1].
    apply Forall_app. split; [exact Hk|]. apply Forall_cons. split; [exact Hpos|constructor].
Qed.

Lemma fold_loop_or_raise_last args env dataset save_dir f t v : forall folds k w k' w',
  fold_loop_or_raise args env dataset save_dir (folds ++ [(f, (t, v))]) k w
  = Ok (k', w') ->
  exists w1 st, train_fold_or_raise args env dataset save_dir f t v w1 = Ok (st, w').
Proof.
  induction folds as [|[f0 [t0 v0]] folds IH]; intros k w k' w' Hrun.
  - cbn [app fold_loop_or_raise] in Hrun.
    destruct (train_fold_or_raise args env dataset save_dir f t v w)
      as [[st w1]|] eqn:E; [|discriminate Hrun].
    injection Hrun as _ <-. exists w, st. exact E.
  - cbn [app fold_loop_or_raise] in Hrun.
    destruct (train_fold_or_raise args env dataset save_dir f0 t0 v0 w)
      as [[st w1]|]; [|discriminate Hrun].
    exact (IH _ _ _ _ Hrun).
Qed.

(** A run that raises nothing is a run of [train]. *)
Lemma train_or_raise_ok args env dataset save_dir w r :
  train_or_raise args env dataset save_dir w = Ok r ->
  train args dataset save_dir w = Some r /\
  0 < epochs args /\
  0 < batch_size args /\
  save_dir_exists env = true /\
  Forall (fun x => (0 < x)%Q) (kfold_val_f1 (kfolds r)) /\
  (exists ck, disk r !! best_path save_dir = Some ck /\ ck_fold ck = 4) /\
  (exists ck, disk r !! last_path save_dir = Some ck /\
              ck_fold ck = 4 /\ 1 <= ck_epoch ck <= epochs args).
Proof.
  unfold train_or_raise, train.
  destruct (StratifiedKFold.split n_splits (image_paths dataset) (kfold_labels dataset))
    as [folds|] eqn:Es; [|discriminate].
  destruct (fold_loop_or_raise args env dataset save_dir (enumerate folds) _ w)
    as [[k w']|] eqn:Ef; [|discriminate].
  intros [= <-]. cbn [kfolds disk].
  destruct (fold_loop_or_raise_ok _ _ _ _ _ _ _ _ _ Ef) as (Hpure & Hne & Hf1).
  cbn [mbind option_bind]. rewrite Hpure. cbn [mbind option_bind].
  pose proof (split_length _ _ _ _ Es) as Hlen.
  destruct (enumerate_five folds Hlen) as (front & [t v] & Henum).
  destruct Hne as (He & Hbs & Hdir).
  { rewrite Henum. intros E. apply app_eq_nil in E. destruct E as [_ E]. discriminate E. }
  rewrite Henum in Ef.
  destruct (fold_loop_or_raise_last _ _ _ _ _ _ _ _ _ _ _ _ Ef) as (w1 & st & Hfold).
  destruct (train_fold_or_raise_ok _ _ _ _ _ _ _ _ _ _ Hfold)
    as (_ & _ & _ & _ & _ & Hbest & Hlast).
  split; [reflexivity|]. split; [exact He|]. split; [exact Hbs|]. split; [exact Hdir|].
  split; [apply Hf1; constructor|]. split; [exact Hbest|exact Hlast].
Qed.

End RaisingFacts.

(* ================================================================== *)
(** * The training batch under the custom augmentation *)
(* ================================================================== *)

Section BatchTheorems.
Context {image : Type} `{Transforms image} `{Runtime image}.

Lemma aug_inputs_lookup (inputs_np : list image) : forall (labels : list Z) i x label,
  inputs_np !! i = Some x -> labels !! i = Some label ->
  aug_inputs inputs_np labels !! i
  = Some (if negb (exempt label) then Augmented (CustomAugmentation x) else Row x).
Proof.
  unfold aug_inputs.
  induction inputs_np as [|x0 inputs_np IH]; intros labels i x label Hx Hl; [discriminate|].
  destruct labels as [|l0 labels]; [discriminate|].
  destruct i as [|i]; cbn in *.
  - injection Hx as <-. injection Hl as <-. reflexivity.
  - exact (IH labels i x label Hx Hl).
Qed.

(** [aug_inputs] holds a numpy row exactly when a zipped label is exempt. *)
Lemma aug_inputs_row (inputs_np : list image) : forall (labels : list Z),
  existsb is_row (aug_inputs inputs_np labels) = true
  <-> exists i x label,
        inputs_np !! i = Some x /\ labels !! i = Some label /\ exempt label = true.
Proof.
  unfold aug_inputs.
  induction inputs_np as [|x0 inputs_np IH]; intros labels.
  - cbn. split; [discriminate|]. intros (i & x & label & Hx & _). discriminate.
  - destruct labels as [|l0 labels].
    + cbn. split; [discriminate|]. intros (i & x & label & _ & Hl & _). discriminate.
    + cbn [zip zip_with List.map existsb]. rewrite orb_true_iff, IH. split.
      * intros [Hrow|(i & x & label & Hx & Hl & He)].
        -- exists 0, x0, l0. split; [reflexivity|]. split; [reflexivity|].
           destruct (exempt l0); [reflexivity|discriminate Hrow].
        -- exists (S i), x, label. auto.
      * intros (i & x & label & Hx & Hl & He). destruct i as [|i].
        -- cbn in Hx, Hl. injection Hx as <-. injection Hl as <-.
           left. rewrite He. reflexivity.
        -- right. exists i, x, label. auto.
Qed.

(** Without a row, the list holds the augmentation of every zipped
    sample. *)
Lemma aug_inputs_augmented (inputs_np : list image) : forall (labels : list Z),
  existsb is_row (aug_inputs inputs_np labels) = false ->
  omap augmented_value (aug_inputs inputs_np labels)
  = List.map CustomAugmentation (take (length labels) inputs_np).
Proof.
  unfold aug_inputs.
  induction inputs_np as [|x0 inputs_np IH]; intros labels Hno.
  - rewrite take_nil. reflexivity.
  - destruct labels as [|l0 labels]; [reflexivity|].
    cbn [zip zip_with List.map existsb] in Hno. apply orb_false_iff in Hno.
    destruct Hno as [Hrow Hno].
    cbn [zip zip_with List.map length take].
    destruct (exempt l0); [discriminate Hrow|]. cbn.
    f_equal. exact (IH labels Hno).
Qed.

(** C6. With the custom augmentation policy enabled, the training loop
    fills [aug_inputs] as the claim says, the augmentation for a sample
    whose label is not one of 0, 1, 3, 4 and the numpy row itself for a
    sample whose label is; but [torch.stack] takes tensors only, so a
    batch that holds a sample with such a label raises [TypeError] at
    line 351 and never reaches the network, and a batch that does reach
    it is augmented in every sample. *)
Theorem selective_augmentation (args : Args) (random : Q)
        (inputs : list image) (labels : list Z) :
  augmentation args = "CustomAugmentation" ->
  let mixed :=
    if cutmix_applies args random then CutmixFace (inputs, labels)
    else (inputs, labels) in
  let inputs_np := List.map to_numpy mixed.1 in
  (forall i x label,
     mixed.1 !! i = Some x -> mixed.2 !! i = Some label ->
     (exempt label = false ->
      aug_inputs inputs_np mixed.2 !! i
      = Some (Augmented (CustomAugmentation (to_numpy x)))) /\
     (exempt label = true ->
      aug_inputs inputs_np mixed.2 !! i = Some (Row (to_numpy x)))) /\
  ((exists i x label,
       mixed.1 !! i = Some x /\ mixed.2 !! i = Some label /\ exempt label = true) ->
   train_batch_inputs args random inputs labels = Raise TypeError) /\
  (forall inputs' labels',
     train_batch_inputs args random inputs labels = Ok (inputs', labels') ->
     labels' = mixed.2 /\
     (forall i x label,
        mixed.1 !! i = Some x -> mixed.2 !! i = Some label -> exempt label = false) /\
     stack_augmented
       (List.map (fun x => CustomAugmentation (to_numpy x))
                 (take (length mixed.2) mixed.1))
     = Ok inputs').
Proof.
  intros Hon mixed inputs_np.
  assert (Hrun : train_batch_inputs args random inputs labels
                 = match torch_stack (aug_inputs inputs_np mixed.2) with
                   | Raise e => Raise e
                   | Ok inputs' => Ok (inputs', mixed.2)
                   end).
  { unfold train_batch_inputs. fold (cutmix_applies args random). fold mixed.
    unfold inputs_np. destruct mixed as [inputs1 labels1]. cbn [fst snd].
    rewrite Hon. reflexivity. }
  assert (Hrows : existsb is_row (aug_inputs inputs_np mixed.2) = true
                  <-> exists i x label,
                        mixed.1 !! i = Some x /\ mixed.2 !! i = Some label /\
                        exempt label = true).
  { rewrite aug_inputs_row. unfold inputs_np. split.
    - intros (i & x & label & Hx & Hl & He).
      apply list_lookup_fmap_Some in Hx. destruct Hx as (x0 & -> & Hx0).
      exists i, x0, label. auto.
    - intros (i & x & label & Hx & Hl & He).
      exists i, (to_numpy x), label. split; [|auto].
      exact (lookup_List_map to_numpy _ i x Hx). }
  split; [|split].
  - intros i x label Hx Hl.
    pose proof (aug_inputs_lookup inputs_np mixed.2 i (to_numpy x) label
                  (lookup_List_map to_numpy _ i x Hx) Hl) as Hlook.
    split; intros He; rewrite He in Hlook; exact Hlook.
  - intros Hex. apply Hrows in Hex. rewrite Hrun. unfold torch_stack.
    rewrite Hex. reflexivity.
  - intros inputs' labels' Hok. rewrite Hrun in Hok. unfold torch_stack in Hok.
    destruct (existsb is_row (aug_inputs inputs_np mixed.2)) eqn:Erow; [discriminate|].
    rewrite (aug_inputs_augmented _ _ Erow) in Hok.
    destruct (stack_augmented _) as [stacked|] eqn:Es; [|discriminate].
    injection Hok as <- <-. split; [reflexivity|]. split.
    + intros i x label Hx Hl. destruct (exempt label) eqn:He; [|reflexivity].
      exfalso. assert (Hex : false = true).
      { apply Hrows. exists i, x, label. auto. }
      discriminate Hex.
    + rewrite <- Es. f_equal. unfold inputs_np.
      rewrite firstn_map, List.map_map. reflexivity.
Qed.

End BatchTheorems.

Lemma selective_augmentation_witness :
  augmentation (sample_args 1 64) = "CustomAugmentation" /\
  train_batch_inputs (H := sample_transforms) (H0 := sample_runtime)
    (sample_args 1 64) (1 # 4) [10; 20; 30] [5; 0; 17]%Z
  = Raise TypeError.
Proof.
  assert (Hon : augmentation (sample_args 1 64) = "CustomAugmentation") by reflexivity.
  split; [exact Hon|].
  apply (selective_augmentation (H := sample_transforms) (H0 := sample_runtime)
           (sample_args 1 64) (1 # 4) [10; 20; 30] [5; 0; 17]%Z Hon).
  exists 1, 20, 0%Z. repeat split; reflexivity.
Defined.

(* ================================================================== *)
(** * The reported validation accuracy, at a run that gets through *)
(* ================================================================== *)

(** C4, evaluated.  101 images of one class, of which
    [dataset.split_dataset()] sets 20 aside; batch size 20, no custom
    augmentation, an existing save directory, a network that is right on
    every sample.  The run gets through all five folds.  Fold 0 validates
    on the 21 samples 0 to 20; its one validation batch holds the first 20
    and all 20 predictions are right.  The loss and the F1 of the epoch are
    the per-batch sums over the one batch, but the accuracy that is logged
    is 20 over the 20 of [len(val_set)], not 20 over the 21 samples of the
    validation subset. *)
Theorem validation_accuracy_denominator :
  let dataset := uniform_images 101 20 in
  let args := plain_args 1 20 in
  (exists r,
      train_or_raise (H := sample_transforms) (H0 := sample_runtime) (H1 := always_zero)
        args sample_setting dataset "model/exp" fresh_world = Ok r) /\
  StratifiedKFold.split n_splits (image_paths dataset) (kfold_labels dataset)
    ≫= (fun folds => folds !! 0)
  = Some (seq 21 80, seq 0 21) /\
  exists train_loader val_loader st w,
    getDataloader dataset (seq 21 80) (seq 0 21) (batch_size args) None
    = Some (train_loader, val_loader) /\
    run_epoch_or_raise (H := sample_transforms) (H0 := sample_runtime) (H1 := always_zero)
      args sample_setting dataset "model/exp" 0 train_loader val_loader
      (split_val_len dataset) 0 init_fold_state true fresh_world
    = Ok (st, false, w, Continue) /\
    exists m,
      wandb_logs w = [m] /\
      DataLoader.iter val_loader = [seq 0 20] /\
      length (List.filter (correct (H := always_zero) dataset 0 1) (seq 0 20)) = 20 /\
      (val_loss m == criterion (Collaborators := always_zero) 0 1 (seq 0 20) / 1)%Q /\
      (val_f1 m == 1 / 1)%Q /\
      (val_acc m == 20 / 20)%Q /\
      ~ (val_acc m == 20 / 21)%Q.
Proof.
  intros dataset args.
  split.
  { destruct (train_or_raise (H := sample_transforms) (H0 := sample_runtime)
                (H1 := always_zero) args sample_setting dataset "model/exp" fresh_world)
      as [r|e] eqn:E; [exists r; reflexivity|].
    exfalso. vm_compute in E. discriminate E. }
  split; [vm_compute; reflexivity|].
  destruct (getDataloader dataset (seq 21 80) (seq 0 21) (batch_size args) None)
    as [[tl vl]|] eqn:Hget; [|exfalso; vm_compute in Hget; discriminate Hget].
  assert (Hvl : DataLoader.iter vl = [seq 0 20]).
  { vm_compute in Hget. injection Hget as _ <-. vm_compute. reflexivity. }
  destruct (run_epoch_or_raise (H := sample_transforms) (H0 := sample_runtime)
              (H1 := always_zero) args sample_setting dataset "model/exp" 0 tl vl
              (split_val_len dataset) 0 init_fold_state true fresh_world)
    as [[[[st i] w] fl]|e] eqn:E.
  2: { exfalso. vm_compute in Hget. injection Hget as <- <-.
       vm_compute in E. discriminate E. }
  assert (Hshape : i = false /\ fl = Continue /\
                   wandb_logs w = [validate (H := always_zero) dataset 0 1 vl
                                     (split_val_len dataset)]).
  { vm_compute in Hget. injection Hget as <- <-.
    vm_compute in E. injection E as _ <- <- <-. vm_compute. auto. }
  destruct Hshape as (-> & -> & Hlog).
  exists tl, vl, st, w. split; [reflexivity|]. split; [exact E|].
  exists (validate (H := always_zero) dataset 0 1 vl (split_val_len dataset)).
  split; [exact Hlog|]. split; [exact Hvl|].
  vm_compute in Hget. injection Hget as _ <-.
  split; [vm_compute; reflexivity|].
  split; [vm_compute; reflexivity|].
  split; [vm_compute; reflexivity|].
  split; [vm_compute; reflexivity|].
  vm_compute. discriminate.
Qed.

(** C10, evaluated.  The same 101 images with batch size 16: the run gets
    through all five folds.  The validation loader of fold 0 is built with
    [drop_last=True]; its one batch holds the samples 0 to 15 of the 21 of
    the validation subset, and the samples 16 to 20 are never predicted.
    The 16 right predictions are divided by the 20 of [len(val_set)]: the
    accuracy that is logged is 16/20, where the size of the validation
    subset gives 16/21. *)
Theorem validation_drop_last_denominator :
  let dataset := uniform_images 101 20 in
  let args := plain_args 1 16 in
  (exists r,
      train_or_raise (H := sample_transforms) (H0 := sample_runtime) (H1 := always_zero)
        args sample_setting dataset "model/exp" fresh_world = Ok r) /\
  StratifiedKFold.split n_splits (image_paths dataset) (kfold_labels dataset)
    ≫= (fun folds => folds !! 0)
  = Some (seq 21 80, seq 0 21) /\
  exists train_loader val_loader st w,
    getDataloader dataset (seq 21 80) (seq 0 21) (batch_size args) None
    = Some (train_loader, val_loader) /\
    DataLoader.drop_last val_loader = true /\
    run_epoch_or_raise (H := sample_transforms) (H0 := sample_runtime) (H1 := always_zero)
      args sample_setting dataset "model/exp" 0 train_loader val_loader
      (split_val_len dataset) 0 init_fold_state true fresh_world
    = Ok (st, false, w, Continue) /\
    exists m,
      wandb_logs w = [m] /\
      DataLoader.iter val_loader = [seq 0 16] /\
      length (List.filter (correct (H := always_zero) dataset 0 1) (seq 0 16)) = 16 /\
      (val_acc m == 16 / 20)%Q /\
      ~ (val_acc m == 16 / 21)%Q.
Proof.
  intros dataset args.
  split.
  { destruct (train_or_raise (H := sample_transforms) (H0 := sample_runtime)
                (H1 := always_zero) args sample_setting dataset "model/exp" fresh_world)
      as [r|e] eqn:E; [exists r; reflexivity|].
    exfalso. vm_compute in E. discriminate E. }
  split; [vm_compute; reflexivity|].
  destruct (getDataloader dataset (seq 21 80) (seq 0 21) (batch_size args) None)
    as [[tl vl]|] eqn:Hget; [|exfalso; vm_compute in Hget; discriminate Hget].
  assert (Hvl : DataLoader.iter vl = [seq 0 16] /\ DataLoader.drop_last vl = true).
  { vm_compute in Hget. injection Hget as _ <-. vm_compute. auto. }
  destruct Hvl as [Hvl Hdrop].
  destruct (run_epoch_or_raise (H := sample_transforms) (H0 := sample_runtime)
              (H1 := always_zero) args sample_setting dataset "model/exp" 0 tl vl
              (split_val_len dataset) 0 init_fold_state true fresh_world)
    as [[[[st i] w] fl]|e] eqn:E.
  2: { exfalso. vm_compute in Hget. injection Hget as <- <-.
       vm_compute in E. discriminate E. }
  assert (Hshape : i = false /\ fl = Continue /\
                   wandb_logs w = [validate (H := always_zero) dataset 0 1 vl
                                     (split_val_len dataset)]).
  { vm_compute in Hget. injection Hget as <- <-.
    vm_compute in E. injection E as _ <- <- <-. vm_compute. auto. }
  destruct Hshape as (-> & -> & Hlog).
  exists tl, vl, st, w. split; [reflexivity|]. split; [exact Hdrop|]. split; [exact E|].
  exists (validate (H := always_zero) dataset 0 1 vl (split_val_len dataset)).
  split; [exact Hlog|]. split; [exact Hvl|].
  vm_compute in Hget. injection Hget as _ <-.
  split; [vm_compute; reflexivity|].
  split; [vm_compute; reflexivity|].
  vm_compute. discriminate.
Qed.

(* ================================================================== *)
(** * What a run that gets through reports and leaves *)
(* ================================================================== *)

Lemma five_elements {A : Type} (l : list A) :
  length l = 5 -> exists a b c d e, l = [a; b; c; d; e].
Proof.
  intros Hlen.
  destruct l as [|a [|b [|c [|d [|e [|f l]]]]]]; try discriminate Hlen.
  exists a, b, c, d, e. reflexivity.
Qed.



Section RunTheorems.
Context {image : Type} `{Transforms image} `{Runtime image} `{Collaborators}.

(** C5. When a run has got through all folds, the three run-level
    sequences hold the best loss, the best accuracy and the best F1 that
    each of the five folds ended with, in fold order; the value reported
    as mean accuracy is the sum of the five best losses divided by 5, the
    value reported as mean loss is the sum of the five best accuracies
    divided by 5, and the mean F1 is the sum of the five best F1 values
    divided by 5. *)
Theorem run_aggregator args env dataset save_dir w r :
  train_or_raise args env dataset save_dir w = Ok r ->
  exists folds states,
    StratifiedKFold.split n_splits (image_paths dataset) (kfold_labels dataset)
    = Some folds /\
    fold_states args dataset save_dir (enumerate folds) w = Some states /\
    kfold_val_loss (kfolds r) = List.map best_val_loss states /\
    kfold_val_acc (kfolds r) = List.map best_val_acc states /\
    kfold_val_f1 (kfolds r) = List.map best_val_f1 states /\
    exists l0 l1 l2 l3 l4 a0 a1 a2 a3 a4 s0 s1 s2 s3 s4 reported,
      kfold_val_loss (kfolds r) = [Fin l0; Fin l1; Fin l2; Fin l3; Fin l4] /\
      kfold_val_acc (kfolds r) = [a0; a1; a2; a3; a4] /\
      kfold_val_f1 (kfolds r) = [s0; s1; s2; s3; s4] /\
      mean_acc r = Fin reported /\
      (reported == (l0 + l1 + l2 + l3 + l4) / 5)%Q /\
      (mean_loss r == (a0 + a1 + a2 + a3 + a4) / 5)%Q /\
      (mean_f1 r == (s0 + s1 + s2 + s3 + s4) / 5)%Q.
Proof.
  intros Hrun.
  destruct (train_or_raise_ok _ _ _ _ _ _ Hrun) as (_ & He & _).
  unfold train_or_raise in Hrun.
  destruct (StratifiedKFold.split n_splits (image_paths dataset) (kfold_labels dataset))
    as [folds|] eqn:Es; [|discriminate].
  destruct (fold_loop_or_raise args env dataset save_dir (enumerate folds) _ w)
    as [[k w']|] eqn:Ef; [|discriminate].
  injection Hrun as <-. cbn [kfolds mean_acc mean_loss mean_f1].
  destruct (fold_loop_or_raise_ok _ _ _ _ _ _ _ _ _ Ef) as (Hpure & _).
  destruct (fold_loop_states _ _ _ _ _ _ _ _ Hpure)
    as (states & Hs & Hlen & Hl & Ha & Hf & _).
  cbn [kfold_val_loss kfold_val_acc kfold_val_f1 app] in Hl, Ha, Hf.
  rewrite enumerate_length, (split_length _ _ _ _ Es) in Hlen.
  assert (Hfin : Forall (fun x => exists q, x = Fin q) (kfold_val_loss k)).
  { refine (fold_loop_loss_finite args dataset save_dir _ _ _ _ _ _ Hpure _);
      [lia|constructor]. }
  exists folds, states. split; [reflexivity|]. split; [exact Hs|].
  split; [exact Hl|]. split; [exact Ha|]. split; [exact Hf|].
  destruct (five_elements states Hlen) as (t0 & t1 & t2 & t3 & t4 & ->).
  cbn [List.map] in Hl, Ha, Hf. rewrite Hl in Hfin.
  repeat (apply Forall_cons in Hfin; destruct Hfin as [[? ?] Hfin]).
  rewrite Hl, Ha, Hf.
  repeat match goal with E : best_val_loss _ = Fin _ |- _ => rewrite E; clear E end.
  eexists _, _, _, _, _, _, _, _, _, _, _, _, _, _, _, _.
  split; [reflexivity|]. split; [reflexivity|]. split; [reflexivity|].
  split; [reflexivity|].
  unfold div_int, n_splits. change (of_int 5) with 5%Q.
  cbn [np_sum fold_right]. unfold Qdiv.
  split; [ring|]. split; ring.
Qed.


End RunTheorems.

Lemma run_aggregator_witness :
  exists r l0 l1 l2 l3 l4 reported,
    train_or_raise (H := sample_transforms) (H0 := sample_runtime) (H1 := always_zero)
      (plain_args 1 16) sample_setting (uniform_images 101 20) "model/exp" fresh_world
    = Ok r /\
    kfold_val_loss (kfolds r) = [Fin l0; Fin l1; Fin l2; Fin l3; Fin l4] /\
    mean_acc r = Fin reported /\
    (reported == (l0 + l1 + l2 + l3 + l4) / 5)%Q.
Proof.
  destruct (train_or_raise (H := sample_transforms) (H0 := sample_runtime)
              (H1 := always_zero) (plain_args 1 16) sample_setting
              (uniform_images 101 20) "model/exp" fresh_world) as [r|e] eqn:E.
  2: { exfalso. vm_compute in E. discriminate E. }
  destruct (run_aggregator _ _ _ _ _ _ E)
    as (folds & states & _ & _ & _ & _ & _ &
        l0 & l1 & l2 & l3 & l4 & a0 & a1 & a2 & a3 & a4 & s0 & s1 & s2 & s3 & s4 &
        reported & Hl & _ & _ & Hm & Hq & _).
  exists r, l0, l1, l2, l3, l4, reported.
  split; [reflexivity|]. split; [exact Hl|]. split; [exact Hm|exact Hq].
Defined.



(* ================================================================== *)
(** * The save directory, with the exceptions of the matcher *)
(* ================================================================== *)

Lemma pretty_Z_nonempty (n : Z) : pretty n <> "".
Proof.
  assert (HN : forall x : N, pretty x <> "").
  { intros x. unfold pretty, pretty_N.
    destruct (decide (x = 0)%N) as [_|Hx]; [discriminate|].
    rewrite pretty_N_go_step by lia. intros E.
    pose proof (pretty_N_go_length (x `div` 10)
                  (String (pretty_N_char (x `mod` 10)) "")) as Hlen.
    rewrite E in Hlen. simpl in Hlen. lia. }
  destruct n as [|p|p]; unfold pretty, pretty_Z.
  - discriminate.
  - apply HN.
  - discriminate.
Qed.

Lemma fold_max_ge_start (i : list Z) : forall x, (x <= fold_left Z.max i x)%Z.
Proof.
  induction i as [|y i IH]; intros x; [cbn; lia|].
  cbn [fold_left]. specialize (IH (Z.max x y)). lia.
Qed.

Lemma fold_max_ge_in (i : list Z) (k : Z) :
  forall x, In k i -> (k <= fold_left Z.max i x)%Z.
Proof.
  induction i as [|y i IH]; intros x Hk; [destruct Hk|].
  cbn [fold_left]. destruct Hk as [->|Hk]; [|exact (IH _ Hk)].
  pose proof (fold_max_ge_start i (Z.max x k)). lia.
Qed.

Lemma py_max_list_ge (i : list Z) (k : Z) : In k i -> (k <= py_max_list i)%Z.
Proof.
  destruct i as [|x i]; [intros []|]. cbn [py_max_list].
  intros [->|Hk]; [apply fold_max_ge_start|exact (fold_max_ge_in i k x Hk)].
Qed.

Lemma py_max_list_in (i : list Z) : i <> [] -> In (py_max_list i) i.
Proof.
  destruct i as [|x i]; [intros Hne; contradiction|]. intros _. cbn [py_max_list].
  revert x. induction i as [|y i IH]; intros x.
  - left. reflexivity.
  - cbn [fold_left]. destruct (IH (Z.max x y)) as [E|Hin].
    + rewrite <- E. destruct (Z.max_spec x y) as [[_ ->]|[_ ->]]; [right; left|left];
        reflexivity.
    + right. right. exact Hin.
Qed.

Section SaveDirectoryRaising.
Context {re_match : Type} `{PathLib} `{RegexLib re_match}.

(** X6. When [increment_path] returns for an existing path without
    [exist_ok], every [re.search] and every [int] of its two list
    comprehensions succeeded, and the result is the path followed by a
    number: 2 when no path found by the glob gave a number, and otherwise
    one more than the largest number found.  The number is above every
    number found, so the result is neither the path itself nor any of the
    names path-plus-number that were found. *)
Theorem increment_path_number (path s : string) :
  path_exists path = true ->
  increment_path_or_raise path false = Ok s ->
  exists matches i n,
    comprehension (re_search (path_stem path +:+ "(\d+)"))
                  (glob_glob (path_str path +:+ "*")) = Ok matches /\
    comprehension int_group0 (omap id matches) = Ok i /\
    s = path_str path +:+ pretty n /\
    s <> path_str path /\
    (i = [] -> n = 2%Z) /\
    (i <> [] -> In (n - 1)%Z i) /\
    forall k, In k i -> (k < n)%Z /\ s <> path_str path +:+ pretty k.
Proof.
  intros Hex. unfold increment_path_or_raise. rewrite Hex. cbn [andb orb negb].
  destruct (comprehension (re_search (path_stem path +:+ "(\d+)"))
              (glob_glob (path_str path +:+ "*"))) as [matches|] eqn:Em;
    [|discriminate].
  cbn [mbind result_bind].
  destruct (comprehension int_group0 (omap id matches)) as [i|] eqn:Ei; [|discriminate].
  cbn [mbind result_bind]. intros [= <-].
  exists matches, i.
  assert (Hneq : forall n k : Z, (k < n)%Z ->
            path_str path +:+ pretty n <> path_str path +:+ pretty k).
  { intros n k Hlt E. apply String.app_inj in E. apply pretty_Z_inj in E. lia. }
  assert (Hself : forall n : Z, path_str path +:+ pretty n <> path_str path).
  { intros n E. rewrite <- (append_empty_r (path_str path)) in E at 2.
    apply String.app_inj in E. exact (pretty_Z_nonempty n E). }
  destruct i as [|k0 ks].
  - exists 2%Z. split; [reflexivity|]. split; [exact Ei|]. split; [reflexivity|].
    split; [apply Hself|]. split; [reflexivity|].
    split; [intros Hne; contradiction|]. intros k [].
  - exists (py_max_list (k0 :: ks) + 1)%Z.
    split; [reflexivity|]. split; [exact Ei|]. split; [reflexivity|].
    split; [apply Hself|]. split; [discriminate|]. split.
    + intros _. replace (py_max_list (k0 :: ks) + 1 - 1)%Z
        with (py_max_list (k0 :: ks)) by lia.
      apply py_max_list_in. discriminate.
    + intros k Hk. pose proof (py_max_list_ge (k0 :: ks) k Hk) as Hle.
      split; [lia|]. apply Hneq. lia.
Qed.

End SaveDirectoryRaising.

Lemma increment_path_number_witness :
  path_exists (PathLib := sample_paths) "model/exp" = true /\
  increment_path_or_raise (H := sample_paths) (H0 := sample_regex) "model/exp" false
  = Ok "model/exp8" /\
  exists n : Z,
    "model/exp8" = "model/exp" +:+ pretty n /\
    "model/exp8" <> "model/exp".
Proof.
  assert (Hex : path_exists (PathLib := sample_paths) "model/exp" = true) by reflexivity.
  assert (Hrun : increment_path_or_raise (H := sample_paths) (H0 := sample_regex)
                   "model/exp" false = Ok "model/exp8") by (vm_compute; reflexivity).
  split; [exact Hex|]. split; [exact Hrun|].
  destruct (increment_path_number (H := sample_paths) (H0 := sample_regex)
              "model/exp" "model/exp8" Hex Hrun)
    as (matches & i & n & _ & _ & Hs & Hne & _).
  exists n. split; [exact Hs|exact Hne].
Defined.

(* ================================================================== *)
(** * The training loop, with the exceptions on its way *)
(* ================================================================== *)

Section TrainLoopFacts.
Context {image : Type} `{Transforms image} `{Runtime image}.

(** Without the custom augmentation the batch is the loader's, or the
    one cutmix made of it. *)
Lemma train_batch_inputs_policy_off args random (inputs : list image) labels :
  augmentation args <> "CustomAugmentation" ->
  train_batch_inputs args random inputs labels
  = Ok (if cutmix_applies args random then CutmixFace (inputs, labels)
        else (inputs, labels)).
Proof.
  intros Hoff. apply String.eqb_neq in Hoff.
  unfold train_batch_inputs. fold (cutmix_applies args random).
  destruct (if cutmix_applies args random then CutmixFace (inputs, labels)
            else (inputs, labels)) as [inputs1 labels1].
  rewrite Hoff. reflexivity.
Qed.

(** Whatever the policy, a batch that can be prepared keeps the labels
    the loader (or cutmix) gave it. *)
Lemma train_batch_inputs_labels args random (inputs inputs' : list image) labels labels' :
  train_batch_inputs args random inputs labels = Ok (inputs', labels') ->
  labels' = (if cutmix_applies args random then CutmixFace (inputs, labels)
             else (inputs, labels)).2.
Proof.
  unfold train_batch_inputs. fold (cutmix_applies args random).
  destruct (if cutmix_applies args random then CutmixFace (inputs, labels)
            else (inputs, labels)) as [inputs1 labels1].
  destruct (String.eqb (augmentation args) "CustomAugmentation").
  - destruct (torch_stack _); [|discriminate]. intros [= _ <-]. reflexivity.
  - intros [= _ <-]. reflexivity.
Qed.

(** Under the custom augmentation and without cutmix, a batch with an
    exempt sample cannot be prepared. *)
Lemma train_batch_inputs_exempt args random (inputs : list image) labels :
  augmentation args = "CustomAugmentation" ->
  cutmix args <> "yes" ->
  (exists i x label,
      inputs !! i = Some x /\ labels !! i = Some label /\ exempt label = true) ->
  train_batch_inputs args random inputs labels = Raise TypeError.
Proof.
  intros Hon Hcut (i & x & label & Hx & Hl & He).
  apply String.eqb_neq in Hcut.
  unfold train_batch_inputs. rewrite Hcut, andb_false_r, Hon. cbn [String.eqb].
  assert (Hrow : existsb is_row (aug_inputs (List.map to_numpy inputs) labels) = true).
  { apply aug_inputs_row. exists i, (to_numpy x), label.
    split; [exact (lookup_List_map to_numpy _ i x Hx)|]. auto. }
  unfold torch_stack. rewrite Hrow. reflexivity.
Qed.

Section OneEpoch.
Variables (args : Args) (env : Setting) (dataset : Dataset) (fold epoch : nat).

(** When every batch can be prepared, the loop is the loop of
    [train_phase] on what the network makes of the batches. *)
Lemma train_loop_phase batches : forall idx stats acc,
  batch_stats args dataset fold epoch idx batches = Ok stats ->
  train_loop args env dataset fold epoch idx batches acc
  = train_phase (log_interval env) (batch_size args) idx stats acc.
Proof.
  induction batches as [|batch batches IH]; intros idx stats acc Hstats.
  - cbn in Hstats. injection Hstats as <-. reflexivity.
  - cbn [batch_stats train_loop] in *.
    destruct (train_batch_inputs args (coin fold epoch idx) (List.map image_of batch)
                (List.map (target dataset) batch)) as [[inputs labels]|]; [|discriminate].
    destruct (batch_stats args dataset fold epoch (S idx) batches) as [rest|] eqn:Er;
      [|discriminate].
    injection Hstats as <-. cbn [train_phase].
    destruct (log_interval env =? 0)%Z; [reflexivity|].
    destruct (Z.of_nat (idx + 1) mod log_interval env =? 0)%Z.
    + destruct (batch_size args =? 0); [reflexivity|].
      rewrite (IH (S idx) rest running_zero Er). reflexivity.
    + exact (IH (S idx) rest _ Er).
Qed.

(** A loop that raises nothing prepared every batch. *)
Lemma train_loop_ok_stats batches : forall idx acc r,
  train_loop args env dataset fold epoch idx batches acc = Ok r ->
  exists stats,
    batch_stats args dataset fold epoch idx batches = Ok stats /\
    length stats = length batches.
Proof.
  induction batches as [|batch batches IH]; intros idx acc r Hrun.
  - exists []. split; reflexivity.
  - cbn [batch_stats train_loop] in *.
    destruct (train_batch_inputs args (coin fold epoch idx) (List.map image_of batch)
                (List.map (target dataset) batch)) as [[inputs labels]|]; [|discriminate].
    assert (Hrest : exists acc1 r1,
               train_loop args env dataset fold epoch (S idx) batches acc1 = Ok r1).
    { destruct (log_interval env =? 0)%Z; [discriminate|].
      destruct (Z.of_nat (idx + 1) mod log_interval env =? 0)%Z.
      - destruct (batch_size args =? 0); [discriminate|].
        destruct (train_loop args env dataset fold epoch (S idx) batches running_zero)
          as [r1|] eqn:E1; [|discriminate].
        exists running_zero, r1. exact E1.
      - eexists _, _. exact Hrun. }
    destruct Hrest as (acc1 & r1 & Hrest).
    destruct (IH _ _ _ Hrest) as (stats & Hs & Hlen).
    rewrite Hs. eexists. split; [reflexivity|]. cbn. rewrite Hlen. reflexivity.
Qed.

Lemma batch_stats_policy_off batches : forall idx,
  augmentation args <> "CustomAugmentation" ->
  exists stats,
    batch_stats args dataset fold epoch idx batches = Ok stats /\
    length stats = length batches.
Proof.
  intros idx Hoff. revert idx.
  induction batches as [|batch batches IH]; intros idx.
  - exists []. split; reflexivity.
  - cbn [batch_stats]. rewrite (train_batch_inputs_policy_off _ _ _ _ Hoff).
    destruct (if cutmix_applies args (coin fold epoch idx)
              then CutmixFace (List.map image_of batch, List.map (target dataset) batch)
              else (List.map image_of batch, List.map (target dataset) batch))
      as [inputs labels].
    destruct (IH (S idx)) as (stats & Hs & Hlen). rewrite Hs.
    eexists. split; [reflexivity|]. cbn. rewrite Hlen. reflexivity.
Qed.

(** Without cutmix the labels of a batch are those of its samples, so a
    network cannot match more of them than the batch holds. *)
Lemma batch_stats_matches (bs : nat) batches : forall idx stats,
  cutmix args <> "yes" ->
  (forall f e i inputs labels,
      match_item (train_stats f e i inputs labels) <= length labels) ->
  Forall (fun batch => length batch = bs) batches ->
  batch_stats args dataset fold epoch idx batches = Ok stats ->
  Forall (fun b => match_item b <= bs) stats.
Proof.
  intros idx stats Hcut Hnet Hfull. revert idx stats.
  induction Hfull as [|batch batches Hb _ IH]; intros idx stats Hstats.
  - cbn in Hstats. injection Hstats as <-. constructor.
  - cbn [batch_stats] in Hstats.
    destruct (train_batch_inputs args (coin fold epoch idx) (List.map image_of batch)
                (List.map (target dataset) batch)) as [[inputs labels]|] eqn:Ep;
      [|discriminate].
    destruct (batch_stats args dataset fold epoch (S idx) batches) as [rest|] eqn:Er;
      [|discriminate].
    injection Hstats as <-. apply Forall_cons. split; [|exact (IH _ _ Er)].
    apply train_batch_inputs_labels in Ep.
    assert (Hoff : cutmix_applies args (coin fold epoch idx) = false).
    { unfold cutmix_applies. apply String.eqb_neq in Hcut. rewrite Hcut.
      apply andb_false_r. }
    rewrite Hoff in Ep. cbn [snd] in Ep. subst labels.
    specialize (Hnet fold epoch idx inputs (List.map (target dataset) batch)).
    rewrite length_map, Hb in Hnet. exact Hnet.
Qed.

(** X7. What the training loop of an epoch can raise.  Without the custom
    augmentation (and for the positive batch size every loader has) it
    raises exactly when the log interval is 0 and there is a batch, and
    then [ZeroDivisionError], at the test [(idx + 1) % log_interval] of
    the first batch.  With the custom augmentation and without cutmix, a
    first batch that holds a sample whose label is 0, 1, 3 or 4 raises
    [TypeError] before that test, whatever the interval is. *)
Theorem train_loop_errors (batches : list (list nat)) :
  batch_size args <> 0 ->
  (augmentation args <> "CustomAugmentation" ->
   forall e,
     train_loop args env dataset fold epoch 0 batches running_zero = Raise e
     <-> e = ZeroDivisionError /\ log_interval env = 0%Z /\ batches <> []) /\
  (augmentation args = "CustomAugmentation" ->
   cutmix args <> "yes" ->
   forall batch rest i,
     batches = batch :: rest ->
     In i batch -> exempt (target dataset i) = true ->
     train_loop args env dataset fold epoch 0 batches running_zero = Raise TypeError).
Proof.
  intros Hbs. split.
  - intros Hoff e.
    destruct (batch_stats_policy_off batches 0 Hoff) as (stats & Hstats & Hlen).
    rewrite (train_loop_phase batches 0 stats running_zero Hstats).
    destruct (Z.eq_dec (log_interval env) 0%Z) as [HL|HL].
    + rewrite HL. destruct stats as [|b stats].
      * destruct batches; [|discriminate Hlen]. cbn.
        split; [discriminate|]. intros (_ & _ & Hne). contradiction.
      * destruct batches as [|batch batches]; [discriminate Hlen|]. cbn. split.
        -- intros [= <-]. split; [reflexivity|]. split; [reflexivity|discriminate].
        -- intros (-> & _). reflexivity.
    + destruct (train_phase_blocks (log_interval env) (batch_size args) HL Hbs
                  (length stats) stats 0 (Nat.le_refl _))
        as (acc_end & lines & Hrun & _).
      cbn [Nat.mul] in Hrun. rewrite Hrun.
      split; [discriminate|]. intros (_ & E & _). contradiction.
  - intros Hon Hcut batch rest i -> Hin Hex. cbn [train_loop].
    rewrite train_batch_inputs_exempt; [reflexivity|exact Hon|exact Hcut|].
    apply list_elem_of_In, list_elem_of_lookup in Hin. destruct Hin as [j Hj].
    exists j, (image_of i), (target dataset i).
    split; [exact (lookup_List_map image_of _ j i Hj)|].
    split; [exact (lookup_List_map (target dataset) _ j i Hj)|exact Hex].
Qed.

(** X8. When the training loop of an epoch ends, for a non-zero log
    interval of size [k] and a positive batch size, every batch was prepared
    and the loop printed one line per [k] batches:
    [len(train_loader) // k] lines, line [j] after batch [(j + 1) * k],
    carrying the loss sum, the match count over the batch size, and the F1
    sum of the [k] batches since the line before, each divided by the
    interval.  Without the custom augmentation the loop does end. *)
Theorem train_loop_lines (batches : list (list nat)) :
  log_interval env <> 0%Z ->
  batch_size args <> 0 ->
  (augmentation args <> "CustomAugmentation" ->
   exists r, train_loop args env dataset fold epoch 0 batches running_zero = Ok r) /\
  forall acc_end lines,
    train_loop args env dataset fold epoch 0 batches running_zero = Ok (acc_end, lines) ->
    exists stats,
      batch_stats args dataset fold epoch 0 batches = Ok stats /\
      length stats = length batches /\
      length lines = length batches / Z.abs_nat (log_interval env) /\
      forall j line,
        lines !! j = Some line ->
        let blk := block (Z.abs_nat (log_interval env)) j stats in
        length blk = Z.abs_nat (log_interval env) /\
        log_batch line = (j + 1) * Z.abs_nat (log_interval env) /\
        train_loss line
        = (running_sum (List.map loss_item blk) / inject_Z (log_interval env))%Q /\
        train_acc line
        = (of_int (list_sum (List.map match_item blk)) / of_int (batch_size args)
           / inject_Z (log_interval env))%Q /\
        train_f1 line
        = (running_sum (List.map f1_item blk) / inject_Z (log_interval env))%Q.
Proof.
  intros HL Hbs. split.
  - intros Hoff.
    destruct (batch_stats_policy_off batches 0 Hoff) as (stats & Hstats & _).
    rewrite (train_loop_phase batches 0 stats running_zero Hstats).
    destruct (train_phase_blocks (log_interval env) (batch_size args) HL Hbs
                (length stats) stats 0 (Nat.le_refl _)) as (acc_end & lines & Hrun & _).
    cbn [Nat.mul] in Hrun. rewrite Hrun. eexists; reflexivity.
  - intros acc_end lines Hrun.
    destruct (train_loop_ok_stats batches 0 running_zero _ Hrun) as (stats & Hstats & Hlen).
    rewrite (train_loop_phase batches 0 stats running_zero Hstats) in Hrun.
    destruct (train_phase_blocks (log_interval env) (batch_size args) HL Hbs
                (length stats) stats 0 (Nat.le_refl _))
      as (acc_end' & lines' & Hrun' & Hlines_len & Hlines & _).
    cbn [Nat.mul] in Hrun'. rewrite Hrun in Hrun'. injection Hrun' as <- <-.
    exists stats. split; [exact Hstats|]. split; [exact Hlen|].
    split; [rewrite <- Hlen; exact Hlines_len|].
    intros j line Hj blk. rewrite (Hlines j line Hj). fold blk.
    cbn [log_batch train_loss train_acc train_f1 log_line].
    rewrite accumulate_loss, accumulate_f1, accumulate_matches.
    cbn [running_zero loss_value matches f1 Nat.add].
    split.
    { apply block_length; [lia|]. rewrite <- Hlines_len.
      exact (lookup_lt_Some _ _ _ Hj). }
    split; [|repeat split; reflexivity].
    assert (0 < (j + 1) * Z.abs_nat (log_interval env)) by nia. lia.
Qed.

End OneEpoch.

(** X20. Loader and log together: over the training loader that
    [getDataloader] builds for a fold, with a positive log interval and
    without cutmix, a training loop that ends printed
    [(len(train_idx) // batch_size) // log_interval] lines, and since every
    batch of the loader is full and the network cannot match more labels
    than a batch holds, each printed accuracy lies between 0 and 1. *)
Theorem train_lines_per_epoch (args : Args) (env : Setting) (dataset : Dataset)
        (fold epoch : nat) (train_idx valid_idx : list nat)
        (train_loader val_loader : DataLoader.t)
        (acc_end : running) (lines : list train_log) :
  getDataloader dataset train_idx valid_idx (batch_size args) None
  = Some (train_loader, val_loader) ->
  (0 < log_interval env)%Z ->
  cutmix args <> "yes" ->
  (forall f e i inputs labels,
      match_item (train_stats f e i inputs labels) <= length labels) ->
  train_loop args env dataset fold epoch 0 (DataLoader.iter train_loader) running_zero
  = Ok (acc_end, lines) ->
  length lines = length train_idx / batch_size args / Z.to_nat (log_interval env) /\
  Forall (fun line => (0 <= train_acc line)%Q /\ (train_acc line <= 1)%Q) lines.
Proof.
  intros Hget HL Hcut Hnet Hrun.
  assert (Hbs : 0 < batch_size args).
  { unfold getDataloader in Hget.
    destruct (Nat.eqb_spec (batch_size args) 0); [discriminate|lia]. }
  destruct (getDataloader_spec dataset train_idx valid_idx (batch_size args) None Hbs)
    as (tl & vl & Hget' & Hti & _ & Htb & _ & Hts & _ & Htd & _).
  rewrite Hget in Hget'. injection Hget' as <- <-.
  assert (Hpos : 0 < DataLoader.batch_size train_loader) by (rewrite Htb; exact Hbs).
  destruct (drop_last_loader_batches train_loader Hts Htd Hpos) as (Hcount & _ & Hfull & _).
  cbv zeta in Hcount. rewrite Htb, Hti in Hcount. rewrite Htb in Hfull.
  assert (HL0 : log_interval env <> 0%Z) by lia.
  assert (Hbs0 : batch_size args <> 0) by lia.
  destruct (train_loop_ok_stats args env dataset fold epoch _ 0 running_zero _ Hrun)
    as (stats & Hstats & Hlen).
  rewrite (train_loop_phase args env dataset fold epoch _ 0 stats running_zero Hstats)
    in Hrun.
  pose proof (batch_stats_matches args dataset fold epoch (batch_size args) _ 0 stats
                Hcut Hnet Hfull Hstats) as Hm.
  destruct (train_phase_blocks (log_interval env) (batch_size args) HL0 Hbs0
              (length stats) stats 0 (Nat.le_refl _))
    as (acc_end' & lines' & Hrun' & Hlines_len & Hlines & _).
  cbn [Nat.mul] in Hrun'. rewrite Hrun in Hrun'. injection Hrun' as <- <-.
  assert (Hk : Z.abs_nat (log_interval env) = Z.to_nat (log_interval env)) by lia.
  split.
  { rewrite Hlines_len, Hlen, Hcount, Hk. reflexivity. }
  apply Forall_lookup. intros j line Hj.
  rewrite (Hlines j line Hj). cbn [train_acc log_line].
  rewrite accumulate_matches. cbn [running_zero matches Nat.add].
  set (blk := block (Z.abs_nat (log_interval env)) j stats).
  assert (Hblk : length blk = Z.abs_nat (log_interval env)).
  { apply block_length; [lia|]. rewrite <- Hlines_len. exact (lookup_lt_Some _ _ _ Hj). }
  assert (Hsum : list_sum (List.map match_item blk)
                 <= Z.abs_nat (log_interval env) * batch_size args).
  { rewrite <- Hblk, <- (length_map match_item blk). apply list_sum_bound.
    apply Forall_forall. intros x Hx.
    apply list_elem_of_In, in_map_iff in Hx. destruct Hx as (b & <- & Hb).
    rewrite Forall_forall in Hm. apply Hm.
    unfold blk, block in Hb. apply list_elem_of_In in Hb.
    exact (subseteq_drop _ _ _ (subseteq_take _ _ _ Hb)). }
  assert (HLq : (0 < inject_Z (log_interval env))%Q).
  { change 0%Q with (inject_Z 0). rewrite <- Zlt_Qlt. exact HL. }
  assert (Hbq : (0 < of_int (batch_size args))%Q).
  { unfold of_int. change 0%Q with (inject_Z 0). rewrite <- Zlt_Qlt. lia. }
  split.
  - unfold Qdiv. apply Qmult_le_0_compat.
    + apply Qmult_le_0_compat; [apply of_int_nonneg|].
      apply Qinv_le_0_compat, Qlt_le_weak, Hbq.
    + apply Qinv_le_0_compat, Qlt_le_weak, HLq.
  - apply Qle_shift_div_r; [exact HLq|].
    apply Qle_shift_div_r; [exact Hbq|].
    unfold of_int, Qle, Qmult, inject_Z. cbn [Qnum Qden]. nia.
Qed.

End TrainLoopFacts.

Lemma train_loop_errors_witness :
  batch_size (sample_args 1 64) <> 0 /\
  train_loop (H := sample_transforms) (H0 := sample_runtime)
    (sample_args 1 64) sample_setting (uniform_images 101 20) 0 1 0 [[3; 4]; [5; 6]]
    running_zero
  = Raise TypeError.
Proof.
  assert (Hbs : batch_size (sample_args 1 64) <> 0) by (simpl; lia).
  split; [exact Hbs|].
  destruct (train_loop_errors (H := sample_transforms) (H0 := sample_runtime)
              (sample_args 1 64) sample_setting (uniform_images 101 20) 0 1
              [[3; 4]; [5; 6]] Hbs) as [_ Hon].
  apply (Hon eq_refl) with (batch := [3; 4]) (rest := [[5; 6]]) (i := 3).
  - discriminate.
  - reflexivity.
  - left. reflexivity.
  - reflexivity.
Defined.

Lemma train_loop_lines_witness :
  log_interval sample_setting <> 0%Z /\
  batch_size (plain_args 1 16) <> 0 /\
  exists r,
    train_loop (H := sample_transforms) (H0 := sample_runtime)
      (plain_args 1 16) sample_setting (uniform_images 101 20) 0 1 0
      [seq 21 16; seq 37 16] running_zero
    = Ok r.
Proof.
  assert (HL : log_interval sample_setting <> 0%Z) by (simpl; lia).
  assert (Hbs : batch_size (plain_args 1 16) <> 0) by (simpl; lia).
  split; [exact HL|]. split; [exact Hbs|].
  destruct (train_loop_lines (H := sample_transforms) (H0 := sample_runtime)
              (plain_args 1 16) sample_setting (uniform_images 101 20) 0 1
              [seq 21 16; seq 37 16] HL Hbs) as [Hends _].
  apply Hends. discriminate.
Defined.

Lemma train_lines_per_epoch_witness :
  let env := {| log_interval := 2; dataset_name := "MaskBaseDataset";
                save_dir_exists := true |} in
  exists train_loader val_loader acc_end lines,
    getDataloader (uniform_images 101 20) (seq 21 80) (seq 0 21)
      (batch_size (plain_args 1 16)) None = Some (train_loader, val_loader) /\
    (0 < log_interval env)%Z /\
    cutmix (plain_args 1 16) <> "yes" /\
    train_loop (H := sample_transforms) (H0 := sample_runtime)
      (plain_args 1 16) env (uniform_images 101 20) 0 1 0
      (DataLoader.iter train_loader) running_zero
    = Ok (acc_end, lines) /\
    length lines = 2.
Proof.
  intros env.
  destruct (getDataloader (uniform_images 101 20) (seq 21 80) (seq 0 21)
              (batch_size (plain_args 1 16)) None) as [[tl vl]|] eqn:Hget.
  2: { exfalso. vm_compute in Hget. discriminate Hget. }
  destruct (train_loop (H := sample_transforms) (H0 := sample_runtime)
              (plain_args 1 16) env (uniform_images 101 20) 0 1 0
              (DataLoader.iter tl) running_zero) as [[acc_end lines]|e] eqn:E.
  2: { exfalso. vm_compute in Hget. injection Hget as <- _.
       vm_compute in E. discriminate E. }
  assert (HL : (0 < log_interval env)%Z) by (simpl; lia).
  assert (Hcut : cutmix (plain_args 1 16) <> "yes") by discriminate.
  exists tl, vl, acc_end, lines.
  split; [reflexivity|]. split; [exact HL|]. split; [exact Hcut|]. split; [exact E|].
  destruct (train_lines_per_epoch (H := sample_transforms) (H0 := sample_runtime)
              (plain_args 1 16) env (uniform_images 101 20) 0 1 (seq 21 80) (seq 0 21)
              tl vl acc_end lines Hget HL Hcut) as [Hlen _].
  - intros f e i inputs labels. cbn. lia.
  - exact E.
  - rewrite Hlen. reflexivity.
Defined.

(* ================================================================== *)
(** * When a run reports *)
(* ================================================================== *)

Section ReportFacts.
Context {image : Type} `{Transforms image} `{Runtime image} `{Collaborators}.

(** X18. A run reports only after progress in every fold: it ran at
    least one epoch, with a positive batch size, in an existing save
    directory; every fold ended with a positive best F1 (the summary of a
    fold cannot format the initial int 0), and the value reported as mean
    accuracy, which averages the best losses, is a number.  With
    [--epochs 0] the run raises [ValueError]: at the planner, at the
    loaders, or at the summary of the first fold. *)
Theorem run_reports_only_after_progress args env dataset save_dir w :
  (forall r,
      train_or_raise args env dataset save_dir w = Ok r ->
      0 < epochs args /\
      0 < batch_size args /\
      save_dir_exists env = true /\
      Forall (fun x => (0 < x)%Q) (kfold_val_f1 (kfolds r)) /\
      exists q, mean_acc r = Fin q) /\
  (epochs args = 0 ->
   train_or_raise args env dataset save_dir w = Raise ValueError).
Proof.
  split.
  - intros r Hrun.
    destruct (train_or_raise_ok _ _ _ _ _ _ Hrun) as (_ & He & Hbs & Hdir & Hf1 & _).
    split; [exact He|]. split; [exact Hbs|]. split; [exact Hdir|]. split; [exact Hf1|].
    unfold train_or_raise in Hrun.
    destruct (StratifiedKFold.split n_splits (image_paths dataset) (kfold_labels dataset))
      as [folds|]; [|discriminate].
    destruct (fold_loop_or_raise args env dataset save_dir (enumerate folds) _ w)
      as [[k w']|] eqn:Ef; [|discriminate].
    injection Hrun as <-. cbn [mean_acc].
    destruct (fold_loop_or_raise_ok _ _ _ _ _ _ _ _ _ Ef) as (Hpure & _).
    assert (Hfin : Forall (fun x => exists q, x = Fin q) (kfold_val_loss k)).
    { refine (fold_loop_loss_finite args dataset save_dir _ _ _ _ _ _ Hpure _);
        [lia|constructor]. }
    destruct (np_sum_inf_finite _ Hfin) as [q Hq]. rewrite Hq.
    eexists. reflexivity.
  - intros He. unfold train_or_raise.
    destruct (StratifiedKFold.split n_splits (image_paths dataset) (kfold_labels dataset))
      as [folds|] eqn:Es; [|reflexivity].
    pose proof (split_length _ _ _ _ Es) as Hlen.
    destruct folds as [|[t v] folds]; [discriminate Hlen|].
    unfold enumerate. cbn [length seq zip zip_with fold_loop_or_raise].
    unfold train_fold_or_raise. rewrite He.
    destruct (getDataloader dataset t v (batch_size args) None) as [[tl vl]|];
      reflexivity.
Qed.

End ReportFacts.
